(** * ETL-AUDIT: the audit extractor of [Prompt.py] and the sample pipeline

    The first part is a shallow embedding of [analyze_etl_script]
    (src/Prompt.py) and of the Python library functions it calls
    ([re.search] on its one pattern, [json.loads], [print]), followed by the
    properties of the prompt builder, the completion consumer and the
    structured result extractor.  The second part embeds the functions of
    the sample pipeline (src/etl_complete_testcases.py) as programs over the
    calls they make, and states what every run of them does.

    Conventions of the embedding.
    - A Python [str] is a [string]: the bytes of its UTF-8 encoding.  Every
      literal of the pattern and of the JSON grammar is ASCII, and an ASCII
      byte never occurs inside a multi-byte sequence, so searching and
      splitting on bytes and on code points agree.
    - The arguments have the types of the specification's AuditRequest:
      [script_content] is a [str], [file_name] and [additional_questions] are
      a [str] or [None].
    - An exception is an instance of Python's [Exception], the class of the
      errors a program can meet; [KeyboardInterrupt] and [SystemExit], which
      ask the program to stop, are outside the embedding.  An [outcome] is a
      returned value or a raised exception.
    - Effects: the text written by [print] is threaded through a [World],
      and [print] itself never fails.  The generation service is a parameter
      [call_genai_api]; the stream it returns is a finite sequence of chunks
      that may end in a raised failure.
    - The limits of the interpreter that [json.loads] can meet, the digit
      limit of [int] and the recursion depth, are the fields of a
      [Py.Interpreter], an implicit argument of every definition that decodes
      JSON; the properties hold for every interpreter.  Memory is unbounded. *)

From Stdlib Require Import String Ascii List Arith Lia ZArith Bool
  DecimalString.
Import ListNotations.
Local Open Scope string_scope.
Set Warnings "-register-all".

(** ** Strings *)

Module Str.

(** The double quote and the line feed, which a string literal here cannot
    spell. *)
Definition dq : string := String "034"%char "".
Definition nl : string := String "010"%char "".

(** [quoted s] is [s] between double quotes. *)
Definition quoted (s : string) : string := dq ++ s ++ dq.

(** [s[n:]] *)
Fixpoint drop (n : nat) (s : string) : string :=
  match n, s with
  | O, _ => s
  | S _, "" => ""
  | S n', String _ s' => drop n' s'
  end.

(** [s[:n]] *)
Fixpoint take (n : nat) (s : string) : string :=
  match n, s with
  | O, _ => ""
  | S _, "" => ""
  | S n', String c s' => String c (take n' s')
  end.

(** [s.removeprefix(p)] when [s.startswith(p)], and [None] otherwise. *)
Fixpoint strip_prefix (p s : string) : option string :=
  match p, s with
  | "", _ => Some s
  | String _ _, "" => None
  | String a p', String b s' =>
      if Ascii.eqb a b then strip_prefix p' s' else None
  end.

Definition startswith (p s : string) : bool :=
  match strip_prefix p s with Some _ => true | None => false end.

(** [needle in s] *)
Fixpoint contains (needle s : string) : bool :=
  startswith needle s
  || match s with "" => false | String _ s' => contains needle s' end.

(** [s] with every tilde replaced by a double quote: the way the long
    literal of the prompt is written below. *)
Fixpoint tilde_as_dq (s : string) : string :=
  match s with
  | "" => ""
  | String c s' =>
      String (if Ascii.eqb c "~"%char then "034"%char else c) (tilde_as_dq s')
  end.

(** A byte that continues a multi-byte character of UTF-8. *)
Definition is_continuation (c : ascii) : bool :=
  let n := N_of_ascii c in ((128 <=? n) && (n <? 192))%N.

(** [s[:n]] counted in characters, for the slices that [print] shows. *)
Fixpoint slice_to (n : nat) (s : string) : string :=
  match s with
  | "" => ""
  | String c s' =>
      if is_continuation c then String c (slice_to n s')
      else match n with
           | O => ""
           | S n' => String c (slice_to n' s')
           end
  end.

(** [s * n] *)
Fixpoint repeat (s : string) (n : nat) : string :=
  match n with
  | O => ""
  | S n' => s ++ repeat s n'
  end.

(** [r] is what is left of [s] after some of its characters. *)
Definition suffix (r s : string) : Prop := exists p, s = p ++ r.

End Str.

(** ** Regular expressions: [re.search] on the pattern of line 94

    The pattern [r"```structured-results\n({.*?})\n```"] is a sequence of
    literals, one lazy [.*?] and one capturing group.  [Re] is a backtracking
    matcher for such sequences, with the order of attempts of Python's [re]:
    a literal must match where the matcher stands, [.*?] tries the rest of
    the pattern after zero characters, then one, then two ..., and a search
    tries the start positions from left to right. *)

Module Re.

Inductive node : Type :=
| Literal (s : string)      (* a run of literal characters *)
| MinRepeatAny              (* [.*?] *)
| GroupBegin                (* [(] of group 1 *)
| GroupEnd.                 (* [)] of group 1 *)

Definition pattern := list node.

(** What a match in progress knows of group 1: the input that was left when
    the group opened, and the text of the group once it has closed. *)
Record regs : Type := { opened : option string; closed : option string }.

Definition no_regs : regs := {| opened := None; closed := None |}.

Definition open_group (g : regs) (s : string) : regs :=
  {| opened := Some s; closed := closed g |}.

Definition close_group (g : regs) (s : string) : regs :=
  {| opened := opened g;
     closed := match opened g with
               | Some s0 => Some (Str.take (String.length s0 - String.length s) s0)
               | None => None
               end |}.

(** [.] matches every character under [re.DOTALL], and every character but
    the line feed without it. *)
Definition dot (dotall : bool) (c : ascii) : bool :=
  dotall || negb (Ascii.eqb c "010"%char).

(** [.*?] followed by the continuation [k]: the shortest run first. *)
Fixpoint min_repeat_any {A : Type} (dotall : bool) (k : string -> option A)
  (s : string) : option A :=
  match k s with
  | Some r => Some r
  | None =>
      match s with
      | "" => None
      | String c s' => if dot dotall c then min_repeat_any dotall k s' else None
      end
  end.

(** The pattern [p] matched against a prefix of [s]: the input left after
    the match and the registers, or [None]. *)
Fixpoint match_here (dotall : bool) (p : pattern) (g : regs) (s : string)
  : option (string * regs) :=
  match p with
  | [] => Some (s, g)
  | Literal l :: p' =>
      match Str.strip_prefix l s with
      | Some s' => match_here dotall p' g s'
      | None => None
      end
  | MinRepeatAny :: p' => min_repeat_any dotall (match_here dotall p' g) s
  | GroupBegin :: p' => match_here dotall p' (open_group g s) s
  | GroupEnd :: p' => match_here dotall p' (close_group g s) s
  end.

(** A match object: [m.start()], [m.end()] and [m.group(1)]. *)
Record Match : Type := { m_start : nat; m_end : nat; group1 : option string }.

Fixpoint search_from (dotall : bool) (p : pattern) (s : string) (pos : nat)
  : option Match :=
  match match_here dotall p no_regs s with
  | Some (rest, g) =>
      Some {| m_start := pos;
              m_end := pos + (String.length s - String.length rest);
              group1 := closed g |}
  | None =>
      match s with
      | "" => None
      | String _ s' => search_from dotall p s' (S pos)
      end
  end.

(** [re.search(p, text, flags)] *)
Definition search (dotall : bool) (p : pattern) (text : string) : option Match :=
  search_from dotall p text 0.

End Re.

(** The fence that opens the block, and the one that closes it. *)
Definition fence_open : string := "```structured-results" ++ Str.nl.
Definition fence_close : string := Str.nl ++ "```".

(** [r"```structured-results\n({.*?})\n```"]: in a regular expression [\n] is
    the line feed, and a [{] that starts no repetition count, like the [}],
    is a literal. *)
Definition structured_results_re : Re.pattern :=
  [Re.Literal fence_open; Re.GroupBegin; Re.Literal "{"; Re.MinRepeatAny;
   Re.Literal "}"; Re.GroupEnd; Re.Literal fence_close].

(** ** Python values, exceptions and effects *)

Module Py.

(** The values [json.loads] builds and [analyze_etl_script] returns: [None],
    [bool], [int], [float], [str], [list] and [dict].  A [float] is kept as
    the text [float] was called on; a [dict] keeps its keys in insertion
    order. *)
Inductive value : Type :=
| VNone
| VBool (b : bool)
| VInt (z : Z)
| VFloat (literal : string)
| VStr (s : string)
| VList (items : list value)
| VDict (items : list (string * value)).

(** [d[k] = v]: an existing key keeps its place and takes the new value, a
    new key goes last. *)
Fixpoint dict_set (d : list (string * value)) (k : string) (v : value)
  : list (string * value) :=
  match d with
  | [] => [(k, v)]
  | (k', v') :: d' =>
      if String.eqb k' k then (k', v) :: d' else (k', v') :: dict_set d' k v
  end.

(** [dict(pairs)] *)
Definition dict (pairs : list (string * value)) : list (string * value) :=
  fold_left (fun d kv => dict_set d (fst kv) (snd kv)) pairs [].

(** [d.get(k)] *)
Fixpoint dict_get (d : list (string * value)) (k : string) : option value :=
  match d with
  | [] => None
  | (k', v) :: d' => if String.eqb k' k then Some v else dict_get d' k
  end.

(** [isinstance(v, dict)] *)
Definition is_dict (v : value) : bool :=
  match v with VDict _ => true | _ => false end.

(** [isinstance(v, dict) and k in v] *)
Definition has_key (k : string) (v : value) : bool :=
  match v with
  | VDict d => match dict_get d k with Some _ => true | None => false end
  | _ => false
  end.

(** The classes of exception the code tells apart: [json.JSONDecodeError],
    which line 101 catches, and every other subclass of [Exception]. *)
Inductive exn_class : Type :=
| JSONDecodeError
| OtherException (name : string).

(** An exception: its class and [str(e)]. *)
Record exn : Type := Exn { class_of : exn_class; str : string }.

Definition isinstance_JSONDecodeError (e : exn) : bool :=
  match class_of e with JSONDecodeError => true | OtherException _ => false end.

(** [isinstance(e, Exception)] *)
Definition isinstance_Exception (e : exn) : bool := true.

Inductive outcome (A : Type) : Type :=
| Return (a : A)
| Raise (e : exn).
Arguments Return {A} a.
Arguments Raise {A} e.

(** The interpreter a program runs on, as far as [json.loads] can tell:
    [sys.get_int_max_str_digits()], which is 0 when [int] has no limit and
    at least 640 otherwise (4300 unless it was set), and the number of
    nested calls the interpreter still allows when the scanner of
    [json.loads] starts, which is what the calls that are under way have
    left of [sys.getrecursionlimit()]. *)
Class Interpreter : Type := {
  int_max_str_digits : nat;
  recursion_remaining : nat
}.

(** What a run can change: the text written to standard output. *)
Record World : Type := { stdout : string }.

(** A computation: from the world before to its outcome and the world
    after.  What a computation wrote before it raised stays written. *)
Definition M (A : Type) : Type := World -> outcome A * World.

Definition ret {A : Type} (a : A) : M A := fun w => (Return a, w).

Definition raise {A : Type} (e : exn) : M A := fun w => (Raise e, w).

Definition bind {A B : Type} (m : M A) (f : A -> M B) : M B :=
  fun w =>
    match m w with
    | (Return a, w') => f a w'
    | (Raise e, w') => (Raise e, w')
    end.

(** A pure call that may raise. *)
Definition lift {A : Type} (o : outcome A) : M A := fun w => (o, w).

(** [try: body  except C as e: handler(e)], where [catches e] says whether
    [e] is an instance of [C]. *)
Definition try_except {A : Type} (body : M A) (catches : exn -> bool)
  (handler : exn -> M A) : M A :=
  fun w =>
    match body w with
    | (Return a, w') => (Return a, w')
    | (Raise e, w') => if catches e then handler e w' else (Raise e, w')
    end.

(** [print(s, end=e)] *)
Definition print_end (s e : string) : M unit :=
  fun w => (Return tt, {| stdout := stdout w ++ s ++ e |}).

(** [print(s)] *)
Definition print (s : string) : M unit := print_end s Str.nl.

(** The value a run returns or the exception it lets escape. *)
Definition result {A : Type} (m : M A) (w : World) : outcome A := fst (m w).

End Py.

Declare Scope py_scope.
Delimit Scope py_scope with py.
Notation "x <- m ;; k" := (Py.bind m (fun x => k))
  (at level 61, m at next level, right associativity) : py_scope.
Notation "m ;; k" := (Py.bind m (fun _ => k))
  (at level 61, right associativity) : py_scope.

(** ** [json.loads]

    The decoder of Python's [json] package ([json/decoder.py] and the
    scanner of [Modules/_json.c]) on a [str], with the default hooks and
    [strict=True], as CPython 3.11 runs it.  The functions work on the input
    that is left instead of an index into it; [msg] is the message of a
    [JSONDecodeError] without its position.  A number has ASCII digits and a
    [\u] escape four hexadecimal digits.

    Besides a [JSONDecodeError] the decoder raises the [ValueError] of [int]
    on an integer of more digits than [sys.get_int_max_str_digits()], and a
    [RecursionError] where it needs a nested call and the interpreter has
    none left: at the bracket that opens an object or an array, at [NaN],
    [Infinity] and [-Infinity], and where it builds a [JSONDecodeError]. *)

Module Json.
Import Py.

Inductive msg : Type :=
| Unexpected_BOM
| Expecting_value
| Extra_data
| Unterminated_string
| Invalid_control_character
| Invalid_escape
| Invalid_uXXXX_escape
| Expecting_property_name
| Expecting_colon_delimiter
| Expecting_comma_delimiter.

Definition msg_text (m : msg) : string :=
  match m with
  | Unexpected_BOM => "Unexpected UTF-8 BOM (decode using utf-8-sig)"
  | Expecting_value => "Expecting value"
  | Extra_data => "Extra data"
  | Unterminated_string => "Unterminated string starting at"
  | Invalid_control_character => "Invalid control character at"
  | Invalid_escape => "Invalid \escape"
  | Invalid_uXXXX_escape => "Invalid \uXXXX escape"
  | Expecting_property_name => "Expecting property name enclosed in double quotes"
  | Expecting_colon_delimiter => "Expecting ':' delimiter"
  | Expecting_comma_delimiter => "Expecting ',' delimiter"
  end.

(** What a scanning function gives: a value and the input left after it, a
    [JSONDecodeError], [StopIteration] (no value starts here), an exception
    of another class (a [ValueError] of [int], a [RecursionError]), or no
    answer for want of fuel. *)
Inductive res (A : Type) : Type :=
| Parsed (a : A) (rest : string)
| DecodeError (m : msg)
| StopIteration
| OtherError (e : exn)
| OutOfFuel.
Arguments Parsed {A} a rest.
Arguments DecodeError {A} m.
Arguments StopIteration {A}.
Arguments OtherError {A} e.
Arguments OutOfFuel {A}.

(** [WHITESPACE_STR = ' \t\n\r'] *)
Definition is_ws (c : ascii) : bool :=
  Ascii.eqb c " "%char || Ascii.eqb c "009"%char
  || Ascii.eqb c "010"%char || Ascii.eqb c "013"%char.

(** [WHITESPACE.match(s, end).end()] *)
Fixpoint skip_ws (s : string) : string :=
  match s with
  | "" => ""
  | String c s' => if is_ws c then skip_ws s' else s
  end.

Definition is_digit (c : ascii) : bool :=
  let n := N_of_ascii c in ((48 <=? n) && (n <=? 57))%N.

Definition hex_value (c : ascii) : option N :=
  let n := N_of_ascii c in
  if ((48 <=? n) && (n <=? 57))%N then Some (n - 48)%N
  else if ((65 <=? n) && (n <=? 70))%N then Some (n - 55)%N
  else if ((97 <=? n) && (n <=? 102))%N then Some (n - 87)%N
  else None.

(** [_decode_uXXXX]: the four hexadecimal digits after the [u]. *)
Definition decode_uXXXX (s : string) : option (N * string) :=
  match s with
  | String a (String b (String c (String d rest))) =>
      match hex_value a, hex_value b, hex_value c, hex_value d with
      | Some x, Some y, Some z, Some t => Some ((((x * 16 + y) * 16 + z) * 16 + t)%N, rest)
      | _, _, _, _ => None
      end
  | _ => None
  end.

(** [chr(uni)], in UTF-8 (a lone surrogate takes three bytes like its
    neighbours). *)
Definition chr (uni : N) : string :=
  let byte (n : N) := String (ascii_of_N n) "" in
  (if uni <? 128 then byte uni
   else if uni <? 2048 then byte (192 + uni / 64) ++ byte (128 + uni mod 64)
   else if uni <? 65536 then
     byte (224 + uni / 4096) ++ byte (128 + (uni / 64) mod 64)
       ++ byte (128 + uni mod 64)
   else
     byte (240 + uni / 262144) ++ byte (128 + (uni / 4096) mod 64)
       ++ byte (128 + (uni / 64) mod 64) ++ byte (128 + uni mod 64))%N.

(** [BACKSLASH] *)
Definition backslash (esc : ascii) : option string :=
  if Ascii.eqb esc "034"%char then Some Str.dq
  else if Ascii.eqb esc "\"%char then Some "\"
  else if Ascii.eqb esc "/"%char then Some "/"
  else if Ascii.eqb esc "b"%char then Some (String "008"%char "")
  else if Ascii.eqb esc "f"%char then Some (String "012"%char "")
  else if Ascii.eqb esc "n"%char then Some Str.nl
  else if Ascii.eqb esc "r"%char then Some (String "013"%char "")
  else if Ascii.eqb esc "t"%char then Some (String "009"%char "")
  else None.

(** The loop of [py_scanstring]; [s] starts after the opening quote. *)
Fixpoint scanstring_loop (fuel : nat) (s chunks : string) : res string :=
  match fuel with
  | O => OutOfFuel
  | S fuel' =>
      match s with
      | "" => DecodeError Unterminated_string
      | String c s' =>
          if Ascii.eqb c "034"%char then Parsed chunks s'
          else if Ascii.eqb c "\"%char then
            match s' with
            | "" => DecodeError Unterminated_string
            | String esc s'' =>
                if Ascii.eqb esc "u"%char then
                  match decode_uXXXX s'' with
                  | None => DecodeError Invalid_uXXXX_escape
                  | Some (uni, s3) =>
                      if ((55296 <=? uni) && (uni <=? 56319))%N && Str.startswith "\u" s3 then
                        match decode_uXXXX (Str.drop 2 s3) with
                        | None => DecodeError Invalid_uXXXX_escape
                        | Some (uni2, s4) =>
                            if ((56320 <=? uni2) && (uni2 <=? 57343))%N then
                              scanstring_loop fuel' s4
                                (chunks ++ chr (65536 + ((uni - 55296) * 1024 + (uni2 - 56320)))%N)
                            else scanstring_loop fuel' s3 (chunks ++ chr uni)
                        end
                      else scanstring_loop fuel' s3 (chunks ++ chr uni)
                  end
                else
                  match backslash esc with
                  | Some char => scanstring_loop fuel' s'' (chunks ++ char)
                  | None => DecodeError Invalid_escape
                  end
            end
          else if (N_of_ascii c <? 32)%N then DecodeError Invalid_control_character
          else scanstring_loop fuel' s' (chunks ++ String c "")
      end
  end.

Definition scanstring (s : string) : res string :=
  scanstring_loop (S (String.length s)) s "".

(** The longest run of digits at the head of [s], and what follows it. *)
Fixpoint span_digits (s : string) : string * string :=
  match s with
  | "" => ("", "")
  | String c s' =>
      if is_digit c then let (d, r) := span_digits s' in (String c d, r)
      else ("", s)
  end.

(** An optional character of the class [ok]: what it matched and the input
    after it. *)
Definition optional_char (ok : ascii -> bool) (s : string) : string * string :=
  match s with
  | String c r => if ok c then (String c "", r) else ("", s)
  | "" => ("", s)
  end.

(** [0|[1-9]\d*] *)
Definition integer_part (s : string) : option (string * string) :=
  match s with
  | String c r =>
      if Ascii.eqb c "0"%char then Some ("0", r)
      else if is_digit c then Some (span_digits s)
      else None
  | "" => None
  end.

(** [(\.\d+)?] *)
Definition frac_part (s : string) : string * string :=
  match s with
  | String c r =>
      if Ascii.eqb c "."%char then
        match span_digits r with
        | ("", _) => ("", s)
        | (d, r') => ("." ++ d, r')
        end
      else ("", s)
  | "" => ("", s)
  end.

(** [([eE][-+]?\d+)?] *)
Definition exp_part (s : string) : string * string :=
  match s with
  | String e r =>
      if Ascii.eqb e "e"%char || Ascii.eqb e "E"%char then
        let (sign, r1) :=
          optional_char (fun c => Ascii.eqb c "+"%char || Ascii.eqb c "-"%char) r in
        match span_digits r1 with
        | ("", _) => ("", s)
        | (d, r') => (String e sign ++ d, r')
        end
      else ("", s)
  | "" => ("", s)
  end.

(** [NUMBER_RE.match]: an optional minus sign and the integer part (group
    1), the fraction (group 2) and the exponent (group 3), an absent group
    being empty, and the input after the match. *)
Definition match_number (s : string) : option (string * string * string * string) :=
  let (sign, s1) := optional_char (fun c => Ascii.eqb c "-"%char) s in
  match integer_part s1 with
  | None => None
  | Some (digits, s2) =>
      let (frac, s3) := frac_part s2 in
      let (exp, s4) := exp_part s3 in
      Some (sign ++ digits, frac, exp, s4)
  end.

(** The number that an optional [-] and decimal digits denote. *)
Definition int_value (text : string) : Z :=
  let digits_value (d : string) : Z :=
    fold_left (fun acc c => (acc * 10 + Z.of_N (N_of_ascii c - 48))%Z)
      (list_ascii_of_string d) 0%Z in
  match text with
  | String c d => if Ascii.eqb c "-"%char then Z.opp (digits_value d) else digits_value text
  | "" => 0%Z
  end.

(** The number of digits of an optional [-] and decimal digits. *)
Definition count_digits (text : string) : nat :=
  match text with
  | String c d => if Ascii.eqb c "-"%char then String.length d else String.length text
  | "" => 0
  end.

(** [str(n)] for a number of digits. *)
Definition str_of_nat (n : nat) : string :=
  DecimalString.NilZero.string_of_uint (Nat.to_uint n).

(** The [ValueError] of [int] on [digits] digits where the limit is
    [limit]. *)
Definition int_ValueError (limit digits : nat) : exn :=
  {| class_of := OtherException "ValueError";
     str := "Exceeds the limit (" ++ str_of_nat limit
            ++ " digits) for integer string conversion: value has "
            ++ str_of_nat digits
            ++ " digits; use sys.set_int_max_str_digits() to increase the limit" |}.

(** The [RecursionError] of a nested call for which none is left; [call]
    says which call it was. *)
Definition RecursionError (call : string) : exn :=
  {| class_of := OtherException "RecursionError";
     str := "maximum recursion depth exceeded" ++ call |}.

(** The call that the scanner takes at the bracket that opens an object or
    an array. *)
Definition while_decoding (kind : string) : string :=
  " while decoding a JSON " ++ kind ++ " from a unicode string".

(** The call of a class or of a function of the interpreter; the call of a
    function written in Python has no text of its own. *)
Definition while_calling : string := " while calling a Python object".

(** [raise JSONDecodeError(msg, s, end)] where [calls] nested calls are
    left.  It takes three: the call of the class, that of its [__init__],
    and in there that of [doc.count].  With fewer left, the one that finds
    none raises a [RecursionError] instead. *)
Definition raise_errmsg {A : Type} (calls : nat) (m : msg) : res A :=
  match calls with
  | 0 => OtherError (RecursionError while_calling)
  | 1 => OtherError (RecursionError "")
  | 2 => OtherError (RecursionError while_calling)
  | _ => DecodeError m
  end.

(** [parse_constant(name)], a call of [_CONSTANTS.__getitem__], for [NaN],
    [Infinity] and [-Infinity]. *)
Definition parse_constant {A : Type} (calls : nat) (v : A) (rest : string)
  : res A :=
  match calls with
  | 0 => OtherError (RecursionError while_calling)
  | _ => Parsed v rest
  end.

Section Interpreted.
Context {interpreter : Interpreter}.

(** Whether [int] converts a text of that many digits: more than 640 digits
    are checked against the limit, when there is one. *)
Definition int_converts (digits : nat) : bool :=
  negb ((640 <? digits)%nat && (0 <? int_max_str_digits)%nat
        && (int_max_str_digits <? digits)%nat).

(** [int(text)] on an optional [-] and decimal digits, the [parse_int] of
    the decoder. *)
Definition parse_int (text : string) : outcome Z :=
  if int_converts (count_digits text) then Return (int_value text)
  else Raise (int_ValueError int_max_str_digits (count_digits text)).

(** Whether the next character is [c]; then the input after it. *)
Definition expect (c : ascii) (s : string) : option string :=
  match s with
  | "" => None
  | String c' rest => if Ascii.eqb c' c then Some rest else None
  end.

(** [scan_once] of the C scanner ([Modules/_json.c]), with the loops of
    [_parse_object_unicode] and of [_parse_array_unicode].  [object_items]
    starts after the opening quote of a key, with the pairs read so far;
    [array_items] starts at a value, with the values read so far.  [calls]
    is the number of nested calls that are left: the scanner takes one at
    the bracket that opens an object or an array, for as long as it reads
    the items, and raises a [RecursionError] when none is left.  Where no
    value starts, the [StopIteration] goes up to [raw_decode]. *)
Fixpoint scan_once (fuel calls : nat) (s : string) : res value :=
  match fuel with
  | O => OutOfFuel
  | S fuel' =>
      match s with
      | "" => StopIteration
      | String nextchar s' =>
          if Ascii.eqb nextchar "034"%char then
            match scanstring s' with
            | Parsed str rest => Parsed (VStr str) rest
            | DecodeError m => raise_errmsg calls m
            | StopIteration => StopIteration
            | OtherError e => OtherError e
            | OutOfFuel => OutOfFuel
            end
          else if Ascii.eqb nextchar "{"%char then
            match calls with
            | O => OtherError (RecursionError (while_decoding "object"))
            | S calls' =>
                match expect "}" (skip_ws s'), expect "034" (skip_ws s') with
                | Some rest, _ => Parsed (VDict []) rest
                | None, Some rest => object_items fuel' calls' rest []
                | None, None => raise_errmsg calls' Expecting_property_name
                end
            end
          else if Ascii.eqb nextchar "["%char then
            match calls with
            | O => OtherError (RecursionError (while_decoding "array"))
            | S calls' =>
                match expect "]" (skip_ws s') with
                | Some rest => Parsed (VList []) rest
                | None => array_items fuel' calls' (skip_ws s') []
                end
            end
          else if Str.startswith "null" s then Parsed VNone (Str.drop 4 s)
          else if Str.startswith "true" s then Parsed (VBool true) (Str.drop 4 s)
          else if Str.startswith "false" s then Parsed (VBool false) (Str.drop 5 s)
          else
            match match_number s with
            | Some (integer, frac, exp, rest) =>
                if String.eqb frac "" && String.eqb exp ""
                then
                  match parse_int integer with
                  | Return n => Parsed (VInt n) rest
                  | Raise e => OtherError e
                  end
                else Parsed (VFloat (integer ++ frac ++ exp)) rest
            | None =>
                if Str.startswith "NaN" s
                then parse_constant calls (VFloat "nan") (Str.drop 3 s)
                else if Str.startswith "Infinity" s
                then parse_constant calls (VFloat "inf") (Str.drop 8 s)
                else if Str.startswith "-Infinity" s
                then parse_constant calls (VFloat "-inf") (Str.drop 9 s)
                else StopIteration
            end
      end
  end
with object_items (fuel calls : nat) (s : string) (pairs : list (string * value))
  : res value :=
  match fuel with
  | O => OutOfFuel
  | S fuel' =>
      match scanstring s with
      | Parsed key s1 =>
          match expect ":" (skip_ws s1) with
          | Some s2 =>
              match scan_once fuel' calls (skip_ws s2) with
              | Parsed v s3 =>
                  let pairs' := (pairs ++ [(key, v)])%list in
                  match expect "}" (skip_ws s3), expect "," (skip_ws s3) with
                  | Some rest, _ => Parsed (VDict (dict pairs')) rest
                  | None, Some s4 =>
                      match expect "034" (skip_ws s4) with
                      | Some s5 => object_items fuel' calls s5 pairs'
                      | None => raise_errmsg calls Expecting_property_name
                      end
                  | None, None => raise_errmsg calls Expecting_comma_delimiter
                  end
              | DecodeError m => DecodeError m
              | StopIteration => StopIteration
              | OtherError e => OtherError e
              | OutOfFuel => OutOfFuel
              end
          | None => raise_errmsg calls Expecting_colon_delimiter
          end
      | DecodeError m => raise_errmsg calls m
      | StopIteration => StopIteration
      | OtherError e => OtherError e
      | OutOfFuel => OutOfFuel
      end
  end
with array_items (fuel calls : nat) (s : string) (values : list value) : res value :=
  match fuel with
  | O => OutOfFuel
  | S fuel' =>
      match scan_once fuel' calls s with
      | Parsed v s1 =>
          let values' := (values ++ [v])%list in
          match expect "]" (skip_ws s1), expect "," (skip_ws s1) with
          | Some rest, _ => Parsed (VList values') rest
          | None, Some s2 => array_items fuel' calls (skip_ws s2) values'
          | None, None => raise_errmsg calls Expecting_comma_delimiter
          end
      | DecodeError m => DecodeError m
      | StopIteration => StopIteration
      | OtherError e => OtherError e
      | OutOfFuel => OutOfFuel
      end
  end.

(** Fuel that [scan_once] never exhausts on [s] (lemma [scan_fuel]). *)
Definition enough (s : string) : nat := 2 * String.length s + 2.

(** [JSONDecoder.decode], [raw_decode] inlined.  The scanner is called
    from [raw_decode], which [decode] calls: when the scanner has returned,
    [raw_decode] has one nested call more than the scanner had, and [decode]
    two. *)
Definition decode (s : string) : res value :=
  match scan_once (enough s) recursion_remaining (skip_ws s) with
  | Parsed obj rest =>
      match skip_ws rest with
      | "" => Parsed obj ""
      | _ => raise_errmsg (recursion_remaining + 2) Extra_data
      end
  | DecodeError m => DecodeError m
  | StopIteration => raise_errmsg (recursion_remaining + 1) Expecting_value
  | OtherError e => OtherError e
  | OutOfFuel => OutOfFuel
  end.

Definition JSONDecodeError_of (m : msg) : exn :=
  {| class_of := JSONDecodeError; str := msg_text m |}.

(** The byte order mark U+FEFF. *)
Definition BOM : string := chr 65279.

(** [json.loads(s)] for a [str] [s]; it calls [decode], so that it has
    three nested calls left for the [JSONDecodeError] of the byte order
    mark.  The last case never occurs (lemma [decode_total]). *)
Definition loads (s : string) : outcome value :=
  if Str.startswith BOM s then Raise (JSONDecodeError_of Unexpected_BOM)
  else
    match decode s with
    | Parsed obj _ => Return obj
    | DecodeError m => Raise (JSONDecodeError_of m)
    | StopIteration => Raise (JSONDecodeError_of Expecting_value)
    | OtherError e => Raise e
    | OutOfFuel =>
        Raise {| class_of := OtherException "RecursionError";
                 str := "maximum recursion depth exceeded" |}
    end.

(** ** Texts that stay within the limits *)

(** The number of brackets in [s] that open an object or an array: no value
    in [s] nests deeper. *)
Fixpoint brackets (s : string) : nat :=
  match s with
  | "" => 0
  | String c s' =>
      ((if Ascii.eqb c "{"%char || Ascii.eqb c "["%char then 1 else 0)
       + brackets s')%nat
  end.

(** The number of digits at the head of [s]. *)
Fixpoint digit_run (s : string) : nat :=
  match s with
  | "" => 0
  | String c s' => if is_digit c then S (digit_run s') else 0
  end.

(** The length of the longest run of digits in [s]: no number in [s] has
    more. *)
Fixpoint longest_digit_run (s : string) : nat :=
  match s with
  | "" => 0
  | String c s' => Nat.max (digit_run s) (longest_digit_run s')
  end.

(** The scanner has a nested call left for every bracket of [s] and three
    more for a [JSONDecodeError], and [int] converts every run of digits of
    [s]. *)
Definition within_limits (s : string) : bool :=
  (brackets s + 3 <=? recursion_remaining)%nat
  && int_converts (longest_digit_run s).

(** An exception that the limits of the interpreter cause: the [ValueError]
    of [int] on more digits than it converts, or the [RecursionError] of a
    nested call for which none is left. *)
Definition limit_error (e : exn) : Prop :=
  (exists digits, e = int_ValueError int_max_str_digits digits
                  /\ int_converts digits = false)
  \/ (exists call, e = RecursionError call).

End Interpreted.

End Json.

(** ** The prompt (lines 8 to 77) *)

(** [bool(x)] for an optional [str]: [None] and the empty string are false. *)
Definition truthy (x : option string) : bool :=
  match x with
  | Some (String _ _) => true
  | _ => false
  end.

(** [format(x)] inside an f-string. *)
Definition fmt (x : option string) : string :=
  match x with
  | Some s => s
  | None => "None"
  end.

(** The literal parts of the f-string of lines 8 to 29, in order: up to the
    file name line, its label, between the file name and the script, and
    after the script. *)
Definition preamble : string :=
  "
    You are an ETL audit expert. Analyze the following ETL script for compliance.
    
    Ignore comments and documentation. Only check executable code.
    
    ".

Definition file_name_label : string := "File Name: ".

Definition before_script : string :=
  "
    
    ".

Definition audit_categories : string :=
  "

    **Check for compliance on the following aspects:**
    1. **Auditability** (Start/End timestamps, row counts, logs)
    2. **Reconcilability** (ETL should have data reconcilability checks)
    3. **Restartability** (Resumes from the point of failure?)
    4. **Exception Handling** (Errors, alerts)

    **For each category, return structured JSON with:**
    - **Audit Result** → (Pass/Fail)
    - **ETL Audit Type** → (Auditability, Reconcilability, Restartability, Exception Handling)
    - **Audit Details/Evidence** → Provide a **detailed justification** with:
    - **Detailed Analysis**: Observations from the script.

    ".

Definition closing_instruction : string :=
  Str.tilde_as_dq
  "
    
    **Provide structured JSON output at the end in this format:**
    'so i am using the below to extract output so be serious about generating this output'
    structured_match = re.search(r~```structured-results
({.*?})
```~, audit_report, re.DOTALL)
    ```structured-results
    {
        ~File Name Full Path~: ~{file_name}~,
        ~Audit Results~: [
            {
                ~ETL Audit Type~: ~Auditability~,
                ~Audit Result~: ~Pass/Fail~,
                ~Audit Details/Evidence~: {
                    ~Detailed Analysis~: ~Explain in detail how auditability is implemented or not and what it's lacking.~
                }
            },
            {
                ~ETL Audit Type~: ~Reconcilability~,
                ~Audit Result~: ~Pass/Fail~,
                ~Audit Details/Evidence~: {
                    ~Detailed Analysis~: ~Explain in detail how reconcilability is implemented or not and what it's lacking.~
                }
            },
            {
                ~ETL Audit Type~: ~Restartability~,
                ~Audit Result~: ~Pass/Fail~,
                ~Audit Details/Evidence~: {
                    ~Detailed Analysis~: ~Explain in detail how restartability is implemented or not and what it's lacking.~
                }
            },
            {
                ~ETL Audit Type~: ~Exception Handling~,
                ~Audit Result~: ~Pass/Fail~,
                ~Audit Details/Evidence~: {
                    ~Detailed Analysis~: ~Explain in detail how exception handling is implemented or not and what it's lacking.~
                }
            }
        ]
    }
    ```
    **DO NOT** include any extra text outside of the JSON output.
    ".

(** The head of the block that line 33 appends. *)
Definition questions_header : string :=
  Str.nl ++ Str.nl ++ "Additionally, answer the following questions:" ++ Str.nl.

(** The f-string of lines 8 to 29. *)
Definition prompt_fstring (script_content : string) (file_name : option string) : string :=
  preamble ++ file_name_label
    ++ (if truthy file_name then fmt file_name else "Unknown")
    ++ before_script ++ script_content ++ audit_categories.

(** The statements of lines 8 to 77 as the code runs them: the assignment,
    the conditional [+=] and the final [+=]. *)
Definition prompt_statements (script_content : string)
  (file_name additional_questions : option string) : Py.M string :=
  (prompt <- Py.ret (prompt_fstring script_content file_name) ;;
   prompt <- (if truthy additional_questions
              then Py.ret (prompt ++ (questions_header ++ fmt additional_questions))
              else Py.ret prompt) ;;
   prompt <- Py.ret (prompt ++ closing_instruction) ;;
   Py.ret prompt)%py.

(** The prompt as a function of the three arguments. *)
Definition build_prompt (script_content : string)
  (file_name additional_questions : option string) : string :=
  let prompt := prompt_fstring script_content file_name in
  let prompt :=
    if truthy additional_questions
    then prompt ++ (questions_header ++ fmt additional_questions)
    else prompt in
  prompt ++ closing_instruction.

(** ** The stream of the generation service (lines 83 to 90) *)

(** A chunk of the stream, as far as line 88 reads it:
    [chunk.choices[0].delta.content] is a [str] or [None]. *)
Record Delta : Type := { content : option string }.
Record Choice : Type := { delta : Delta }.
Record Chunk : Type := { choices : list Choice }.

(** What iterating [completion] does: it ends, yields a chunk and goes on,
    or raises. *)
Inductive Stream : Type :=
| Exhausted
| Yield (chunk : Chunk) (rest : Stream)
| Failed (e : Py.exn).

(** [xs[0]] *)
Definition first_item {A : Type} (xs : list A) : Py.outcome A :=
  match xs with
  | x :: _ => Py.Return x
  | [] => Py.Raise {| Py.class_of := Py.OtherException "IndexError";
                      Py.str := "list index out of range" |}
  end.

(** The loop of lines 87 to 90, from the value of [audit_report] so far. *)
Fixpoint for_chunk_in (completion : Stream) (audit_report : string) : Py.M string :=
  match completion with
  | Exhausted => Py.ret audit_report
  | Failed e => Py.raise e
  | Yield chunk rest =>
      (choice <- Py.lift (first_item (choices chunk)) ;;
       match content (delta choice) with
       | Some text =>
           Py.print_end text "" ;;
           for_chunk_in rest (audit_report ++ text)
       | None => for_chunk_in rest audit_report
       end)%py
  end.

(** Lines 86 to 90: the report text of a stream. *)
Definition consume (completion : Stream) : Py.M string :=
  for_chunk_in completion "".

(** ** The extraction (lines 93 to 106) *)

(** The mappings of lines 103 and 106. *)
Definition error_no_json (audit_report : string) : Py.value :=
  Py.VDict [("error", Py.VStr "AI did not return structured JSON");
            ("raw_text", Py.VStr audit_report)].

Definition error_bad_json : Py.value :=
  Py.VDict [("error", Py.VStr "Failed to parse structured JSON.")].

(** [json.loads(m.group(1))]; a group that took no part in the match is
    [None], which [json.loads] refuses with a [TypeError]. *)
Definition loads_group {interpreter : Py.Interpreter}
  (g : option string) : Py.outcome Py.value :=
  match g with
  | Some structured_json_str => Json.loads structured_json_str
  | None =>
      Py.Raise {| Py.class_of := Py.OtherException "TypeError";
                  Py.str := "the JSON object must be str, bytes or bytearray, not NoneType" |}
  end.

(** Lines 93 to 106: the search, the decoding of group 1 and the three
    [return] statements. *)
Definition extract {interpreter : Py.Interpreter}
  (audit_report : string) : Py.M Py.value :=
  let structured_match := Re.search true structured_results_re audit_report in
  match structured_match with
  | Some m =>
      Py.try_except
        (structured_results <- Py.lift (loads_group (Re.group1 m)) ;;
         Py.ret structured_results)%py
        Py.isinstance_JSONDecodeError
        (fun _ =>
           (Py.print "[ERROR] Failed to parse structured JSON." ;;
            Py.ret error_bad_json)%py)
  | None =>
      (Py.print "[WARNING] No structured JSON found! Returning full text instead." ;;
       Py.ret (error_no_json audit_report))%py
  end.

(** ** [analyze_etl_script] *)

(** The mapping of line 110. *)
Definition error_suffix : string :=
  Str.nl ++ Str.nl ++ "Please check the input and try again.".

Definition error_exception (e : Py.exn) : Py.value :=
  Py.VDict [("error", Py.VStr (Py.str e ++ error_suffix))].

(** [call_genai_api] is the generation service: from the prompt to the
    stream, or to a raised failure. *)
Definition analyze_etl_script {interpreter : Py.Interpreter}
  (call_genai_api : string -> Py.M Stream)
  (script_content : string) (file_name additional_questions : option string)
  : Py.M Py.value :=
  (Py.print "Entering analyze_etl_script() function..." ;;
   Py.print ("Script Content (first 100 chars): " ++ Str.slice_to 100 script_content) ;;
   prompt <- prompt_statements script_content file_name additional_questions ;;
   Py.print "Generated Prompt:" ;;
   Py.print (Str.slice_to 300 prompt) ;;
   Py.try_except
     (completion <- call_genai_api prompt ;;
      Py.print "Received response from GenAI model." ;;
      audit_report <- consume completion ;;
      extract audit_report)
     Py.isinstance_Exception
     (fun e =>
        Py.print ("ERROR OCCURRED in analyze_etl_script: " ++ Py.str e) ;;
        Py.ret (error_exception e)))%py.

(** ** What the report text holds, stated without the matcher *)

(** [text] holds, right after [pre], a block of the form the pattern asks
    for: the opening fence, a brace, [body], a brace, the closing fence. *)
Definition block_at (text pre body post : string) : Prop :=
  text = pre ++ fence_open ++ "{" ++ body ++ "}" ++ fence_close ++ post.

(** No block of that form starts before [pre] ends. *)
Definition leftmost (text pre : string) : Prop :=
  forall pre' body' post',
    block_at text pre' body' post' -> String.length pre <= String.length pre'.

(** No block of that form starting where [pre] ends has a shorter body. *)
Definition shortest (text pre body : string) : Prop :=
  forall body' post',
    block_at text pre body' post' -> String.length body <= String.length body'.

(** The block that a leftmost, non-greedy search reports. *)
Definition captured (text pre body post : string) : Prop :=
  block_at text pre body post /\ leftmost text pre /\ shortest text pre body.

(** [s] begins with [{], ends with [}] and these are two characters. *)
Fixpoint ends_with_brace (s : string) : bool :=
  match s with
  | "" => false
  | String c "" => Ascii.eqb c "}"%char
  | String _ s' => ends_with_brace s'
  end.

Definition brace_delimited (s : string) : bool :=
  match s with
  | String c s' => Ascii.eqb c "{"%char && ends_with_brace s'
  | "" => false
  end.

(** How many times the character [c] occurs in [s]. *)
Fixpoint count (c : ascii) (s : string) : nat :=
  match s with
  | "" => 0
  | String x s' => (if Ascii.eqb x c then 1 else 0) + count c s'
  end.

(** ** What a stream delivers, stated without the loop *)

(** The stream that yields the chunks of a list and ends. *)
Definition stream_of (chunks : list Chunk) : Stream :=
  fold_right Yield Exhausted chunks.

(** A fragment as the generation service sends it: one choice, whose delta
    has the content [text] or none. *)
Definition fragment (text : option string) : Chunk :=
  {| choices := [ {| delta := {| content := text |} |} ] |}.



(** The first failure that iterating a stream and reading its chunks meets,
    if any: the stream raises, or a chunk has no choice 0. *)
Fixpoint stream_failure (completion : Stream) : option Py.exn :=
  match completion with
  | Exhausted => None
  | Failed e => Some e
  | Yield chunk rest =>
      match first_item (choices chunk) with
      | Py.Raise e => Some e
      | Py.Return _ => stream_failure rest
      end
  end.

(** The report text of a stream that meets no failure. *)
Fixpoint report_text (completion : Stream) : string :=
  match completion with
  | Yield {| choices := {| delta := {| content := Some text |} |} :: _ |} rest =>
      text ++ report_text rest
  | Yield _ rest => report_text rest
  | _ => ""
  end.

(** The statements of [analyze_etl_script] before the [try] of line 82, and
    the world they leave: the one in which [call_genai_api] is called. *)
Definition before_try (script_content : string)
  (file_name additional_questions : option string) : Py.M string :=
  (Py.print "Entering analyze_etl_script() function..." ;;
   Py.print ("Script Content (first 100 chars): " ++ Str.slice_to 100 script_content) ;;
   prompt <- prompt_statements script_content file_name additional_questions ;;
   Py.print "Generated Prompt:" ;;
   Py.print (Str.slice_to 300 prompt) ;;
   Py.ret prompt)%py.

Definition world_at_call (script_content : string)
  (file_name additional_questions : option string) (w : Py.World) : Py.World :=
  snd (before_try script_content file_name additional_questions w).

(** What the generation service answers in a run of [analyze_etl_script]
    from the world [w]: a stream, or a raised failure. *)
Definition answer (call_genai_api : string -> Py.M Stream)
  (script_content : string) (file_name additional_questions : option string)
  (w : Py.World) : Py.outcome Stream :=
  fst (call_genai_api
         (build_prompt script_content file_name additional_questions)
         (world_at_call script_content file_name additional_questions w)).

(** ** The order of the parts of a text *)

(** [s] split at the first occurrence of [needle]. *)
Fixpoint split_on (needle s : string) : option (string * string) :=
  match Str.strip_prefix needle s with
  | Some rest => Some ("", rest)
  | None =>
      match s with
      | "" => None
      | String c s' =>
          match split_on needle s' with
          | Some (before, rest) => Some (String c before, rest)
          | None => None
          end
      end
  end.

(** The [parts] occur in [s] one after the other, without overlap. *)
Fixpoint occurs_in_order (parts : list string) (s : string) : Prop :=
  match parts with
  | [] => True
  | part :: parts' =>
      exists before rest, s = before ++ part ++ rest /\ occurs_in_order parts' rest
  end.

Fixpoint in_order (parts : list string) (s : string) : bool :=
  match parts with
  | [] => true
  | part :: parts' =>
      match split_on part s with
      | Some (_, rest) => in_order parts' rest
      | None => false
      end
  end.

(** The four lines of the prompt that define the audit categories. *)
Definition category_lines : list string :=
  ["1. **Auditability** (Start/End timestamps, row counts, logs)";
   "2. **Reconcilability** (ETL should have data reconcilability checks)";
   "3. **Restartability** (Resumes from the point of failure?)";
   "4. **Exception Handling** (Errors, alerts)"].

(** ** What [analyze_etl_script] returns, stated without the effects *)

(** What [extract] returns, whatever was printed before. *)
Definition extracted {interpreter : Py.Interpreter}
  (text : string) : Py.outcome Py.value :=
  match Re.search true structured_results_re text with
  | None => Py.Return (error_no_json text)
  | Some m =>
      match loads_group (Re.group1 m) with
      | Py.Return v => Py.Return v
      | Py.Raise e =>
          if Py.isinstance_JSONDecodeError e
          then Py.Return error_bad_json else Py.Raise e
      end
  end.

(** [analyze_etl_script], from the answer of the generation service to the
    value returned. *)
Definition analyzed {interpreter : Py.Interpreter}
  (answer : Py.outcome Stream) : Py.outcome Py.value :=
  match answer with
  | Py.Raise e => Py.Return (error_exception e)
  | Py.Return completion =>
      match stream_failure completion with
      | Some e => Py.Return (error_exception e)
      | None =>
          match extracted (report_text completion) with
          | Py.Return v => Py.Return v
          | Py.Raise e => Py.Return (error_exception e)
          end
      end
  end.

(** ** Reports with more than one fence *)

(** A fenced block tagged [structured-results] around [content]. *)
Definition fenced_block (content : string) : string :=
  fence_open ++ content ++ fence_close.

(** Two tagged blocks on consecutive lines; the content of the first ends
    with a full stop after its closing brace. *)
Definition spill_first : string := "{" ++ Str.quoted "a" ++ ":1}.".
Definition spill_second : string := "{" ++ Str.quoted "b" ++ ":2}".
Definition spill_report : string :=
  fenced_block spill_first ++ Str.nl ++ fenced_block spill_second.

(** [text] holds two blocks of the pattern's form, with bodies [b1] and [b2]. *)
Definition two_blocks (text pre b1 mid b2 post : string) : Prop :=
  text = pre ++ fence_open ++ "{" ++ b1 ++ "}" ++ fence_close
           ++ mid ++ fence_open ++ "{" ++ b2 ++ "}" ++ fence_close ++ post.

(** A report with one tagged block, whose content opens a brace and never
    closes it, followed by an untagged example. *)
Definition unclosed_content : string := "{oops".
Definition unclosed_report : string :=
  fenced_block unclosed_content ++ Str.nl ++ "see:" ++ Str.nl
    ++ "```json" ++ Str.nl ++ "{}" ++ fence_close.

(** The positions at which [needle] occurs in [s], counted from [pos]. *)
Fixpoint occurrences_from (needle s : string) (pos : nat) : list nat :=
  ((if Str.startswith needle s then [pos] else [])
   ++ match s with
      | "" => []
      | String _ s' => occurrences_from needle s' (S pos)
      end)%list.

Definition occurrences (needle s : string) : list nat :=
  occurrences_from needle s 0.

(** ** Two generation services *)

(** A service that streams the specification's example report in three
    fragments, the second without content. *)
Definition streaming_service (prompt : string) : Py.M Stream :=
  Py.ret (stream_of
            [fragment (Some "noise ```structured-");
             fragment None;
             fragment (Some ("results" ++ Str.nl ++ "{" ++ Str.quoted "a" ++ ":1}"
                             ++ Str.nl ++ "``` trailing"))]).

(** A service whose call raises. *)
Definition failing_service (prompt : string) : Py.M Stream :=
  Py.raise {| Py.class_of := Py.OtherException "ConnectionError";
              Py.str := "connection reset" |}.

(** A service that streams [report] in one fragment. *)
Definition reporting_service (report prompt : string) : Py.M Stream :=
  Py.ret (stream_of [fragment (Some report)]).

(** ** An interpreter, and spans that meet its limits *)

(** CPython 3.11 with its default limits, in a program that calls
    [analyze_etl_script] from its top level: [sys.get_int_max_str_digits()]
    is 4300, and of the 1000 nested calls of [sys.getrecursionlimit()] 994
    are left when the scanner of [json.loads] starts at line 99. *)
Definition cpython : Py.Interpreter :=
  {| Py.int_max_str_digits := 4300; Py.recursion_remaining := 994 |}.

(** An interpreter whose limits the spans below do not meet: [int] without
    a limit, and 4000 nested calls left. *)
Definition roomy : Py.Interpreter :=
  {| Py.int_max_str_digits := 0; Py.recursion_remaining := 4000 |}.

(** A block that does not decode, then one that does. *)
Definition bad_then_good_report : string :=
  fenced_block "{bad}" ++ Str.nl
    ++ fenced_block ("{" ++ Str.quoted "a" ++ ":1}").

(** A span of valid JSON with an integer of 4301 digits. *)
Definition long_integer_span : string :=
  "{" ++ Str.quoted "a" ++ ": " ++ Str.repeat "1" 4301 ++ "}".

(** A span that is not valid JSON and opens 3000 arrays. *)
Definition deep_span : string :=
  "{" ++ Str.quoted "a" ++ ":" ++ Str.repeat "[" 3000 ++ "}".

(** ** What the loop prints, and reports that carry an error *)


(** A character that a JSON string holds as it is: no control character,
    no double quote, no backslash. *)
Definition plain (c : ascii) : bool :=
  negb (N_of_ascii c <? 32)%N && negb (Ascii.eqb c "034"%char)
  && negb (Ascii.eqb c "\"%char).

Definition all_plain (s : string) : bool :=
  forallb plain (list_ascii_of_string s).

(** The JSON text of a mapping with the one key [error]. *)
Definition error_object_text (message : string) : string :=
  "{" ++ Str.quoted "error" ++ ": " ++ Str.quoted message ++ "}".

(** The line of the closing instruction (line 43) that names the file. *)
Definition file_name_placeholder : string :=
  Str.quoted "File Name Full Path" ++ ": " ++ Str.quoted "{file_name}".

(** ** The keys of a decoded mapping *)

(** No two of the [keys] are equal. *)
Fixpoint distinct (keys : list string) : bool :=
  match keys with
  | [] => true
  | k :: keys' => negb (existsb (String.eqb k) keys') && distinct keys'
  end.

(** Every mapping inside [v], [v] included, holds each of its keys once. *)
Fixpoint keys_unique (v : Py.value) : bool :=
  match v with
  | Py.VList items => forallb keys_unique items
  | Py.VDict items =>
      distinct (map fst items)
      && forallb (fun kv => keys_unique (snd kv)) items
  | _ => true
  end.

(** The value of the last of the [pairs] whose key is [k]. *)
Fixpoint last_value (pairs : list (string * Py.value)) (k : string)
  : option Py.value :=
  match pairs with
  | [] => None
  | (k', v) :: pairs' =>
      match last_value pairs' k with
      | Some v' => Some v'
      | None => if String.eqb k' k then Some v else None
      end
  end.

(** * The sample pipeline of [etl_complete_testcases.py]

    The script talks to pandas, SQLAlchemy, smtplib, the file system, the
    clock and the [logging] module.  Those calls are the events of a run,
    and the environment answers them: nothing is assumed about what it
    answers.
    - A [query] is a call that always returns: [os.getenv],
      [os.path.exists] and the calls of [logging], which never let an error
      of a handler escape.
    - An [action] is a call that returns or raises.  A statement, or an
      expression, that only talks to a library is one action, named after
      what it does.
    - An object of a library (a frame, an engine, a connection, an open
      file, a cell of a frame) is known by its identity only.
    - What the module binds when it is loaded (lines 15 to 39) is given:
      the values that [os.getenv] returned for the database are the
      [Settings]. *)

Module Etl.

Variant DataFrame : Type := DataFrame_at (address : nat).
Variant Engine : Type := Engine_at (address : nat).
Variant Connection : Type := Connection_at (address : nat).
Variant SMTP : Type := SMTP_at (address : nat).
Variant File : Type := File_at (address : nat).

(** A cell of a frame: what [iloc[0, 0]] and [max()] give. *)
Variant Scalar : Type := Scalar_at (address : nat).

(** An argument of a logging call, which [logging] formats later. *)
Variant arg : Type :=
| of_str (s : string)
| of_int (n : Z)
| of_scalar (x : Scalar).

Inductive query : Type -> Type :=
| os_getenv (name : string) : query (option string)
| os_path_exists (path : string) : query bool
| logging_info (msg : string) (args : list arg) : query unit
| logging_warning (msg : string) (args : list arg) : query unit
| logging_error (msg : string) (args : list arg) : query unit.

Inductive action : Type -> Type :=
(* smtplib *)
| smtplib_SMTP (host port : option string) : action SMTP
| starttls (server : SMTP) : action unit
| login (server : SMTP) (user password : option string) : action unit
| sendmail (server : SMTP) (from_addr to_addrs : option string) (msg : string)
  : action unit
| quit (server : SMTP) : action unit
(* files, the clock, hashlib *)
| open_file (path mode : string) : action File
| read (f : File) : action string
| write (f : File) (text : string) : action unit
| close (f : File) : action unit
| json_dump (obj : Py.value) (f : File) (indent : nat) : action unit
| os_makedirs (path : string) : action unit
| os_rename (src dst : string) : action unit
| now_strftime (layout : string) : action string
| sha256_hexdigest (text : string) : action string
(* pandas *)
| pd_read_csv (path : string) : action DataFrame
| len (df : DataFrame) : action Z
| drop_duplicates (df : DataFrame) : action unit
| dropna (df : DataFrame) : action unit
| where_email_contains (df : DataFrame) (pat : string) : action DataFrame
| where_age_greater (df : DataFrame) (bound : Z) : action DataFrame
| email_lower (df : DataFrame) : action unit
| created_at_to_datetime (df : DataFrame) : action unit
| ssn_encrypt (df : DataFrame) : action unit
| to_json (df : DataFrame) : action string
| to_sql (df : DataFrame) (name : string) (engine : Engine) : action unit
| pd_read_sql (sql : string) (engine : Engine) : action DataFrame
| iloc_0_0 (df : DataFrame) : action Scalar
| empty (df : DataFrame) : action bool
| where_id_greater (df : DataFrame) (x : Scalar) : action DataFrame
| id_max (df : DataFrame) : action Scalar
(* SQLAlchemy *)
| create_engine (url : string) : action Engine
| connect (engine : Engine) : action Connection
| connection_close (conn : Connection) : action unit
| execute (engine : Engine) (before : string) (x : Scalar) (after : string)
  : action unit
(* a cell in a condition, in an f-string, compared with or taken from an int *)
| truth (x : Scalar) : action bool
| format (x : Scalar) : action string
| equals (n : Z) (x : Scalar) : action bool
| minus (n : Z) (x : Scalar) : action Scalar.

(** ** Programs

    A program returns, raises, or makes a call and goes on with what the
    environment answers. *)
Inductive Prog (A : Type) : Type :=
| Ret (a : A)
| Throw (e : Py.exn)
| Ask {R : Type} (q : query R) (k : R -> Prog A)
| Do {R : Type} (a : action R) (k : Py.outcome R -> Prog A).
Arguments Ret {A} a.
Arguments Throw {A} e.
Arguments Ask {A R} q k.
Arguments Do {A R} a k.

Definition ret {A : Type} (a : A) : Prog A := Ret a.

Definition raise {A : Type} (e : Py.exn) : Prog A := Throw e.

Fixpoint bind {A B : Type} (m : Prog A) (f : A -> Prog B) : Prog B :=
  match m with
  | Ret a => f a
  | Throw e => Throw e
  | Ask q k => Ask q (fun r => bind (k r) f)
  | Do a k => Do a (fun x => bind (k x) f)
  end.

(** A pure call that may raise. *)
Definition lift {A : Type} (o : Py.outcome A) : Prog A :=
  match o with
  | Py.Return a => Ret a
  | Py.Raise e => Throw e
  end.

Definition ask {R : Type} (q : query R) : Prog R := Ask q Ret.

Definition perform {R : Type} (a : action R) : Prog R := Do a lift.

(** The outcome of [m], taken as a value. *)
Fixpoint catch {A : Type} (m : Prog A) : Prog (Py.outcome A) :=
  match m with
  | Ret a => Ret (Py.Return a)
  | Throw e => Ret (Py.Raise e)
  | Ask q k => Ask q (fun r => catch (k r))
  | Do a k => Do a (fun x => catch (k x))
  end.

(** [try: body  except Exception as e: handler(e)] *)
Definition try_except {A : Type} (body : Prog A) (handler : Py.exn -> Prog A)
  : Prog A :=
  bind (catch body) (fun o =>
    match o with
    | Py.Return a => Ret a
    | Py.Raise e => handler e
    end).

End Etl.

Declare Scope etl_scope.
Delimit Scope etl_scope with etl.
Notation "x <- m ;; k" := (Etl.bind m (fun x => k))
  (at level 61, m at next level, right associativity) : etl_scope.
Notation "m ;; k" := (Etl.bind m (fun _ => k))
  (at level 61, right associativity) : etl_scope.

(** ** Runs *)

Module Run.
Import Etl.

(** An event of a run: a call and what the environment answered. *)
Inductive event : Type :=
| Asked {R : Type} (q : query R) (r : R)
| Did {R : Type} (a : action R) (x : Py.outcome R).

(** [runs p t o]: there is a run of [p] with the events [t], in order, that
    ends with the outcome [o]. *)
Fixpoint runs {A : Type} (p : Prog A) (t : list event) (o : Py.outcome A) : Prop :=
  match p with
  | Ret a => t = [] /\ o = Py.Return a
  | Throw e => t = [] /\ o = Py.Raise e
  | Ask q k => exists r t', t = Asked q r :: t' /\ runs (k r) t' o
  | Do a k => exists x t', t = Did a x :: t' /\ runs (k x) t' o
  end.

(** An environment with a state of type [E]: how it answers each call. *)
Record Oracle (E : Type) : Type := {
  answer : forall R, query R -> E -> R * E;
  outcome_of : forall R, action R -> E -> Py.outcome R * E
}.
Arguments answer {E} _ {R} _ _.
Arguments outcome_of {E} _ {R} _ _.

(** The run of [p] in the environment [env], from its state [e]. *)
Fixpoint run {E A : Type} (env : Oracle E) (p : Prog A) (e : E)
  : list event * Py.outcome A :=
  match p with
  | Ret a => ([], Py.Return a)
  | Throw x => ([], Py.Raise x)
  | Ask q k =>
      let (r, e') := answer env q e in
      let (t, o) := run env (k r) e' in
      (Asked q r :: t, o)
  | Do a k =>
      let (x, e') := outcome_of env a e in
      let (t, o) := run env (k x) e' in
      (Did a x :: t, o)
  end.

End Run.
(** ** What the script uses of Python *)

Module Builtins.

(** [type(v).__name__] *)
Definition type_name (v : Py.value) : string :=
  match v with
  | Py.VNone => "NoneType"
  | Py.VBool _ => "bool"
  | Py.VInt _ => "int"
  | Py.VFloat _ => "float"
  | Py.VStr _ => "str"
  | Py.VList _ => "list"
  | Py.VDict _ => "dict"
  end.

Definition AttributeError (v : Py.value) (name : string) : Py.exn :=
  {| Py.class_of := Py.OtherException "AttributeError";
     Py.str := "'" ++ type_name v ++ "' object has no attribute '" ++ name ++ "'" |}.

Definition NameError (name : string) : Py.exn :=
  {| Py.class_of := Py.OtherException "NameError";
     Py.str := "name '" ++ name ++ "' is not defined" |}.

(** [v.get(key)]: of the values that [json.load] gives, only a [dict] has
    the method; a missing key gives [None]. *)
Definition get (v : Py.value) (key : string) : Py.outcome Py.value :=
  match v with
  | Py.VDict d =>
      Py.Return match Py.dict_get d key with
                | Some x => x
                | None => Py.VNone
                end
  | _ => Py.Raise (AttributeError v "get")
  end.

(** The value of a run of decimal digits. *)
Definition decimal (digits : string) : Z :=
  fold_left (fun acc c => (acc * 10 + Z.of_N (N_of_ascii c - 48))%Z)
    (list_ascii_of_string digits) 0%Z.

(** The value of the exponent part of a number: empty, or [e] or [E], an
    optional sign and digits. *)
Definition exponent_value (exp : string) : Z :=
  match exp with
  | "" => 0%Z
  | String _ signed =>
      match signed with
      | String sign digits =>
          if Ascii.eqb sign "-"%char then Z.opp (decimal digits)
          else if Ascii.eqb sign "+"%char then decimal digits
          else decimal signed
      | "" => 0%Z
      end
  end.

(** [float(literal) == 1.0] for the text of a JSON number.  [float] gives
    the double nearest to the number written, and the nearer of two with an
    even last bit; the doubles next to 1 are 1 - 2^-53 and 1 + 2^-52, so the
    numbers that give 1.0 are those from 1 - 2^-54 to 1 + 2^-53, both
    included.  The number written is [mantissa * 10 ^ exponent]. *)
Definition float_is_one (literal : string) : bool :=
  match Json.match_number literal with
  | Some (integer, frac, exp, "") =>
      let mantissa := Json.int_value (integer ++ Str.drop 1 frac) in
      let exponent :=
        (exponent_value exp - Z.of_nat (String.length (Str.drop 1 frac)))%Z in
      if (0 <=? exponent)%Z then (mantissa * 10 ^ exponent =? 1)%Z
      else
        let d := (10 ^ (- exponent))%Z in
        ((2 ^ 54 - 1) * d <=? mantissa * 2 ^ 54)%Z
        && (mantissa * 2 ^ 53 <=? (2 ^ 53 + 1) * d)%Z
  | _ => false
  end.

(** [v == True]: [True] is the integer 1, and equal to the numbers equal
    to 1. *)
Definition eq_True (v : Py.value) : bool :=
  match v with
  | Py.VBool b => b
  | Py.VInt z => (z =? 1)%Z
  | Py.VFloat literal => float_is_one literal
  | _ => false
  end.

(** The input after one character of white space ([str.isspace]), when it
    starts with one: U+0009 to U+000D, U+001C to U+0020, U+0085, U+00A0,
    U+1680, U+2000 to U+200A, U+2028, U+2029, U+202F, U+205F and U+3000, in
    UTF-8. *)
Definition after_space (s : string) : option string :=
  let byte (c : ascii) := N_of_ascii c in
  match s with
  | "" => None
  | String a s1 =>
      if ((9 <=? byte a) && (byte a <=? 13) || (28 <=? byte a) && (byte a <=? 32))%N
      then Some s1
      else
        match s1 with
        | "" => None
        | String b s2 =>
            if ((byte a =? 194) && ((byte b =? 133) || (byte b =? 160)))%N
            then Some s2
            else
              match s2 with
              | "" => None
              | String c s3 =>
                  if ((byte a =? 225) && (byte b =? 154) && (byte c =? 128)
                      || (byte a =? 226) && (byte b =? 128)
                         && ((128 <=? byte c) && (byte c <=? 138)
                             || (byte c =? 168) || (byte c =? 169) || (byte c =? 175))
                      || (byte a =? 226) && (byte b =? 129) && (byte c =? 159)
                      || (byte a =? 227) && (byte b =? 128) && (byte c =? 128))%N
                  then Some s3
                  else None
              end
        end
  end.

Fixpoint lstrip_loop (fuel : nat) (s : string) : string :=
  match fuel with
  | O => s
  | S fuel' =>
      match after_space s with
      | Some rest => lstrip_loop fuel' rest
      | None => s
      end
  end.

(** [s.lstrip()] *)
Definition lstrip (s : string) : string := lstrip_loop (String.length s) s.

(** [s.rstrip()]: a byte that continues a character starts no white space,
    so the text from a byte on is all white space only where a character
    starts. *)
Fixpoint rstrip (s : string) : string :=
  match s with
  | "" => ""
  | String c s' =>
      match lstrip s with
      | "" => ""
      | _ => String c (rstrip s')
      end
  end.

(** [s.strip()] *)
Definition strip (s : string) : string := rstrip (lstrip s).

Fixpoint endswith_slash (s : string) : bool :=
  match s with
  | "" => false
  | String c "" => Ascii.eqb c "/"%char
  | String _ s' => endswith_slash s'
  end.

(** [os.path.join(a, b)] of [posixpath]. *)
Definition os_path_join (a b : string) : string :=
  if Str.startswith "/" b then b
  else if String.eqb a "" || endswith_slash a then a ++ b
  else a ++ "/" ++ b.

(** [str(n)] for an [int]. *)
Definition str_of_int (n : Z) : string :=
  DecimalString.NilZero.string_of_int (Z.to_int n).

End Builtins.
(** ** The functions of the script *)

Module Script.
Import Etl Builtins.
Local Open Scope etl_scope.

(** Lines 22 to 26: what [os.getenv] returned when the module was loaded. *)
Record Settings : Type := {
  DB_USER : option string;
  DB_PASSWORD : option string;
  DB_HOST : option string;
  DB_PORT : option string;
  DB_NAME : option string
}.

(** Lines 29 to 32. *)
Definition DATA_SOURCE : string := "data/source_data.csv".
Definition ARCHIVE_PATH : string := "data/archive/".
Definition ERROR_LOG_PATH : string := "data/error_records.csv".
Definition COMPLIANCE_REPORT : string := "data/compliance_report.json".

(** Line 35. *)
Definition DATABASE_URL (settings : Settings) : string :=
  "postgresql://" ++ fmt (DB_USER settings) ++ ":" ++ fmt (DB_PASSWORD settings)
    ++ "@" ++ fmt (DB_HOST settings) ++ ":" ++ fmt (DB_PORT settings)
    ++ "/" ++ fmt (DB_NAME settings).

(** The module binds no [SOURCE_FILE_PATH], and neither do the builtins:
    reading the name (line 205) raises [NameError]. *)
Definition SOURCE_FILE_PATH : Prog string := raise (NameError "SOURCE_FILE_PATH").

(** [with open(path, mode) as f: body]: the file is closed when the body
    returns and when it raises. *)
Definition with_open {A : Type} (path mode : string) (body : File -> Prog A)
  : Prog A :=
  f <- perform (open_file path mode) ;;
  o <- catch (body f) ;;
  perform (close f) ;;
  lift o.

(** [json.load(f)] *)
Definition json_load {interpreter : Py.Interpreter}
  (f : File) : Prog Py.value :=
  text <- perform (read f) ;;
  lift (Json.loads text).

(** Lines 41 to 58. *)
Definition send_alert_email (subject message : string) : Prog unit :=
  sender_email <- ask (os_getenv "ALERT_EMAIL") ;;
  receiver_email <- ask (os_getenv "ADMIN_EMAIL") ;;
  smtp_server <- ask (os_getenv "SMTP_SERVER") ;;
  smtp_port <- ask (os_getenv "SMTP_PORT") ;;
  smtp_user <- ask (os_getenv "SMTP_USER") ;;
  smtp_pass <- ask (os_getenv "SMTP_PASS") ;;
  try_except
    (server <- perform (smtplib_SMTP smtp_server smtp_port) ;;
     perform (starttls server) ;;
     perform (login server smtp_user smtp_pass) ;;
     perform (sendmail server sender_email receiver_email
                ("Subject: " ++ subject ++ Str.nl ++ Str.nl ++ message)) ;;
     perform (quit server) ;;
     ask (logging_info "Alert email sent successfully." []))
    (fun e =>
       ask (logging_error "Error sending alert email: %s" [of_str (Py.str e)])).

(** Lines 60 to 71.  The body of the [with] gives [Some b] when it has
    executed [return b]. *)
Definition requires_admin_approval {interpreter : Py.Interpreter} : Prog bool :=
  let approval_file := "admin_approval.json" in
  present <- ask (os_path_exists approval_file) ;;
  returned <-
    (if present then
       with_open approval_file "r" (fun f =>
         approval_data <- json_load f ;;
         approved <- lift (get approval_data "approved") ;;
         if eq_True approved then
           ask (logging_info "Admin approval granted." []) ;;
           ret (Some true)
         else ret None)
     else ret None) ;;
  match returned with
  | Some b => ret b
  | None =>
      ask (logging_error "ETL script modification requires admin approval!" []) ;;
      send_alert_email "ETL Job Approval Required"
        "An attempt was made to modify the ETL script without approval." ;;
      ret false
  end.

(** Lines 73 to 82. *)
Definition extract_data (file_path : string) : Prog (option DataFrame) :=
  try_except
    (ask (logging_info "Extracting data from %s" [of_str file_path]) ;;
     df <- perform (pd_read_csv file_path) ;;
     n <- perform (len df) ;;
     ask (logging_info "Successfully extracted %d records." [of_int n]) ;;
     ret (Some df))
    (fun e =>
       ask (logging_error "Error in extraction: %s" [of_str (Py.str e)]) ;;
       ret None).

(** Lines 84 to 92. *)
Definition validate_data (df : DataFrame) : Prog DataFrame :=
  ask (logging_info "Validating data quality..." []) ;;
  perform (drop_duplicates df) ;;
  perform (dropna df) ;;
  df <- perform (where_email_contains df "@") ;;
  df <- perform (where_age_greater df 0) ;;
  n <- perform (len df) ;;
  ask (logging_info "Data validation completed. %d valid records remaining."
         [of_int n]) ;;
  ret df.

(** Lines 94 to 105. *)
Definition transform_data (df : DataFrame) : Prog (option DataFrame) :=
  try_except
    (ask (logging_info "Starting data transformation..." []) ;;
     perform (email_lower df) ;;
     perform (created_at_to_datetime df) ;;
     perform (ssn_encrypt df) ;;
     n <- perform (len df) ;;
     ask (logging_info
            "Transformation completed successfully. %d valid records remaining."
            [of_int n]) ;;
     ret (Some df))
    (fun e =>
       ask (logging_error "Error in transformation: %s" [of_str (Py.str e)]) ;;
       ret None).

(** The [load_data] of lines 107 to 129.  The [def] of line 153 binds the
    name anew when the module is loaded, so no call reaches this one. *)
Module Replaced.

Definition load_data (settings : Settings) (df : DataFrame) (table_name : string)
  : Prog unit :=
  try_except
    (ask (logging_info "Connecting to database..." []) ;;
     engine <- perform (create_engine (DATABASE_URL settings)) ;;
     conn <- perform (connect engine) ;;
     text <- perform (to_json df) ;;
     config_version <- perform (sha256_hexdigest text) ;;
     with_open "etl_config_version.txt" "w" (fun f =>
       perform (write f config_version)) ;;
     perform (to_sql df table_name engine) ;;
     let count_query := "SELECT COUNT(*) FROM " ++ table_name ++ ";" in
     result <- perform (pd_read_sql count_query engine) ;;
     row_count <- perform (iloc_0_0 result) ;;
     ask (logging_info "Data loaded successfully. Total records in table: %d"
            [of_scalar row_count]) ;;
     perform (connection_close conn))
    (fun e =>
       ask (logging_error "Error in loading data: %s" [of_str (Py.str e)]) ;;
       send_alert_email "ETL Load Error" ("Data load failed: " ++ Py.str e)).

End Replaced.

(** Lines 133 to 142. *)
Definition get_last_checkpoint (settings : Settings) : Prog (option Scalar) :=
  try_except
    (engine <- perform (create_engine (DATABASE_URL settings)) ;;
     let query :=
       "SELECT last_processed_id FROM etl_checkpoint ORDER BY checkpoint_time DESC LIMIT 1;" in
     result <- perform (pd_read_sql query engine) ;;
     is_empty <- perform (empty result) ;;
     if negb is_empty then
       x <- perform (iloc_0_0 result) ;;
       ret (Some x)
     else ret None)
    (fun e =>
       ask (logging_warning "Checkpoint retrieval failed: %s" [of_str (Py.str e)]) ;;
       ret None).

(** Lines 144 to 151. *)
Definition save_checkpoint (settings : Settings) (last_id : Scalar) : Prog unit :=
  try_except
    (engine <- perform (create_engine (DATABASE_URL settings)) ;;
     perform (execute engine
                "INSERT INTO etl_checkpoint (last_processed_id, checkpoint_time) VALUES ("
                last_id ", NOW());") ;;
     ask (logging_info "Checkpoint saved: Last processed ID = %d" [of_scalar last_id]))
    (fun e =>
       ask (logging_error "Error saving checkpoint: %s" [of_str (Py.str e)])).

(** Lines 153 to 174: the [load_data] that the module binds. *)
Definition load_data (settings : Settings) (df : DataFrame) (table_name : string)
  : Prog unit :=
  try_except
    (engine <- perform (create_engine (DATABASE_URL settings)) ;;
     last_id <- get_last_checkpoint settings ;;
     df <-
       match last_id with
       | Some x =>
           resume <- perform (truth x) ;;
           if resume then
             df <- perform (where_id_greater df x) ;;
             ask (logging_info "Resuming ETL from record ID %d" [of_scalar x]) ;;
             ret df
           else ret df
       | None => ret df
       end ;;
     is_empty <- perform (empty df) ;;
     if is_empty then
       ask (logging_info "No new records to process. Skipping load step." [])
     else
       perform (to_sql df table_name engine) ;;
       newest <- perform (id_max df) ;;
       save_checkpoint settings newest ;;
       ask (logging_info "Data loaded successfully." []))
    (fun e =>
       ask (logging_error "Error loading data: %s" [of_str (Py.str e)]) ;;
       send_alert_email "ETL Load Error" ("Data load failed: " ++ Py.str e)).

(** Lines 178 to 190. *)
Definition generate_compliance_report : Prog unit :=
  try_except
    (timestamp <- perform (now_strftime "%Y-%m-%d %H:%M:%S") ;;
     f <- perform (open_file "etl_config_version.txt" "r") ;;
     text <- perform (read f) ;;
     let report_data :=
       Py.VDict [("timestamp", Py.VStr timestamp);
                 ("etl_version", Py.VStr (strip text));
                 ("data_loaded", Py.VBool true)] in
     with_open COMPLIANCE_REPORT "w" (fun f =>
       perform (json_dump report_data f 4)) ;;
     ask (logging_info "Compliance report generated successfully." []))
    (fun e =>
       ask (logging_error "Error in generating compliance report: %s"
              [of_str (Py.str e)])).

(** Lines 192 to 201. *)
Definition archive_processed_file (file_path : string) : Prog unit :=
  try_except
    (present <- ask (os_path_exists ARCHIVE_PATH) ;;
     (if negb present then perform (os_makedirs ARCHIVE_PATH) else ret tt) ;;
     stamp <- perform (now_strftime "%Y%m%d_%H%M%S") ;;
     let new_file_path :=
       os_path_join ARCHIVE_PATH ("processed_" ++ stamp ++ ".csv") in
     perform (os_rename file_path new_file_path) ;;
     ask (logging_info "File archived successfully: %s" [of_str new_file_path]))
    (fun e =>
       ask (logging_error "Error in archiving file: %s" [of_str (Py.str e)])).

(** Lines 202 to 209. *)
Definition get_source_count : Prog (option Z) :=
  try_except
    (path <- SOURCE_FILE_PATH ;;
     df <- perform (pd_read_csv path) ;;
     n <- perform (len df) ;;
     ret (Some n))
    (fun e =>
       ask (logging_error "Error getting source count: %s" [of_str (Py.str e)]) ;;
       ret None).

(** Lines 211 to 220. *)
Definition get_target_count (settings : Settings) (table_name : string)
  : Prog (option Scalar) :=
  try_except
    (engine <- perform (create_engine (DATABASE_URL settings)) ;;
     let query := "SELECT COUNT(*) FROM " ++ table_name ++ ";" in
     result <- perform (pd_read_sql query engine) ;;
     x <- perform (iloc_0_0 result) ;;
     ret (Some x))
    (fun e =>
       ask (logging_error "Error getting target count: %s" [of_str (Py.str e)]) ;;
       ret None).

(** Lines 222 to 238. *)
Definition reconcile_data (settings : Settings) : Prog unit :=
  source_count <- get_source_count ;;
  target_count <- get_target_count settings "customers" ;;
  match source_count, target_count with
  | Some source_count, Some target_count =>
      same <- perform (equals source_count target_count) ;;
      if same then
        ask (logging_info
               "✅ Reconciliation successful: Source and target counts match (%d records)."
               [of_int source_count])
      else
        discrepancy <- perform (minus source_count target_count) ;;
        ask (logging_warning
               "⚠️ Reconciliation failed: Source (%d) and Target (%d) counts do not match. Discrepancy: %d"
               [of_int source_count; of_scalar target_count; of_scalar discrepancy]) ;;
        target_text <- perform (format target_count) ;;
        discrepancy_text <- perform (format discrepancy) ;;
        send_alert_email "ETL Reconciliation Issue"
          ("Discrepancy detected! Source: " ++ str_of_int source_count
           ++ ", Target: " ++ target_text ++ ", Difference: " ++ discrepancy_text)
  | _, _ =>
      ask (logging_warning "Skipping reconciliation due to missing data." [])
  end.

(** Lines 240 to 263. *)
Definition etl_pipeline {interpreter : Py.Interpreter}
  (settings : Settings) : Prog unit :=
  ask (logging_info "Starting ETL pipeline..." []) ;;
  approved <- requires_admin_approval ;;
  if negb approved then
    ask (logging_error "ETL job modification requires approval. Process aborted." [])
  else
    df <- extract_data DATA_SOURCE ;;
    match df with
    | None => ask (logging_error "Extraction failed. ETL process terminated." [])
    | Some df =>
        df <- validate_data df ;;
        df <- transform_data df ;;
        match df with
        | None =>
            ask (logging_error "Transformation failed. ETL process terminated." [])
        | Some df =>
            load_data settings df "customers" ;;
            archive_processed_file DATA_SOURCE ;;
            generate_compliance_report ;;
            ask (logging_info "ETL pipeline completed successfully." [])
        end
    end.

End Script.
(** ** What a run shows *)

Module Trace.
Import Etl Run Builtins.

(** The name of a call: for a call of [logging] the level and the message,
    for [open] the path and the mode, for any other call what is called. *)
Definition label (ev : event) : string :=
  match ev with
  | Asked q _ =>
      match q with
      | os_getenv _ => "os.getenv"
      | os_path_exists _ => "os.path.exists"
      | logging_info msg _ => "INFO " ++ msg
      | logging_warning msg _ => "WARNING " ++ msg
      | logging_error msg _ => "ERROR " ++ msg
      end
  | Did a _ =>
      match a with
      | smtplib_SMTP _ _ => "smtplib.SMTP"
      | starttls _ => "starttls"
      | login _ _ _ => "login"
      | sendmail _ _ _ _ => "sendmail"
      | quit _ => "quit"
      | open_file path mode => "open " ++ path ++ " " ++ mode
      | read _ => "read"
      | write _ _ => "write"
      | close _ => "close"
      | json_dump _ _ _ => "json.dump"
      | os_makedirs _ => "os.makedirs"
      | os_rename _ _ => "os.rename"
      | now_strftime _ => "datetime.now"
      | sha256_hexdigest _ => "hashlib.sha256"
      | pd_read_csv _ => "pd.read_csv"
      | len _ => "len"
      | drop_duplicates _ => "drop_duplicates"
      | dropna _ => "dropna"
      | where_email_contains _ _ => "email contains"
      | where_age_greater _ _ => "age greater"
      | email_lower _ => "email lower"
      | created_at_to_datetime _ => "pd.to_datetime"
      | ssn_encrypt _ => "ssn encrypt"
      | to_json _ => "to_json"
      | to_sql _ _ _ => "to_sql"
      | pd_read_sql _ _ => "pd.read_sql"
      | iloc_0_0 _ => "iloc"
      | empty _ => "empty"
      | where_id_greater _ _ => "id greater"
      | id_max _ => "id max"
      | create_engine _ => "create_engine"
      | connect _ => "connect"
      | connection_close _ => "connection close"
      | execute _ _ _ _ => "execute"
      | truth _ => "bool"
      | format _ => "format"
      | equals _ _ => "equals"
      | minus _ _ => "minus"
      end
  end.

(** The event is a call named [name]. *)
Definition called (name : string) (ev : event) : bool :=
  String.eqb (label ev) name.

(** The event is a call with one of the [names]. *)
Definition among (names : list string) (ev : event) : bool :=
  existsb (String.eqb (label ev)) names.

(** The call returned: a query always does. *)
Definition returned (ev : event) : bool :=
  match ev with
  | Asked _ _ => true
  | Did _ (Py.Return _) => true
  | Did _ (Py.Raise _) => false
  end.

(** The call raised [e]. *)
Definition raised (e : Py.exn) (ev : event) : Prop :=
  match ev with
  | Did _ (Py.Raise e') => e' = e
  | _ => False
  end.

(** The trace ends with the event [ev]. *)
Definition ends_with (ev : event) (t : list event) : Prop :=
  exists t', t = (t' ++ [ev])%list.

(** Every event of [t] that satisfies [trigger] comes after one that
    satisfies [mark]. *)
Definition comes_after (mark trigger : event -> bool) (t : list event) : Prop :=
  forall pre ev post,
    t = (pre ++ ev :: post)%list -> trigger ev = true -> existsb mark pre = true.

(** The same, read from left to right; [seen] says whether a [mark] has
    passed. *)
Fixpoint preceded (mark trigger : event -> bool) (seen : bool) (t : list event)
  : bool :=
  match t with
  | [] => true
  | ev :: t' =>
      (seen || negb (trigger ev)) && preceded mark trigger (seen || mark ev) t'
  end.

(** The text of an approval file that line 66 accepts. *)
Definition approves {interpreter : Py.Interpreter} (text : string) : bool :=
  match Json.loads text with
  | Py.Return approval_data =>
      match get approval_data "approved" with
      | Py.Return approved => eq_True approved
      | Py.Raise _ => false
      end
  | Py.Raise _ => false
  end.

(** A [read] that returned the text of an approval. *)
Definition approving_read {interpreter : Py.Interpreter} (ev : event) : bool :=
  match ev with
  | Did (read _) (Py.Return text) => approves text
  | _ => false
  end.

(** The exception that a run lets escape was raised by one of its calls,
    by [json.loads] on a text that was read, or by [get] on what that text
    decodes to. *)
Definition comes_from {interpreter : Py.Interpreter}
  (e : Py.exn) (t : list event) : Prop :=
  Exists (raised e) t
  \/ Exists (fun ev =>
               match ev with
               | Did (read _) (Py.Return text) =>
                   Json.loads text = Py.Raise e
                   \/ exists v, Json.loads text = Py.Return v
                                /\ get v "approved" = Py.Raise e
               | _ => False
               end) t.

(** The calls of an approval check that reads the file and sends no
    alert. *)
Definition check_calls : list string :=
  ["os.path.exists"; "open admin_approval.json r"; "read"; "close";
   "INFO Admin approval granted."].

(** The calls of the approval check and of its alert, with the two lines
    that [etl_pipeline] logs around it. *)
Definition approval_calls : list string :=
  ["INFO Starting ETL pipeline...";
   "os.path.exists"; "open admin_approval.json r"; "read"; "close";
   "INFO Admin approval granted.";
   "ERROR ETL script modification requires admin approval!";
   "os.getenv"; "smtplib.SMTP"; "starttls"; "login"; "sendmail"; "quit";
   "INFO Alert email sent successfully.";
   "ERROR Error sending alert email: %s";
   "ERROR ETL job modification requires approval. Process aborted."].

(** The calls of each of the other functions. *)
Definition alert_calls : list string :=
  ["os.getenv"; "smtplib.SMTP"; "starttls"; "login"; "sendmail"; "quit";
   "INFO Alert email sent successfully.";
   "ERROR Error sending alert email: %s"].

Definition extract_calls : list string :=
  ["INFO Extracting data from %s"; "pd.read_csv"; "len";
   "INFO Successfully extracted %d records.";
   "ERROR Error in extraction: %s"].

Definition validate_calls : list string :=
  ["INFO Validating data quality..."; "drop_duplicates"; "dropna";
   "email contains"; "age greater"; "len";
   "INFO Data validation completed. %d valid records remaining."].

Definition transform_calls : list string :=
  ["INFO Starting data transformation..."; "email lower"; "pd.to_datetime";
   "ssn encrypt"; "len";
   "INFO Transformation completed successfully. %d valid records remaining.";
   "ERROR Error in transformation: %s"].

Definition load_calls : list string :=
  (["create_engine"; "pd.read_sql"; "empty"; "iloc";
    "WARNING Checkpoint retrieval failed: %s";
    "bool"; "id greater"; "INFO Resuming ETL from record ID %d";
    "INFO No new records to process. Skipping load step.";
    "to_sql"; "id max"; "execute";
    "INFO Checkpoint saved: Last processed ID = %d";
    "ERROR Error saving checkpoint: %s";
    "INFO Data loaded successfully.";
    "ERROR Error loading data: %s"] ++ alert_calls)%list.

Definition archive_calls : list string :=
  ["os.path.exists"; "os.makedirs"; "datetime.now"; "os.rename";
   "INFO File archived successfully: %s";
   "ERROR Error in archiving file: %s"].

Definition report_calls : list string :=
  ["datetime.now"; "open etl_config_version.txt r"; "read";
   "open data/compliance_report.json w"; "json.dump"; "close";
   "INFO Compliance report generated successfully.";
   "ERROR Error in generating compliance report: %s"].

(** The calls that only the first [load_data] makes. *)
Definition replaced_calls : list string :=
  ["INFO Connecting to database..."; "connect"; "to_json"; "hashlib.sha256";
   "open etl_config_version.txt w"; "write";
   "INFO Data loaded successfully. Total records in table: %d";
   "connection close"; "ERROR Error in loading data: %s"].

(** The lines with which [archive_processed_file] and
    [generate_compliance_report] end. *)
Definition archive_ends : list string :=
  ["INFO File archived successfully: %s"; "ERROR Error in archiving file: %s"].

Definition report_ends : list string :=
  ["INFO Compliance report generated successfully.";
   "ERROR Error in generating compliance report: %s"].

(** Every call that a run of [etl_pipeline] can make. *)
Definition pipeline_calls : list string :=
  (approval_calls ++ extract_calls ++ validate_calls ++ transform_calls
   ++ load_calls ++ archive_calls ++ report_calls
   ++ ["ERROR Extraction failed. ETL process terminated.";
       "ERROR Transformation failed. ETL process terminated.";
       "INFO ETL pipeline completed successfully."])%list.

(** A call that is no part of the approval check: a call of pandas or of
    SQLAlchemy, a change of the file system, a line of the log of a later
    step. *)
Definition beyond_approval (ev : event) : bool := negb (among approval_calls ev).

(** The lines that [validate_data] and [transform_data] log last. *)
Definition validation_completed : string :=
  "INFO Data validation completed. %d valid records remaining.".

Definition transformation_completed : string :=
  "INFO Transformation completed successfully. %d valid records remaining.".

Definition pipeline_completed : event :=
  Asked (logging_info "ETL pipeline completed successfully." []) tt.

(** The text that a [read] returned holds a JSON object. *)
Definition holds_object {interpreter : Py.Interpreter} (text : string) : bool :=
  match Json.loads text with
  | Py.Return (Py.VDict _) => true
  | _ => false
  end.

(** A [read] that returned a text which holds no JSON object. *)
Definition unusable_read {interpreter : Py.Interpreter} (ev : event) : bool :=
  match ev with
  | Did (read _) (Py.Return text) => negb (holds_object text)
  | _ => false
  end.

(** A [to_sql] that returned. *)
Definition loaded (ev : event) : bool := called "to_sql" ev && returned ev.

(** The mapping says that data was loaded. *)
Definition says_loaded (obj : Py.value) : bool :=
  match obj with
  | Py.VDict d =>
      match Py.dict_get d "data_loaded" with
      | Some (Py.VBool true) => true
      | _ => false
      end
  | _ => false
  end.

(** What [json.dump] was given. *)
Definition dumped (ev : event) : option Py.value :=
  match ev with
  | Did (json_dump obj _ _) _ => Some obj
  | _ => None
  end.

(** ** An environment to run the script in *)

(** An environment that stores nothing.  The approval file exists and holds
    [approval_text], the archive directory exists, every query of the
    environment finds nothing, and every action returns, with an object at
    address 0, the text [approval_text] or zero, unless [failing] says that
    it raises [error]. *)
Definition obliging (approval_text : string) (error : Py.exn)
  (failing : event -> bool) : Oracle unit :=
  {| answer := fun R (q : query R) (e : unit) =>
       (match q in query R return R with
        | os_getenv _ => None
        | os_path_exists _ => true
        | logging_info _ _ => tt
        | logging_warning _ _ => tt
        | logging_error _ _ => tt
        end, e);
     outcome_of := fun R (a : action R) (e : unit) =>
       (if failing (Did a (Py.Raise error)) then Py.Raise error
        else
          Py.Return
            match a in action R return R with
            | smtplib_SMTP _ _ => SMTP_at 0
            | starttls _ => tt
            | login _ _ _ => tt
            | sendmail _ _ _ _ => tt
            | quit _ => tt
            | open_file _ _ => File_at 0
            | read _ => approval_text
            | write _ _ => tt
            | close _ => tt
            | json_dump _ _ _ => tt
            | os_makedirs _ => tt
            | os_rename _ _ => tt
            | now_strftime _ => "20240101_000000"
            | sha256_hexdigest _ => "00"
            | pd_read_csv _ => DataFrame_at 0
            | len _ => 0%Z
            | drop_duplicates _ => tt
            | dropna _ => tt
            | where_email_contains _ _ => DataFrame_at 0
            | where_age_greater _ _ => DataFrame_at 0
            | email_lower _ => tt
            | created_at_to_datetime _ => tt
            | ssn_encrypt _ => tt
            | to_json _ => "{}"
            | to_sql _ _ _ => tt
            | pd_read_sql _ _ => DataFrame_at 0
            | iloc_0_0 _ => Scalar_at 0
            | empty _ => false
            | where_id_greater _ _ => DataFrame_at 0
            | id_max _ => Scalar_at 0
            | create_engine _ => Engine_at 0
            | connect _ => Connection_at 0
            | connection_close _ => tt
            | execute _ _ _ _ => tt
            | truth _ => true
            | format _ => "0"
            | equals _ _ => true
            | minus _ _ => Scalar_at 0
            end, e) |}.

End Trace.

(** ** Environments of the examples *)

Module Examples.
Import Etl Run Trace.

(** CPython 3.11 with its default limits, in a program that calls
    [etl_pipeline] from its top level: of the 1000 nested calls of
    [sys.getrecursionlimit()] 992 are left when the scanner of [json.load]
    starts at line 65. *)
Definition interpreter : Py.Interpreter :=
  {| Py.int_max_str_digits := 4300; Py.recursion_remaining := 992 |}.

Definition settings : Script.Settings :=
  {| Script.DB_USER := Some "etl";
     Script.DB_PASSWORD := None;
     Script.DB_HOST := Some "localhost";
     Script.DB_PORT := Some "5432";
     Script.DB_NAME := Some "sales" |}.

Definition refused : Py.exn :=
  {| Py.class_of := Py.OtherException "OperationalError";
     Py.str := "connection refused" |}.

(** Approval files: one that says [true], one that says [1], and one that
    holds a list. *)
Definition approved_true : string := "{" ++ Str.quoted "approved" ++ ": true}".
Definition approved_one : string := "{" ++ Str.quoted "approved" ++ ": 1}".
Definition a_list : string := "[true]".

(** Every action returns. *)
Definition all_is_well : Oracle unit :=
  obliging approved_true refused (fun _ => false).

(** The approval file says [1]. *)
Definition approved_by_one : Oracle unit :=
  obliging approved_one refused (fun _ => false).

(** The approval file holds a list. *)
Definition approval_is_a_list : Oracle unit :=
  obliging a_list refused (fun _ => false).

(** The database refuses every connection. *)
Definition database_down : Oracle unit :=
  obliging approved_true refused (called "create_engine").

(** The mail server refuses every connection. *)
Definition mail_down : Oracle unit :=
  obliging approved_true refused (called "smtplib.SMTP").

(** [dropna] raises. *)
Definition dropna_fails : Oracle unit :=
  obliging approved_true refused (called "dropna").

End Examples.

(** * Properties *)

(** ** Strings *)

Module StrFacts.
Import Str.

Lemma app_nil_r (s : string) : s ++ "" = s.
Proof. induction s as [|c s IH]; simpl; [reflexivity | now rewrite IH]. Qed.

Lemma app_assoc (a b c : string) : (a ++ b) ++ c = a ++ b ++ c.
Proof. induction a as [|x a IH]; simpl; [reflexivity | now rewrite IH]. Qed.

Lemma length_app (a b : string) :
  String.length (a ++ b) = String.length a + String.length b.
Proof. induction a as [|x a IH]; simpl; [reflexivity | now rewrite IH]. Qed.

Lemma app_inv_head (a b c : string) : a ++ b = a ++ c -> b = c.
Proof.
  induction a as [|x a IH]; simpl; intros H; [exact H|].
  injection H as H. now apply IH.
Qed.

Lemma length_drop (n : nat) (s : string) :
  String.length (drop n s) = String.length s - n.
Proof.
  revert s; induction n as [|n IH]; intros [|c s]; simpl; auto using Nat.sub_0_r.
Qed.

Lemma take_app_length (a b : string) : take (String.length a) (a ++ b) = a.
Proof. induction a as [|x a IH]; simpl; [now destruct b | now rewrite IH]. Qed.

Lemma strip_prefix_Some (p s r : string) :
  strip_prefix p s = Some r <-> s = p ++ r.
Proof.
  revert s; induction p as [|a p IH]; intros s; simpl.
  - split; [now intros [= ->] | now intros ->].
  - destruct s as [|b s]; [split; discriminate|].
    destruct (Ascii.eqb_spec a b) as [->|Hne].
    + rewrite IH. split; [now intros -> | now intros [= ->]].
    + split; [discriminate | intros [= Hab _]; congruence].
Qed.

Lemma strip_prefix_app (p r : string) : strip_prefix p (p ++ r) = Some r.
Proof. now apply strip_prefix_Some. Qed.

Lemma startswith_true (p s : string) :
  startswith p s = true <-> exists r, s = p ++ r.
Proof.
  unfold startswith. destruct (strip_prefix p s) as [r|] eqn:E.
  - apply strip_prefix_Some in E. split; [now exists r | reflexivity].
  - split; [discriminate|]. intros [r Hr]. apply strip_prefix_Some in Hr. congruence.
Qed.

Lemma contains_true (needle s : string) :
  contains needle s = true <-> exists a b, s = a ++ needle ++ b.
Proof.
  induction s as [|c s IH]; simpl; rewrite orb_true_iff, startswith_true.
  - split.
    + intros [[r Hr]|H]; [now exists "", r | discriminate].
    + intros (a & b & H). left. destruct a as [|x a]; [now exists b | discriminate].
  - rewrite IH. split.
    + intros [[r Hr]|(a & b & H)]; [now exists "", r|].
      exists (String c a), b. simpl. now rewrite H.
    + intros (a & b & H). destruct a as [|x a]; [left; now exists b|].
      right. injection H as _ H. now exists a, b.
Qed.

End StrFacts.

(** ** The matcher *)

Section Matcher.

Lemma app_eq_length (a b a' b' : string) :
  a ++ b = a' ++ b' -> String.length a = String.length a' -> a = a' /\ b = b'.
Proof.
  revert a'; induction a as [|x a IH]; intros [|y a'] H L; simpl in *;
    try discriminate; [now split|].
  injection H as -> H. injection L as L.
  destruct (IH a' H L) as [-> ->]. now split.
Qed.

Variable A : Type.
Variable k : string -> option A.

(** [.*?] under [re.DOTALL] succeeds at the shortest split of the input after
    which the rest of the pattern succeeds. *)
Lemma min_repeat_any_Some (s : string) (r : A) :
  Re.min_repeat_any true k s = Some r ->
  exists a b, s = a ++ b /\ k b = Some r /\
    forall a' b', s = a' ++ b' -> String.length a' < String.length a -> k b' = None.
Proof.
  induction s as [|c s IH]; simpl; destruct (k _) as [r0|] eqn:E; intros H;
    try discriminate.
  - exists "", "". split; [reflexivity|]. split; [congruence|].
    simpl. intros; lia.
  - exists "", (String c s). split; [reflexivity|]. split; [congruence|].
    simpl. intros; lia.
  - destruct (IH H) as (a & b & -> & Hk & Hmin).
    exists (String c a), b. split; [reflexivity|]. split; [exact Hk|].
    intros [|y a'] b' Hs L; simpl in *.
    + now subst b'.
    + injection Hs as -> Hs. apply (Hmin a' b' Hs). lia.
Qed.

Lemma min_repeat_any_None (s : string) :
  Re.min_repeat_any true k s = None -> forall a b, s = a ++ b -> k b = None.
Proof.
  induction s as [|c s IH]; simpl; destruct (k _) as [r0|] eqn:E; intros H;
    try discriminate; intros [|y a] b Hs; simpl in *; try discriminate;
    try (now subst b).
  injection Hs as -> Hs. now apply (IH H a b).
Qed.

End Matcher.

Section Fenced.

(** The shape of the pattern of line 94, with its five literals held
    abstract. *)
Variables o l r c : string.

Let fenced : Re.pattern :=
  [Re.Literal o; Re.GroupBegin; Re.Literal l; Re.MinRepeatAny;
   Re.Literal r; Re.GroupEnd; Re.Literal c].

Lemma match_here_fenced_Some (g : Re.regs) (s rest : string) (g' : Re.regs) :
  Re.match_here true fenced g s = Some (rest, g') ->
  exists body,
    s = o ++ l ++ body ++ r ++ c ++ rest
    /\ Re.closed g' = Some (l ++ body ++ r)
    /\ forall body' rest',
         s = o ++ l ++ body' ++ r ++ c ++ rest' ->
         String.length body <= String.length body'.
Proof.
  unfold fenced; simpl.
  destruct (Str.strip_prefix o s) as [s1|] eqn:E1; [|discriminate].
  destruct (Str.strip_prefix l s1) as [s2|] eqn:E2; [|discriminate].
  intros H. apply min_repeat_any_Some in H.
  destruct H as (body & s3 & -> & Hk & Hmin).
  destruct (Str.strip_prefix r s3) as [s4|] eqn:E3; [|discriminate].
  destruct (Str.strip_prefix c s4) as [s5|] eqn:E4; [|discriminate].
  injection Hk as <- <-.
  apply StrFacts.strip_prefix_Some in E1, E2, E3, E4. subst s s1 s3 s4.
  exists body. split; [reflexivity|]. split.
  - simpl. f_equal.
    replace (l ++ body ++ r ++ c ++ s5) with ((l ++ body ++ r) ++ c ++ s5)
      by now rewrite !StrFacts.app_assoc.
    rewrite StrFacts.length_app, Nat.add_sub. apply StrFacts.take_app_length.
  - intros body' rest' Hs.
    apply StrFacts.app_inv_head in Hs. apply StrFacts.app_inv_head in Hs.
    destruct (Nat.le_gt_cases (String.length body) (String.length body'))
      as [Hle|Hlt]; [exact Hle|].
    specialize (Hmin body' _ Hs Hlt).
    rewrite StrFacts.strip_prefix_app, StrFacts.strip_prefix_app in Hmin. discriminate.
Qed.

Lemma match_here_fenced_None (g : Re.regs) (s : string) :
  Re.match_here true fenced g s = None ->
  forall body rest, s <> o ++ l ++ body ++ r ++ c ++ rest.
Proof.
  unfold fenced; simpl. intros H body rest ->.
  rewrite !StrFacts.strip_prefix_app in H.
  apply min_repeat_any_None with (a := body) (b := r ++ c ++ rest) in H;
    [|reflexivity].
  rewrite !StrFacts.strip_prefix_app in H. discriminate.
Qed.

End Fenced.

Section Search.

Variable p : Re.pattern.

Lemma search_from_Some (s : string) (pos : nat) (m : Re.Match) :
  Re.search_from true p s pos = Some m ->
  exists a b rest g,
    s = a ++ b
    /\ Re.match_here true p Re.no_regs b = Some (rest, g)
    /\ (forall a' b', s = a' ++ b' -> String.length a' < String.length a ->
                      Re.match_here true p Re.no_regs b' = None)
    /\ m = {| Re.m_start := pos + String.length a;
              Re.m_end := pos + String.length a
                          + (String.length b - String.length rest);
              Re.group1 := Re.closed g |}.
Proof.
  revert pos; induction s as [|x s IH]; intros pos; simpl;
    destruct (Re.match_here true p Re.no_regs _) as [[rest g]|] eqn:E;
    intros H; try discriminate.
  - injection H as <-. exists "", "", rest, g. simpl.
    split; [reflexivity|]. split; [exact E|].
    split; [intros; lia | f_equal; lia].
  - injection H as <-. exists "", (String x s), rest, g. simpl.
    split; [reflexivity|]. split; [exact E|].
    split; [intros; lia | f_equal; lia].
  - destruct (IH _ H) as (a & b & rest & g & -> & Hm & Hmin & ->).
    exists (String x a), b, rest, g. simpl.
    split; [reflexivity|]. split; [exact Hm|]. split.
    + intros [|y a'] b' Hs L; simpl in *; [now subst b'|].
      injection Hs as -> Hs. apply (Hmin a' b' Hs). lia.
    + f_equal; lia.
Qed.

Lemma search_from_None (s : string) (pos : nat) :
  Re.search_from true p s pos = None ->
  forall a b, s = a ++ b -> Re.match_here true p Re.no_regs b = None.
Proof.
  revert pos; induction s as [|x s IH]; intros pos; simpl;
    destruct (Re.match_here true p Re.no_regs _) as [[rest g]|] eqn:E;
    intros H; try discriminate; intros [|y a] b Hs; simpl in *;
    try discriminate; try (now subst b).
  injection Hs as -> Hs. now apply (IH _ H a b).
Qed.

End Search.

(** ** [re.search] on the pattern of line 94 finds the captured block *)

(** Where a block of the pattern's form starts, the matcher finds a match. *)
Lemma block_not_missed (body post : string) (g : Re.regs) :
  Re.match_here true structured_results_re g
    (fence_open ++ "{" ++ body ++ "}" ++ fence_close ++ post) <> None.
Proof.
  intros H.
  now apply (match_here_fenced_None _ _ _ _ _ _ H body post).
Qed.

(** A match is a block that is leftmost and, there, shortest; the match
    object gives its span and, as group 1, its braces and body. *)
Lemma search_Some_captured (text : string) (m : Re.Match) :
  Re.search true structured_results_re text = Some m ->
  exists pre body post,
    captured text pre body post
    /\ m = {| Re.m_start := String.length pre;
              Re.m_end := String.length text - String.length post;
              Re.group1 := Some ("{" ++ body ++ "}") |}.
Proof.
  intros H. apply search_from_Some in H.
  destruct H as (a & b & rest & g & Ht & Hm & Hmin & ->).
  destruct (match_here_fenced_Some _ _ _ _ _ _ _ _ Hm) as (body & Hb & Hg & Hshort).
  exists a, body, rest. split; [split; [|split]|].
  - unfold block_at. now rewrite Ht, Hb.
  - intros pre' body' post' Hblk.
    destruct (Nat.le_gt_cases (String.length a) (String.length pre')) as [Hle|Hlt];
      [exact Hle|].
    specialize (Hmin _ _ Hblk Hlt).
    now destruct (block_not_missed body' post' Re.no_regs).
  - intros body' post' Hblk. unfold block_at in Hblk. rewrite Ht in Hblk.
    apply StrFacts.app_inv_head in Hblk. now apply (Hshort body' post').
  - assert (L : String.length rest <= String.length b)
      by (rewrite Hb, !StrFacts.length_app; lia).
    rewrite Hg, Ht, StrFacts.length_app. f_equal; lia.
Qed.

Lemma captured_search (text pre body post : string) :
  captured text pre body post ->
  Re.search true structured_results_re text
  = Some {| Re.m_start := String.length pre;
            Re.m_end := String.length text - String.length post;
            Re.group1 := Some ("{" ++ body ++ "}") |}.
Proof.
  intros (Hblk & Hleft & Hshort).
  destruct (Re.search true structured_results_re text) as [m|] eqn:E.
  - destruct (search_Some_captured _ _ E)
      as (pre0 & body0 & post0 & (Hblk0 & Hleft0 & Hshort0) & ->).
    assert (Lp : String.length pre0 = String.length pre).
    { apply Nat.le_antisymm; [now apply (Hleft0 pre body post) | now apply (Hleft pre0 body0 post0)]. }
    pose proof Hblk0 as Hblk0'. unfold block_at in Hblk0'.
    rewrite Hblk in Hblk0'.
    destruct (app_eq_length _ _ _ _ Hblk0' (eq_sym Lp)) as [<- Hrest].
    assert (Lb : String.length body0 = String.length body).
    { apply Nat.le_antisymm; [now apply (Hshort0 body post) | now apply (Hshort body0 post0)]. }
    do 2 apply StrFacts.app_inv_head in Hrest.
    destruct (app_eq_length _ _ _ _ Hrest (eq_sym Lb)) as [<- Hpost].
    do 2 apply StrFacts.app_inv_head in Hpost. now subst post0.
  - apply search_from_None with (a := pre)
      (b := fence_open ++ "{" ++ body ++ "}" ++ fence_close ++ post) in E;
      [|exact Hblk].
    now destruct (block_not_missed body post Re.no_regs).
Qed.

Lemma search_None_no_block (text : string) :
  Re.search true structured_results_re text = None <->
  forall pre body post, ~ block_at text pre body post.
Proof.
  split.
  - intros E pre body post Hblk.
    apply search_from_None with (a := pre)
      (b := fence_open ++ "{" ++ body ++ "}" ++ fence_close ++ post) in E;
      [|exact Hblk].
    now destruct (block_not_missed body post Re.no_regs).
  - intros Hno. destruct (Re.search true structured_results_re text) as [m|] eqn:E;
      [|reflexivity].
    destruct (search_Some_captured _ _ E) as (pre & body & post & (Hblk & _) & _).
    now destruct (Hno pre body post).
Qed.

(** ** The decoder *)

Section Decoder.
Import Py Json.
Context {interpreter : Interpreter}.

Lemma skip_ws_le (s : string) : String.length (skip_ws s) <= String.length s.
Proof.
  induction s as [|c s IH]; simpl; [lia|].
  destruct (is_ws c); simpl; lia.
Qed.

Lemma expect_length (c : ascii) (s rest : string) :
  expect c s = Some rest -> String.length s = S (String.length rest).
Proof.
  destruct s as [|c' s]; simpl; [discriminate|].
  destruct (Ascii.eqb c' c); [now intros [= ->] | discriminate].
Qed.

Lemma decode_uXXXX_length (s rest : string) (uni : N) :
  decode_uXXXX s = Some (uni, rest) -> String.length s = 4 + String.length rest.
Proof.
  destruct s as [|a [|b [|c [|d s]]]]; unfold decode_uXXXX; try discriminate.
  destruct (hex_value a), (hex_value b), (hex_value c), (hex_value d);
    try discriminate.
  now intros [= _ ->].
Qed.

Lemma scanstring_loop_length (fuel : nat) (s chunks key rest : string) :
  scanstring_loop fuel s chunks = Parsed key rest ->
  String.length rest < String.length s.
Proof.
  revert s chunks; induction fuel as [|fuel IH]; intros s chunks;
    [intros H; discriminate H|].
  cbn [scanstring_loop].
  destruct s as [|c s]; [intros H; discriminate H|].
  destruct (Ascii.eqb c "034"); [intros [= _ ->]; simpl; lia|].
  destruct (Ascii.eqb c "\").
  - destruct s as [|esc s]; [intros H; discriminate H|].
    destruct (Ascii.eqb esc "u").
    + destruct (decode_uXXXX s) as [[uni s3]|] eqn:E1; [|intros H; discriminate H].
      apply decode_uXXXX_length in E1.
      destruct (_ && Str.startswith "\u" s3).
      * destruct (decode_uXXXX (Str.drop 2 s3)) as [[uni2 s4]|] eqn:E2;
          [|intros H; discriminate H].
        apply decode_uXXXX_length in E2. rewrite StrFacts.length_drop in E2.
        destruct (_ && _); intros H; apply IH in H; simpl; lia.
      * intros H; apply IH in H; simpl; lia.
    + destruct (backslash esc); [|intros H; discriminate H].
      intros H; apply IH in H; simpl; lia.
  - destruct (N.ltb _ _); [intros H; discriminate H|].
    intros H; apply IH in H; simpl; lia.
Qed.

Lemma scanstring_loop_fuel (fuel : nat) (s chunks : string) :
  String.length s < fuel -> scanstring_loop fuel s chunks <> OutOfFuel.
Proof.
  revert s chunks; induction fuel as [|fuel IH]; intros s chunks L;
    [simpl in L; lia|].
  cbn [scanstring_loop].
  destruct s as [|c s]; [discriminate|]. simpl in L.
  destruct (Ascii.eqb c "034"); [discriminate|].
  destruct (Ascii.eqb c "\").
  - destruct s as [|esc s]; [discriminate|]. simpl in L.
    destruct (Ascii.eqb esc "u").
    + destruct (decode_uXXXX s) as [[uni s3]|] eqn:E1; [|discriminate].
      apply decode_uXXXX_length in E1.
      destruct (_ && Str.startswith "\u" s3).
      * destruct (decode_uXXXX (Str.drop 2 s3)) as [[uni2 s4]|] eqn:E2;
          [|discriminate].
        apply decode_uXXXX_length in E2. rewrite StrFacts.length_drop in E2.
        destruct (_ && _); apply IH; lia.
      * apply IH; lia.
    + destruct (backslash esc); [|discriminate]. apply IH; lia.
  - destruct (N.ltb _ _); [discriminate|]. apply IH; lia.
Qed.

Lemma scanstring_length (s key rest : string) :
  scanstring s = Parsed key rest -> String.length rest < String.length s.
Proof. apply scanstring_loop_length. Qed.

Lemma scanstring_fuel (s : string) : scanstring s <> OutOfFuel.
Proof. apply scanstring_loop_fuel. lia. Qed.

Lemma span_digits_length (s d rest : string) :
  span_digits s = (d, rest) ->
  String.length s = String.length d + String.length rest.
Proof.
  revert d rest; induction s as [|c s IH]; intros d rest; simpl.
  - now intros [= <- <-].
  - destruct (is_digit c).
    + destruct (span_digits s) as [d0 r0]. intros [= <- <-].
      simpl. now rewrite (IH d0 r0 eq_refl).
    + now intros [= <- <-].
Qed.

Lemma optional_char_length (ok : ascii -> bool) (s a rest : string) :
  optional_char ok s = (a, rest) ->
  String.length s = String.length a + String.length rest.
Proof.
  destruct s as [|c s]; simpl; [now intros [= <- <-]|].
  destruct (ok c); now intros [= <- <-].
Qed.

Lemma integer_part_length (s d rest : string) :
  integer_part s = Some (d, rest) ->
  String.length s = String.length d + String.length rest
  /\ 1 <= String.length d.
Proof.
  destruct s as [|c s]; unfold integer_part; [intros H; discriminate H|].
  destruct (Ascii.eqb c "0"); [now intros [= <- <-]|].
  destruct (is_digit c) eqn:D; [|intros H; discriminate H].
  intros [= H]. split; [now apply span_digits_length|].
  simpl in H. rewrite D in H. destruct (span_digits s).
  injection H as <- _. simpl; lia.
Qed.

Lemma frac_part_length (s f rest : string) :
  frac_part s = (f, rest) ->
  String.length s = String.length f + String.length rest.
Proof.
  destruct s as [|c s]; unfold frac_part; [now intros [= <- <-]|].
  destruct (Ascii.eqb c "."); [|now intros [= <- <-]].
  destruct (span_digits s) as [d r] eqn:E. apply span_digits_length in E.
  destruct d; intros [= <- <-]; simpl in *; lia.
Qed.

Lemma exp_part_length (s e rest : string) :
  exp_part s = (e, rest) ->
  String.length s = String.length e + String.length rest.
Proof.
  destruct s as [|c s]; unfold exp_part; [now intros [= <- <-]|].
  destruct (_ || _); [|now intros [= <- <-]].
  destruct (optional_char _ s) as [sign r1] eqn:E1.
  apply optional_char_length in E1.
  destruct (span_digits r1) as [d r] eqn:E2. apply span_digits_length in E2.
  destruct d; intros [= <- <-]; simpl in *;
    rewrite ?StrFacts.length_app in *; simpl in *; lia.
Qed.

Lemma match_number_length (s integer frac exp rest : string) :
  match_number s = Some (integer, frac, exp, rest) ->
  String.length rest < String.length s.
Proof.
  unfold match_number.
  destruct (optional_char _ s) as [sign s1] eqn:E1.
  apply optional_char_length in E1.
  destruct (integer_part s1) as [[digits s2]|] eqn:E2; [|intros H; discriminate H].
  apply integer_part_length in E2.
  destruct (frac_part s2) as [f s3] eqn:E3. apply frac_part_length in E3.
  destruct (exp_part s3) as [e s4] eqn:E4. apply exp_part_length in E4.
  intros [= _ _ _ <-]. lia.
Qed.

(** One turn of each of the three scanning functions. *)
Lemma scan_once_S (fuel calls : nat) (c : ascii) (s' : string) :
  scan_once (S fuel) calls (String c s') =
  let s := String c s' in
  if Ascii.eqb c "034"%char then
    match scanstring s' with
    | Parsed str rest => Parsed (VStr str) rest
    | DecodeError m => raise_errmsg calls m
    | StopIteration => StopIteration
    | OtherError e => OtherError e
    | OutOfFuel => OutOfFuel
    end
  else if Ascii.eqb c "{"%char then
    match calls with
    | O => OtherError (RecursionError (while_decoding "object"))
    | S calls' =>
        match expect "}" (skip_ws s'), expect "034" (skip_ws s') with
        | Some rest, _ => Parsed (VDict []) rest
        | None, Some rest => object_items fuel calls' rest []
        | None, None => raise_errmsg calls' Expecting_property_name
        end
    end
  else if Ascii.eqb c "["%char then
    match calls with
    | O => OtherError (RecursionError (while_decoding "array"))
    | S calls' =>
        match expect "]" (skip_ws s') with
        | Some rest => Parsed (VList []) rest
        | None => array_items fuel calls' (skip_ws s') []
        end
    end
  else if Str.startswith "null" s then Parsed VNone (Str.drop 4 s)
  else if Str.startswith "true" s then Parsed (VBool true) (Str.drop 4 s)
  else if Str.startswith "false" s then Parsed (VBool false) (Str.drop 5 s)
  else
    match match_number s with
    | Some (integer, frac, exp, rest) =>
        if String.eqb frac "" && String.eqb exp ""
        then
          match parse_int integer with
          | Return n => Parsed (VInt n) rest
          | Raise e => OtherError e
          end
        else Parsed (VFloat (integer ++ frac ++ exp)) rest
    | None =>
        if Str.startswith "NaN" s
        then parse_constant calls (VFloat "nan") (Str.drop 3 s)
        else if Str.startswith "Infinity" s
        then parse_constant calls (VFloat "inf") (Str.drop 8 s)
        else if Str.startswith "-Infinity" s
        then parse_constant calls (VFloat "-inf") (Str.drop 9 s)
        else StopIteration
    end.
Proof. reflexivity. Qed.

Lemma object_items_S (fuel calls : nat) (s : string)
  (pairs : list (string * value)) :
  object_items (S fuel) calls s pairs =
  match scanstring s with
  | Parsed key s1 =>
      match expect ":" (skip_ws s1) with
      | Some s2 =>
          match scan_once fuel calls (skip_ws s2) with
          | Parsed v s3 =>
              match expect "}" (skip_ws s3), expect "," (skip_ws s3) with
              | Some rest, _ => Parsed (VDict (dict (pairs ++ [(key, v)])%list)) rest
              | None, Some s4 =>
                  match expect "034" (skip_ws s4) with
                  | Some s5 => object_items fuel calls s5 (pairs ++ [(key, v)])%list
                  | None => raise_errmsg calls Expecting_property_name
                  end
              | None, None => raise_errmsg calls Expecting_comma_delimiter
              end
          | DecodeError m => DecodeError m
          | StopIteration => StopIteration
          | OtherError e => OtherError e
          | OutOfFuel => OutOfFuel
          end
      | None => raise_errmsg calls Expecting_colon_delimiter
      end
  | DecodeError m => raise_errmsg calls m
  | StopIteration => StopIteration
  | OtherError e => OtherError e
  | OutOfFuel => OutOfFuel
  end.
Proof. reflexivity. Qed.

Lemma array_items_S (fuel calls : nat) (s : string) (values : list value) :
  array_items (S fuel) calls s values =
  match scan_once fuel calls s with
  | Parsed v s1 =>
      match expect "]" (skip_ws s1), expect "," (skip_ws s1) with
      | Some rest, _ => Parsed (VList (values ++ [v])%list) rest
      | None, Some s2 => array_items fuel calls (skip_ws s2) (values ++ [v])%list
      | None, None => raise_errmsg calls Expecting_comma_delimiter
      end
  | DecodeError m => DecodeError m
  | StopIteration => StopIteration
  | OtherError e => OtherError e
  | OutOfFuel => OutOfFuel
  end.
Proof. reflexivity. Qed.

(** Case analysis on whatever a scanning function branches on first. *)
Ltac break_parse :=
  match goal with
  | |- (if ?b then _ else _) = _ -> _ => destruct b eqn:?
  | |- match ?x with _ => _ end = _ -> _ => destruct x eqn:?
  | |- (if ?b then _ else _) <> _ => destruct b eqn:?
  | |- match ?x with _ => _ end <> _ => destruct x eqn:?
  end.

(** The lengths that the steps of a scan relate. *)
Ltac scan_lengths :=
  repeat match goal with
    | H : expect _ _ = Some _ |- _ => apply expect_length in H
    | H : scanstring _ = Parsed _ _ |- _ => apply scanstring_length in H
    | H : match_number _ = Some _ |- _ => apply match_number_length in H
    end;
  repeat match goal with
    | H : context [skip_ws ?x] |- _ =>
        lazymatch goal with
        | _ : String.length (skip_ws x) <= String.length x |- _ => fail
        | _ => pose proof (skip_ws_le x)
        end
    | |- context [skip_ws ?x] =>
        lazymatch goal with
        | _ : String.length (skip_ws x) <= String.length x |- _ => fail
        | _ => pose proof (skip_ws_le x)
        end
    end;
  rewrite ?StrFacts.length_drop in *; cbn [String.length] in *.

Lemma Parsed_inv (A : Type) (a a' : A) (rest rest' : string) :
  Parsed a rest = Parsed a' rest' -> a = a' /\ rest = rest'.
Proof. intros H. now injection H. Qed.

(** A scan that gives a value has consumed at least one character. *)
Lemma scan_progress (fuel : nat) :
  (forall calls s v rest,
     scan_once fuel calls s = Parsed v rest -> String.length rest < String.length s)
  /\ (forall calls s pairs v rest,
        object_items fuel calls s pairs = Parsed v rest ->
        String.length rest < String.length s)
  /\ (forall calls s values v rest,
        array_items fuel calls s values = Parsed v rest ->
        String.length rest < String.length s).
Proof.
  induction fuel as [|fuel (IHs & IHo & IHa)].
  - repeat split; intros; discriminate.
  - split; [|split].
    + intros calls [|c s'] v rest; [intros H; discriminate H|].
      rewrite scan_once_S; cbv zeta; unfold raise_errmsg, parse_constant.
      remember (String c s') as s eqn:Es.
      apply (f_equal String.length) in Es; cbn [String.length] in Es.
      repeat break_parse; intros H; try discriminate H;
        try (apply Parsed_inv in H; destruct H as [_ <-]);
        try (apply IHo in H); try (apply IHa in H);
        scan_lengths; lia.
    + intros calls s pairs v rest. rewrite object_items_S; unfold raise_errmsg.
      repeat break_parse; intros H; try discriminate H;
        try (apply Parsed_inv in H; destruct H as [_ <-]); try (apply IHo in H);
        repeat match goal with
          | E : scan_once fuel _ _ = Parsed _ _ |- _ => apply IHs in E
          end;
        scan_lengths; lia.
    + intros calls s values v rest. rewrite array_items_S; unfold raise_errmsg.
      repeat break_parse; intros H; try discriminate H;
        try (apply Parsed_inv in H; destruct H as [_ <-]); try (apply IHa in H);
        repeat match goal with
          | E : scan_once fuel _ _ = Parsed _ _ |- _ => apply IHs in E
          end;
        scan_lengths; lia.
Qed.

(** With fuel for twice the input, a scan never stops for want of fuel. *)
Lemma scan_fuel (fuel : nat) :
  (forall calls s,
     2 * String.length s + 1 <= fuel -> scan_once fuel calls s <> OutOfFuel)
  /\ (forall calls s pairs,
        2 * String.length s + 2 <= fuel ->
        object_items fuel calls s pairs <> OutOfFuel)
  /\ (forall calls s values,
        2 * String.length s + 2 <= fuel ->
        array_items fuel calls s values <> OutOfFuel).
Proof.
  induction fuel as [|fuel (IHs & IHo & IHa)].
  - repeat split; intros; lia.
  - destruct (scan_progress fuel) as (Ps & _ & _).
    split; [|split].
    + intros calls [|c s'] L; [discriminate|].
      rewrite scan_once_S; cbv zeta; unfold raise_errmsg, parse_constant. cbn [String.length] in L.
      repeat break_parse; try discriminate;
        try (exfalso; eapply scanstring_fuel; eassumption);
        (apply IHo || apply IHa); scan_lengths; lia.
    + intros calls s pairs L. rewrite object_items_S; unfold raise_errmsg.
      repeat break_parse; try discriminate;
        try (exfalso; eapply scanstring_fuel; eassumption);
        repeat match goal with
          | E : scan_once fuel _ _ = Parsed _ _ |- _ => apply Ps in E
          end;
        try (apply IHo; scan_lengths; lia);
        exfalso; eapply IHs; [|eassumption]; scan_lengths; lia.
    + intros calls s values L. rewrite array_items_S; unfold raise_errmsg.
      repeat break_parse; try discriminate;
        repeat match goal with
          | E : scan_once fuel _ _ = Parsed _ _ |- _ => apply Ps in E
          end;
        try (apply IHa; scan_lengths; lia);
        exfalso; eapply IHs; [|eassumption]; scan_lengths; lia.
Qed.

Lemma scan_once_no_fuel_needed (s : string) :
  scan_once (enough s) recursion_remaining (skip_ws s) <> OutOfFuel.
Proof.
  apply (proj1 (scan_fuel _)). pose proof (skip_ws_le s). unfold enough. lia.
Qed.

(** ** The exceptions of the decoder *)

(** [scanstring] gives no exception of another class. *)
Lemma scanstring_loop_raises (fuel : nat) (s chunks : string) (e : exn) :
  scanstring_loop fuel s chunks <> OtherError e.
Proof.
  revert s chunks; induction fuel as [|fuel IH]; intros s chunks;
    [discriminate|].
  cbn [scanstring_loop].
  repeat break_parse; try discriminate; apply IH.
Qed.

Lemma scanstring_raises (s : string) (e : exn) : scanstring s <> OtherError e.
Proof. apply scanstring_loop_raises. Qed.

(** Where a [JSONDecodeError] is built, it is raised, or a [RecursionError]
    in its place. *)
Lemma raise_errmsg_cases (A : Type) (calls : nat) (m : msg) :
  @raise_errmsg A calls m = DecodeError m
  \/ exists call, @raise_errmsg A calls m = OtherError (RecursionError call).
Proof.
  destruct calls as [|[|[|calls]]]; [right|right|right|left];
    try reflexivity; now eexists.
Qed.

Lemma raise_errmsg_enough (A : Type) (calls : nat) (m : msg) :
  3 <= calls -> @raise_errmsg A calls m = DecodeError m.
Proof. destruct calls as [|[|[|calls]]]; [lia|lia|lia|reflexivity]. Qed.

Lemma parse_constant_enough (A : Type) (calls : nat) (v : A) (rest : string) :
  1 <= calls -> parse_constant calls v rest = Parsed v rest.
Proof. destruct calls; [lia | reflexivity]. Qed.

(** A value that [json.loads] returns is one that the scanner gave. *)
Lemma loads_Return (s : string) (v : value) :
  loads s = Return v ->
  exists rest,
    scan_once (enough s) recursion_remaining (skip_ws s) = Parsed v rest.
Proof.
  unfold loads. destruct (Str.startswith BOM s); [intros H; discriminate H|].
  unfold decode.
  destruct (scan_once (enough s) recursion_remaining (skip_ws s))
    as [obj rest|m| |e|]; try (intros H; discriminate H).
  - destruct (skip_ws rest).
    + intros [= <-]. now exists rest.
    + destruct (raise_errmsg_cases value (recursion_remaining + 2) Extra_data)
        as [-> | [call ->]]; intros H; discriminate H.
  - destruct (raise_errmsg_cases value (recursion_remaining + 1) Expecting_value)
      as [-> | [call ->]]; intros H; discriminate H.
Qed.

(** An exception of the scanner that is no [JSONDecodeError] comes from a
    limit of the interpreter. *)
Lemma scan_raises (fuel : nat) :
  (forall calls s e, scan_once fuel calls s = OtherError e -> limit_error e)
  /\ (forall calls s pairs e,
        object_items fuel calls s pairs = OtherError e -> limit_error e)
  /\ (forall calls s values e,
        array_items fuel calls s values = OtherError e -> limit_error e).
Proof.
  induction fuel as [|fuel (IHs & IHo & IHa)].
  - repeat split; intros; discriminate.
  - split; [|split].
    + intros calls [|c s'] e; [intros H; discriminate H|].
      rewrite scan_once_S; cbv zeta; unfold raise_errmsg, parse_constant.
      repeat break_parse; intros H; try discriminate H;
        try (now apply IHo in H); try (now apply IHa in H);
        try (exfalso; eapply scanstring_raises; eassumption);
        try (injection H as <-; right; now eexists).
      injection H as <-.
      match goal with
      | E : parse_int _ = Raise _ |- _ => unfold parse_int in E; revert E
      end.
      destruct (int_converts _) eqn:C; intros [= <-].
      left. eexists. split; [reflexivity | exact C].
    + intros calls s pairs e. rewrite object_items_S; unfold raise_errmsg.
      repeat break_parse; intros H; try discriminate H;
        try (now apply IHo in H);
        try (exfalso; eapply scanstring_raises; eassumption);
        try (injection H as <-; right; now eexists).
      injection H as <-. eapply IHs; eassumption.
    + intros calls s values e. rewrite array_items_S; unfold raise_errmsg.
      repeat break_parse; intros H; try discriminate H;
        try (now apply IHa in H);
        try (injection H as <-; right; now eexists).
      injection H as <-. eapply IHs; eassumption.
Qed.

(** [decode] always answers: with a value, with a [JSONDecodeError] or with
    an exception that a limit of the interpreter causes. *)
Lemma decode_total (s : string) :
  (exists v, decode s = Parsed v "")
  \/ (exists m, decode s = DecodeError m)
  \/ (exists e, decode s = OtherError e /\ limit_error e).
Proof.
  unfold decode. pose proof (scan_once_no_fuel_needed s) as F.
  destruct (scan_once (enough s) recursion_remaining (skip_ws s))
    as [v rest|m| |e|] eqn:E; try congruence.
  - destruct (skip_ws rest); [left; now exists v|].
    destruct (raise_errmsg_cases value (recursion_remaining + 2) Extra_data)
      as [-> | [call ->]]; right; [left; now eexists|right].
    eexists. split; [reflexivity | right; now eexists].
  - right; left; now eexists.
  - destruct (raise_errmsg_cases value (recursion_remaining + 1) Expecting_value)
      as [-> | [call ->]]; right; [left; now eexists|right].
    eexists. split; [reflexivity | right; now eexists].
  - right; right. exists e. split; [reflexivity|].
    now apply (proj1 (scan_raises _)) in E.
Qed.

(** [json.loads] returns a value, raises a [JSONDecodeError], or raises the
    exception that a limit of the interpreter causes. *)
Lemma loads_total (s : string) :
  (exists v, loads s = Return v)
  \/ (exists m, loads s = Raise (JSONDecodeError_of m))
  \/ (exists e, loads s = Raise e /\ limit_error e).
Proof.
  unfold loads. destruct (Str.startswith BOM s); [right; left; now eexists|].
  destruct (decode_total s) as [[v ->]|[[m ->]|(e & -> & L)]];
    [left; now exists v | right; left; now exists m | right; right; now exists e].
Qed.

(** The exceptions of the limits are no [JSONDecodeError]: line 101 does not
    catch them. *)
Lemma limit_error_not_caught (e : exn) :
  limit_error e -> isinstance_JSONDecodeError e = false.
Proof. now intros [(digits & -> & _)|[call ->]]. Qed.

(** ** Texts within the limits *)

Lemma suffix_refl (s : string) : Str.suffix s s.
Proof. now exists "". Qed.

Lemma suffix_cons (c : ascii) (r s : string) :
  Str.suffix r s -> Str.suffix r (String c s).
Proof. intros [p ->]. now exists (String c p). Qed.

Lemma suffix_trans (a b c : string) :
  Str.suffix a b -> Str.suffix b c -> Str.suffix a c.
Proof.
  intros [p ->] [q ->]. exists (q ++ p). now rewrite StrFacts.app_assoc.
Qed.

Lemma suffix_app (p r : string) : Str.suffix r (p ++ r).
Proof. now exists p. Qed.

Lemma suffix_drop (n : nat) (s : string) : Str.suffix (Str.drop n s) s.
Proof.
  revert s; induction n as [|n IH]; intros s; [apply suffix_refl|].
  destruct s as [|c s]; simpl; [apply suffix_refl|].
  apply suffix_cons, IH.
Qed.

Lemma skip_ws_suffix (s : string) : Str.suffix (skip_ws s) s.
Proof.
  induction s as [|c s IH]; simpl; [apply suffix_refl|].
  destruct (is_ws c); [now apply suffix_cons | apply suffix_refl].
Qed.

Lemma expect_suffix (c : ascii) (s rest : string) :
  expect c s = Some rest -> Str.suffix rest s.
Proof.
  destruct s as [|c' s]; simpl; [discriminate|].
  destruct (Ascii.eqb c' c); [|discriminate].
  intros [= ->]. apply suffix_cons, suffix_refl.
Qed.

Lemma decode_uXXXX_suffix (s rest : string) (uni : N) :
  decode_uXXXX s = Some (uni, rest) -> Str.suffix rest s.
Proof.
  destruct s as [|a [|b [|c [|d s]]]]; unfold decode_uXXXX; try discriminate.
  destruct (hex_value a), (hex_value b), (hex_value c), (hex_value d);
    try discriminate.
  intros [= _ ->]. repeat apply suffix_cons. apply suffix_refl.
Qed.

Lemma scanstring_loop_suffix (fuel : nat) (s chunks key rest : string) :
  scanstring_loop fuel s chunks = Parsed key rest -> Str.suffix rest s.
Proof.
  revert s chunks; induction fuel as [|fuel IH]; intros s chunks;
    [intros H; discriminate H|].
  cbn [scanstring_loop].
  destruct s as [|c s]; [intros H; discriminate H|].
  destruct (Ascii.eqb c "034");
    [intros [= _ ->]; apply suffix_cons, suffix_refl|].
  destruct (Ascii.eqb c "\").
  - destruct s as [|esc s]; [intros H; discriminate H|].
    destruct (Ascii.eqb esc "u").
    + destruct (decode_uXXXX s) as [[uni s3]|] eqn:E1; [|intros H; discriminate H].
      apply decode_uXXXX_suffix in E1.
      destruct (_ && Str.startswith "\u" s3).
      * destruct (decode_uXXXX (Str.drop 2 s3)) as [[uni2 s4]|] eqn:E2;
          [|intros H; discriminate H].
        apply decode_uXXXX_suffix in E2.
        pose proof (suffix_drop 2 s3) as D.
        destruct (_ && _); intros H; apply IH in H; do 2 apply suffix_cons;
          eauto using suffix_trans.
      * intros H; apply IH in H. do 2 apply suffix_cons.
        eauto using suffix_trans.
    + destruct (backslash esc); [|intros H; discriminate H].
      intros H; apply IH in H. now do 2 apply suffix_cons.
  - destruct (N.ltb _ _); [intros H; discriminate H|].
    intros H; apply IH in H. now apply suffix_cons.
Qed.

Lemma scanstring_suffix (s key rest : string) :
  scanstring s = Parsed key rest -> Str.suffix rest s.
Proof. apply scanstring_loop_suffix. Qed.

Lemma span_digits_run (s d rest : string) :
  span_digits s = (d, rest) -> s = d ++ rest /\ String.length d = digit_run s.
Proof.
  revert d rest; induction s as [|c s IH]; intros d rest; simpl.
  - now intros [= <- <-].
  - destruct (is_digit c).
    + destruct (span_digits s) as [d0 r0]. intros [= <- <-].
      destruct (IH d0 r0 eq_refl) as [E L]. simpl. now rewrite <- E, L.
    + now intros [= <- <-].
Qed.

Lemma optional_char_app (ok : ascii -> bool) (s a rest : string) :
  optional_char ok s = (a, rest) -> s = a ++ rest.
Proof.
  destruct s as [|c s]; simpl; [now intros [= <- <-]|].
  destruct (ok c); now intros [= <- <-].
Qed.

Lemma integer_part_run (s d rest : string) :
  integer_part s = Some (d, rest) ->
  s = d ++ rest /\ String.length d <= digit_run s
  /\ exists c d', d = String c d' /\ is_digit c = true.
Proof.
  destruct s as [|c s]; unfold integer_part; [intros H; discriminate H|].
  destruct (Ascii.eqb_spec c "0") as [->|_].
  - intros [= <- <-]. repeat split; [simpl; lia|]. now exists "0"%char, "".
  - destruct (is_digit c) eqn:D; [|intros H; discriminate H].
    intros [= H]. destruct (span_digits_run (String c s) _ _ H) as [E L].
    repeat split; [exact E | lia|].
    simpl in H. rewrite D in H. destruct (span_digits s).
    injection H as <- _. now eexists _, _.
Qed.

Lemma frac_part_suffix (s f rest : string) :
  frac_part s = (f, rest) -> Str.suffix rest s.
Proof.
  destruct s as [|c s]; unfold frac_part;
    [intros [= <- <-]; apply suffix_refl|].
  destruct (Ascii.eqb c "."); [|intros [= <- <-]; apply suffix_refl].
  destruct (span_digits s) as [d r] eqn:E.
  apply span_digits_run in E; destruct E as [-> _].
  destruct d; intros [= <- <-]; [apply suffix_refl|].
  apply suffix_cons, suffix_app.
Qed.

Lemma exp_part_suffix (s e rest : string) :
  exp_part s = (e, rest) -> Str.suffix rest s.
Proof.
  destruct s as [|c s]; unfold exp_part;
    [intros [= <- <-]; apply suffix_refl|].
  destruct (_ || _); [|intros [= <- <-]; apply suffix_refl].
  destruct (optional_char _ s) as [sign r1] eqn:E1.
  apply optional_char_app in E1; subst s.
  destruct (span_digits r1) as [d r] eqn:E2.
  apply span_digits_run in E2; destruct E2 as [-> _].
  destruct d; intros [= <- <-]; [apply suffix_refl|].
  apply suffix_cons. eapply suffix_trans; apply suffix_app.
Qed.

Lemma brackets_app (p r : string) : brackets (p ++ r) = brackets p + brackets r.
Proof.
  induction p as [|c p IH]; simpl; [reflexivity|]. rewrite IH. lia.
Qed.

Lemma digit_run_longest (s : string) : digit_run s <= longest_digit_run s.
Proof. destruct s as [|c s]; simpl; lia. Qed.

Lemma digit_run_app (p r : string) : digit_run p <= digit_run (p ++ r).
Proof.
  induction p as [|c p IH]; simpl; [lia|]. destruct (is_digit c); lia.
Qed.

Lemma longest_digit_run_app (p r : string) :
  longest_digit_run r <= longest_digit_run (p ++ r).
Proof.
  induction p as [|c p IH]; [reflexivity|].
  change (String c p ++ r) with (String c (p ++ r)).
  cbn [longest_digit_run]. lia.
Qed.

(** What is left of a text has no more brackets and no longer run of digits
    than the text. *)
Lemma suffix_limits (r s : string) :
  Str.suffix r s ->
  brackets r <= brackets s /\ longest_digit_run r <= longest_digit_run s.
Proof.
  intros [p ->]. split; [rewrite brackets_app; lia | apply longest_digit_run_app].
Qed.

Lemma is_digit_not_minus (c : ascii) :
  is_digit c = true -> Ascii.eqb c "-" = false.
Proof.
  destruct (Ascii.eqb_spec c "-") as [->|_]; [discriminate | reflexivity].
Qed.

(** The integer part of a number is a run of digits of the text. *)
Lemma match_number_run (s integer frac exp rest : string) :
  match_number s = Some (integer, frac, exp, rest) ->
  Str.suffix rest s /\ count_digits integer <= longest_digit_run s.
Proof.
  unfold match_number.
  destruct (optional_char _ s) as [sign s1] eqn:E1.
  assert (Hsign : sign = "" \/ sign = "-").
  { destruct s as [|c s]; simpl in E1; [injection E1 as <- _; now left|].
    destruct (Ascii.eqb_spec c "-") as [->|_];
      injection E1 as <- _; [now right | now left]. }
  apply optional_char_app in E1.
  destruct (integer_part s1) as [[digits s2]|] eqn:E2; [|intros H; discriminate H].
  apply integer_part_run in E2.
  destruct E2 as (E2 & L & c & d' & -> & D).
  destruct (frac_part s2) as [f s3] eqn:E3. apply frac_part_suffix in E3.
  destruct (exp_part s3) as [e s4] eqn:E4. apply exp_part_suffix in E4.
  intros [= <- _ _ <-].
  assert (S1 : Str.suffix s1 s) by (rewrite E1; apply suffix_app).
  split.
  - apply suffix_trans with s3; [exact E4|].
    apply suffix_trans with s2; [exact E3|].
    apply suffix_trans with s1; [|exact S1].
    rewrite E2. apply suffix_app.
  - apply suffix_limits in S1. pose proof (digit_run_longest s1).
    assert (count_digits (sign ++ String c d') = String.length (String c d')).
    { destruct Hsign as [-> | ->]; simpl; [|reflexivity].
      now rewrite (is_digit_not_minus _ D). }
    lia.
Qed.

(** [int] converts fewer digits than it converts. *)
Lemma int_converts_le (n m : nat) :
  n <= m -> int_converts m = true -> int_converts n = true.
Proof.
  unfold int_converts. intros L.
  destruct (Nat.ltb_spec 640 m), (Nat.ltb_spec 640 n),
    (Nat.ltb_spec 0 int_max_str_digits), (Nat.ltb_spec int_max_str_digits m),
    (Nat.ltb_spec int_max_str_digits n); simpl; try reflexivity;
    try discriminate; lia.
Qed.

(** The texts left by the steps of a scan, measured. *)
Ltac scan_limits :=
  repeat match goal with
    | H : expect _ _ = Some _ |- _ =>
        apply expect_suffix, suffix_limits in H; destruct H
    | H : scanstring _ = Parsed _ _ |- _ =>
        apply scanstring_suffix, suffix_limits in H; destruct H
    | H : match_number _ = Some _ |- _ =>
        apply match_number_run in H; destruct H as [H ?];
        apply suffix_limits in H; destruct H
    end;
  repeat match goal with
    | H : context [skip_ws ?x] |- _ =>
        lazymatch goal with
        | _ : brackets (skip_ws x) <= brackets x |- _ => fail
        | _ => destruct (suffix_limits _ _ (skip_ws_suffix x))
        end
    | |- context [skip_ws ?x] =>
        lazymatch goal with
        | _ : brackets (skip_ws x) <= brackets x |- _ => fail
        | _ => destruct (suffix_limits _ _ (skip_ws_suffix x))
        end
    | H : context [Str.drop ?n ?x] |- _ =>
        lazymatch goal with
        | _ : brackets (Str.drop n x) <= brackets x |- _ => fail
        | _ => destruct (suffix_limits _ _ (suffix_drop n x))
        end
    | |- context [Str.drop ?n ?x] =>
        lazymatch goal with
        | _ : brackets (Str.drop n x) <= brackets x |- _ => fail
        | _ => destruct (suffix_limits _ _ (suffix_drop n x))
        end
    end.

(** What the scanner gives on a text within the limits: no exception but a
    [JSONDecodeError], and a rest that is within the limits too. *)
Lemma scan_within (fuel : nat) :
  (forall calls s r,
     brackets s + 3 <= calls -> int_converts (longest_digit_run s) = true ->
     scan_once fuel calls s = r ->
     match r with
     | Parsed _ rest =>
         brackets rest <= brackets s
         /\ longest_digit_run rest <= longest_digit_run s
     | OtherError _ => False
     | _ => True
     end)
  /\ (forall calls s pairs r,
        brackets s + 3 <= calls -> int_converts (longest_digit_run s) = true ->
        object_items fuel calls s pairs = r ->
        match r with
        | Parsed _ rest =>
            brackets rest <= brackets s
            /\ longest_digit_run rest <= longest_digit_run s
        | OtherError _ => False
        | _ => True
        end)
  /\ (forall calls s values r,
        brackets s + 3 <= calls -> int_converts (longest_digit_run s) = true ->
        array_items fuel calls s values = r ->
        match r with
        | Parsed _ rest =>
            brackets rest <= brackets s
            /\ longest_digit_run rest <= longest_digit_run s
        | OtherError _ => False
        | _ => True
        end).
Proof.
  induction fuel as [|fuel (IHs & IHo & IHa)].
  - repeat split; intros; subst; exact I.
  - split; [|split].
    + intros calls [|c s'] r B C; [now intros <-|].
      rewrite scan_once_S; cbv zeta.
      destruct (suffix_limits _ _ (suffix_cons c _ _ (suffix_refl s')))
        as [B' L'].
      rewrite !parse_constant_enough by lia.
      destruct (Ascii.eqb c "034") eqn:E1.
      { destruct (scanstring s') as [str rest|m| |e|] eqn:Es;
          rewrite ?raise_errmsg_enough by lia; intros <-;
          try exact I; [scan_limits; lia | now apply scanstring_raises in Es]. }
      destruct (Ascii.eqb c "{") eqn:E2.
      { assert (Hb : brackets (String c s') = S (brackets s'))
          by (cbn [brackets]; now rewrite E2).
        destruct calls as [|calls']; [lia|].
        rewrite raise_errmsg_enough by lia.
        destruct (expect "}" (skip_ws s')) as [rest|] eqn:X1;
          [intros <-; scan_limits; lia|].
        destruct (expect "034" (skip_ws s')) as [rest|] eqn:X2;
          [|now intros <-].
        intros E. scan_limits.
        assert (Br : brackets rest + 3 <= calls') by lia.
        assert (Cr : int_converts (longest_digit_run rest) = true)
          by (eapply int_converts_le; [|exact C]; lia).
        pose proof (IHo calls' rest [] r Br Cr E) as P.
        destruct r; try exact P; lia. }
      destruct (Ascii.eqb c "[") eqn:E3.
      { assert (Hb : brackets (String c s') = S (brackets s'))
          by (cbn [brackets]; rewrite E3; now rewrite orb_true_r).
        destruct calls as [|calls']; [lia|].
        destruct (expect "]" (skip_ws s')) as [rest|] eqn:X1;
          [intros <-; scan_limits; lia|].
        intros E. scan_limits.
        assert (Br : brackets (skip_ws s') + 3 <= calls') by lia.
        assert (Cr : int_converts (longest_digit_run (skip_ws s')) = true)
          by (eapply int_converts_le; [|exact C]; lia).
        pose proof (IHa calls' _ [] r Br Cr E) as P.
        destruct r; try exact P; lia. }
      repeat break_parse; intros <-; try exact I;
        try (scan_limits; lia).
      match goal with
      | E : parse_int _ = Raise _ |- _ => unfold parse_int in E; revert E
      end.
      scan_limits.
      match goal with
      | |- context [int_converts ?n] =>
          rewrite (fun L => int_converts_le n _ L C) by lia
      end.
      discriminate.
    + intros calls s pairs r B C. rewrite object_items_S.
      rewrite !raise_errmsg_enough by lia.
      destruct (scanstring s) as [key s1|m| |e|] eqn:Es;
        rewrite ?raise_errmsg_enough by lia; try (now intros <-);
        [|now apply scanstring_raises in Es].
      destruct (expect ":" (skip_ws s1)) as [s2|] eqn:X1; [|now intros <-].
      scan_limits.
      assert (B2 : brackets (skip_ws s2) + 3 <= calls) by lia.
      assert (C2 : int_converts (longest_digit_run (skip_ws s2)) = true)
        by (eapply int_converts_le; [|exact C]; lia).
      pose proof (IHs calls _ _ B2 C2 eq_refl) as P.
      destruct (scan_once fuel calls (skip_ws s2)) as [v s3|m| |e|];
        try (now intros <-); try contradiction.
      destruct P as [B3 L3].
      destruct (expect "}" (skip_ws s3)) as [rest|] eqn:X2;
        [intros <-; scan_limits; lia|].
      destruct (expect "," (skip_ws s3)) as [s4|] eqn:X3; [|now intros <-].
      destruct (expect "034" (skip_ws s4)) as [s5|] eqn:X4; [|now intros <-].
      intros E. scan_limits.
      assert (B5 : brackets s5 + 3 <= calls) by lia.
      assert (C5 : int_converts (longest_digit_run s5) = true)
        by (eapply int_converts_le; [|exact C]; lia).
      pose proof (IHo calls s5 _ r B5 C5 E) as Q.
      destruct r; try exact Q; lia.
    + intros calls s values r B C. rewrite array_items_S.
      rewrite !raise_errmsg_enough by lia.
      pose proof (IHs calls _ _ B C eq_refl) as P.
      destruct (scan_once fuel calls s) as [v s1|m| |e|];
        try (now intros <-); try contradiction.
      destruct P as [B1 L1].
      destruct (expect "]" (skip_ws s1)) as [rest|] eqn:X2;
        [intros <-; scan_limits; lia|].
      destruct (expect "," (skip_ws s1)) as [s2|] eqn:X3; [|now intros <-].
      intros E. scan_limits.
      assert (B2 : brackets (skip_ws s2) + 3 <= calls) by lia.
      assert (C2 : int_converts (longest_digit_run (skip_ws s2)) = true)
        by (eapply int_converts_le; [|exact C]; lia).
      pose proof (IHa calls _ _ r B2 C2 E) as Q.
      destruct r; try exact Q; lia.
Qed.

(** On a text within the limits [json.loads] raises nothing but a
    [JSONDecodeError]. *)
Lemma loads_within_limits (s : string) (e : exn) :
  within_limits s = true ->
  loads s = Raise e -> isinstance_JSONDecodeError e = true.
Proof.
  unfold within_limits. intros W.
  apply andb_prop in W; destruct W as [B C]. apply Nat.leb_le in B.
  unfold loads. destruct (Str.startswith BOM s); [now intros [= <-]|].
  unfold decode.
  destruct (suffix_limits _ _ (skip_ws_suffix s)) as [Bs Ls].
  assert (B' : brackets (skip_ws s) + 3 <= recursion_remaining) by lia.
  assert (C' : int_converts (longest_digit_run (skip_ws s)) = true)
    by (apply (int_converts_le _ _ Ls C)).
  pose proof (proj1 (scan_within (enough s)) _ _ _ B' C' eq_refl) as P.
  pose proof (scan_once_no_fuel_needed s) as F.
  rewrite !raise_errmsg_enough by lia.
  destruct (scan_once (enough s) recursion_remaining (skip_ws s))
    as [v rest|m| |e'|]; try (now intros [= <-]); try contradiction.
  destruct (skip_ws rest); [discriminate | now intros [= <-]].
Qed.

(** The loop of [JSONObject] gives a [dict]. *)
Lemma object_items_dict (fuel calls : nat) (s : string)
  (pairs : list (string * value)) (obj : value) (rest : string) :
  object_items fuel calls s pairs = Parsed obj rest -> is_dict obj = true.
Proof.
  revert s pairs; induction fuel as [|fuel IH]; intros s pairs;
    [intros H; discriminate H|].
  rewrite object_items_S; unfold raise_errmsg.
  repeat break_parse; intros H; try discriminate H.
  - apply Parsed_inv in H. now destruct H as [<- _].
  - now apply IH in H.
Qed.

(** A text that starts with a brace decodes to a [dict] or not at all. *)
Lemma loads_brace_dict (s : string) (v : value) :
  loads (String "{" s) = Return v -> is_dict v = true.
Proof.
  intros H. apply loads_Return in H. destruct H as [rest' H]. revert H.
  change (skip_ws (String "{" s)) with (String "{"%char s).
  unfold enough. rewrite Nat.add_comm. cbn [Nat.add].
  rewrite scan_once_S; cbv zeta.
  change (Ascii.eqb "{" "034") with false.
  change (Ascii.eqb "{" "{") with true. cbv iota.
  destruct recursion_remaining as [|calls]; [intros H; discriminate H|].
  destruct (expect "}" (skip_ws s)) as [rest|]; cbv iota.
  - now intros [= <- _].
  - destruct (expect "034" (skip_ws s)) as [rest|]; cbv iota.
    + apply object_items_dict.
    + destruct (raise_errmsg_cases value calls Expecting_property_name)
        as [-> | [call ->]]; intros H; discriminate H.
Qed.

End Decoder.


(** ** The program, statement by statement *)

Section Program.
Import Py.
Context {interpreter : Interpreter}.

Lemma extract_result (text : string) (w : World) :
  result (extract text) w = extracted text.
Proof.
  unfold extract, extracted, result.
  destruct (Re.search true structured_results_re text) as [m|]; [|reflexivity].
  unfold try_except, bind, lift.
  destruct (loads_group (Re.group1 m)) as [v|e]; [reflexivity|].
  now destruct (isinstance_JSONDecodeError e).
Qed.

Lemma for_chunk_in_result (completion : Stream) (audit_report : string) (w : World) :
  result (for_chunk_in completion audit_report) w
  = match stream_failure completion with
    | Some e => Raise e
    | None => Return (audit_report ++ report_text completion)
    end.
Proof.
  revert audit_report w; induction completion as [|chunk rest IH|e];
    intros audit_report w; [| |reflexivity].
  - unfold result; simpl. now rewrite StrFacts.app_nil_r.
  - revert IH. destruct chunk as [[|[[[text|]]] others]]; intros IH;
      [reflexivity| |].
    + unfold result in *; simpl. unfold bind, lift; simpl.
      rewrite IH. destruct (stream_failure rest); [reflexivity|].
      now rewrite StrFacts.app_assoc.
    + unfold result in *; simpl. unfold bind, lift; simpl. apply IH.
Qed.

Lemma consume_result (completion : Stream) (w : World) :
  result (consume completion) w
  = match stream_failure completion with
    | Some e => Raise e
    | None => Return (report_text completion)
    end.
Proof. apply for_chunk_in_result. Qed.


Lemma analyze_result (call_genai_api : string -> M Stream)
  (script_content : string) (file_name additional_questions : option string)
  (w : World) :
  result (analyze_etl_script call_genai_api script_content file_name
            additional_questions) w
  = analyzed (answer call_genai_api script_content file_name
                additional_questions w).
Proof.
  unfold analyzed, answer, world_at_call, result, analyze_etl_script, before_try.
  unfold prompt_statements, build_prompt, try_except, bind, ret, print, print_end.
  cbn [fst snd].
  destruct (truthy additional_questions); cbn [fst snd];
    match goal with
    | |- context [call_genai_api ?p ?w0] =>
        destruct (call_genai_api p w0) as [[completion|e] w1]
    end; cbn [fst snd isinstance_Exception]; try reflexivity.
  all: match goal with
       | |- context [consume ?c ?w2] =>
           pose proof (consume_result c w2) as C; unfold result in C;
           destruct (consume c w2) as [[report|e] w3];
           cbn [fst] in C;
           destruct (stream_failure c) as [e'|]; try discriminate C;
           injection C as ->; try reflexivity;
           pose proof (extract_result (report_text c) w3) as X;
           unfold result in X;
           destruct (extract (report_text c) w3) as [[v|e] w4];
           cbn [fst] in X; rewrite <- X; reflexivity
       end.
Qed.

End Program.

(** ** Blocks, braces and backticks *)

(** Of two ways to cut the same text, the shorter first part begins the
    longer one. *)
Lemma app_eq_app_le (a b a' b' : string) :
  a ++ b = a' ++ b' -> String.length a' <= String.length a ->
  exists d, a = a' ++ d /\ b' = d ++ b.
Proof.
  revert a; induction a' as [|y a' IH]; intros a H L.
  - exists a. now split.
  - destruct a as [|x a]; [simpl in L; lia|].
    simpl in H, L. injection H as -> H.
    destruct (IH a H) as (d & -> & ->); [lia|]. now exists d.
Qed.

(** When the opening fence and brace do not occur before the block, the
    block is the leftmost. *)
Lemma no_earlier_opening (text pre body post : string) :
  block_at text pre body post ->
  Str.contains (fence_open ++ "{") (pre ++ fence_open) = false ->
  leftmost text pre.
Proof.
  intros Hblk Hc pre' body' post' Hblk'.
  destruct (Nat.le_gt_cases (String.length pre) (String.length pre'))
    as [Hle|Hlt]; [exact Hle|exfalso].
  unfold block_at in Hblk, Hblk'. rewrite Hblk in Hblk'.
  destruct (app_eq_app_le _ _ _ _ Hblk') as (d & -> & Hd); [lia|].
  rewrite StrFacts.length_app in Hlt.
  assert (Hd' : (fence_open ++ "{") ++ body' ++ "}" ++ fence_close ++ post'
                = (d ++ fence_open) ++ "{" ++ body ++ "}" ++ fence_close ++ post)
    by (rewrite !StrFacts.app_assoc; exact Hd).
  symmetry in Hd'.
  destruct (app_eq_app_le _ _ _ _ Hd') as (e & He & _).
  { rewrite !StrFacts.length_app. simpl. lia. }
  assert (T : Str.contains (fence_open ++ "{") ((pre' ++ d) ++ fence_open) = true).
  { apply StrFacts.contains_true. exists pre', e.
    rewrite StrFacts.app_assoc. now rewrite He. }
  congruence.
Qed.

(** When the brace and closing fence do not occur inside the body of the
    block, the body is the shortest. *)
Lemma no_earlier_closing (text pre body post : string) :
  block_at text pre body post ->
  Str.contains ("}" ++ fence_close) (body ++ "}" ++ Str.nl ++ "``") = false ->
  shortest text pre body.
Proof.
  intros Hblk Hc body' post' Hblk'.
  destruct (Nat.le_gt_cases (String.length body) (String.length body'))
    as [Hle|Hlt]; [exact Hle|exfalso].
  unfold block_at in Hblk, Hblk'. rewrite Hblk in Hblk'.
  do 3 apply StrFacts.app_inv_head in Hblk'.
  destruct (app_eq_app_le _ _ _ _ Hblk') as (d & -> & Hd); [lia|].
  rewrite StrFacts.length_app in Hlt.
  assert (Hd' : ("}" ++ fence_close) ++ post'
                = (d ++ "}" ++ Str.nl ++ "``") ++ "`" ++ post)
    by (rewrite !StrFacts.app_assoc; exact Hd).
  symmetry in Hd'.
  destruct (app_eq_app_le _ _ _ _ Hd') as (e & He & _).
  { rewrite !StrFacts.length_app. simpl. lia. }
  assert (T : Str.contains ("}" ++ fence_close)
                ((body' ++ d) ++ "}" ++ Str.nl ++ "``") = true).
  { apply StrFacts.contains_true. exists body', e.
    rewrite StrFacts.app_assoc. now rewrite He. }
  congruence.
Qed.

(** The block that the search reports, from what its parts hold. *)
Lemma captured_by_parts (text pre body post : string) :
  block_at text pre body post ->
  Str.contains (fence_open ++ "{") (pre ++ fence_open) = false ->
  Str.contains ("}" ++ fence_close) (body ++ "}" ++ Str.nl ++ "``") = false ->
  captured text pre body post.
Proof.
  intros Hblk Ho Hc. split; [exact Hblk|]. split.
  - now apply (no_earlier_opening _ _ _ _ Hblk).
  - now apply (no_earlier_closing _ _ _ _ Hblk).
Qed.

Lemma ends_with_brace_true (s : string) :
  ends_with_brace s = true <-> exists body, s = body ++ "}".
Proof.
  induction s as [|c s IH]; simpl.
  - split; [discriminate | intros [[|x body] H]; discriminate H].
  - destruct s as [|c' s].
    + destruct (Ascii.eqb_spec c "}") as [->|Hne].
      * split; [now exists "" | reflexivity].
      * split; [discriminate|]. intros [[|x [|y body]] H]; simpl in H;
          try discriminate H. injection H as H. congruence.
    + rewrite IH. split.
      * intros [body ->]. now exists (String c body).
      * intros [[|x body] H]; simpl in H; [discriminate H|].
        injection H as _ H. now exists body.
Qed.

Lemma brace_delimited_true (s : string) :
  brace_delimited s = true <-> exists body, s = "{" ++ body ++ "}".
Proof.
  destruct s as [|c s]; simpl.
  - split; [discriminate | intros [body H]; discriminate H].
  - rewrite andb_true_iff, ends_with_brace_true.
    destruct (Ascii.eqb_spec c "{") as [->|Hne].
    + split; [intros [_ [body ->]]; now exists body|].
      intros [body H]. injection H as ->. split; [reflexivity | now exists body].
    + split; [intros [H _]; discriminate H|].
      intros [body H]. injection H as H _. congruence.
Qed.

Lemma count_app (c : ascii) (a b : string) :
  count c (a ++ b) = count c a + count c b.
Proof. induction a as [|x a IH]; simpl; [reflexivity | rewrite IH; lia]. Qed.

(** A text splits in one way only at its first occurrence of [c]. *)
Lemma first_occurrence_unique (c : ascii) (a b a' b' : string) :
  count c a = 0 -> count c a' = 0 ->
  a ++ String c b = a' ++ String c b' -> a = a' /\ b = b'.
Proof.
  revert a'; induction a as [|x a IH]; intros [|y a']; simpl; intros Ha Ha' H.
  - injection H as ->. now split.
  - injection H as <- _. rewrite Ascii.eqb_refl in Ha'. discriminate Ha'.
  - injection H as -> _. rewrite Ascii.eqb_refl in Ha. discriminate Ha.
  - injection H as -> H.
    destruct (Ascii.eqb y c); [discriminate Ha|].
    destruct (IH a' Ha Ha' H) as [-> ->]. now split.
Qed.

(** ** A report with one tagged block *)

Lemma lone_block_not_matched (pre content post pre' body' post' : string) :
  count "`" pre = 0 -> count "`" content = 0 -> count "`" post = 0 ->
  block_at (pre ++ fence_open ++ content ++ fence_close ++ post) pre' body' post' ->
  content = "{" ++ body' ++ "}".
Proof.
  intros Hpre Hcontent Hpost Hblk. unfold block_at in Hblk.
  pose proof (f_equal (count "`") Hblk) as Hcount.
  rewrite !count_app in Hcount. rewrite Hpre, Hcontent, Hpost in Hcount.
  change (count "`" fence_open) with 3 in Hcount.
  change (count "`" fence_close) with 3 in Hcount.
  change (count "`" "{") with 0 in Hcount.
  change (count "`" "}") with 0 in Hcount.
  assert (Hpre' : count "`" pre' = 0) by lia.
  assert (Hbody' : count "`" body' = 0) by lia.
  assert (Eo : forall x, fence_open ++ x
                         = String "`" (("``structured-results" ++ Str.nl) ++ x))
    by reflexivity.
  assert (Ec : forall x, fence_close ++ x = Str.nl ++ String "`" ("``" ++ x))
    by reflexivity.
  rewrite !Eo in Hblk.
  destruct (first_occurrence_unique _ _ _ _ _ Hpre Hpre' Hblk) as [<- Hrest].
  apply StrFacts.app_inv_head in Hrest. rewrite !Ec in Hrest.
  replace (content ++ Str.nl ++ String "`" ("``" ++ post))
    with ((content ++ Str.nl) ++ String "`" ("``" ++ post)) in Hrest
    by now rewrite StrFacts.app_assoc.
  replace ("{" ++ body' ++ "}" ++ Str.nl ++ String "`" ("``" ++ post'))
    with ((("{" ++ body' ++ "}") ++ Str.nl) ++ String "`" ("``" ++ post')) in Hrest
    by now rewrite !StrFacts.app_assoc.
  apply first_occurrence_unique in Hrest.
  - destruct Hrest as [Hrest _].
    assert (L : String.length content = String.length ("{" ++ body' ++ "}")).
    { apply (f_equal String.length) in Hrest.
      rewrite !StrFacts.length_app in Hrest. simpl in Hrest.
      rewrite !StrFacts.length_app. simpl. lia. }
    now destruct (app_eq_length _ _ _ _ Hrest L).
  - rewrite count_app, Hcontent. reflexivity.
  - rewrite !count_app, Hbody'. reflexivity.
Qed.

Lemma occurrences_from_In (needle a b : string) (pos : nat) :
  In (pos + String.length a) (occurrences_from needle (a ++ needle ++ b) pos).
Proof.
  revert pos; induction a as [|c a IH]; intros pos.
  - simpl append. destruct needle as [|x needle]; simpl.
    + destruct b; simpl; left; lia.
    + apply in_or_app. left.
      change (String x (needle ++ b)) with (String x needle ++ b).
      unfold Str.startswith. rewrite StrFacts.strip_prefix_app.
      left. simpl. lia.
  - cbn [append occurrences_from String.length]. apply in_or_app. right.
    rewrite <- Nat.add_succ_comm. apply IH.
Qed.

Lemma tagged_once_not_matched (pre content post pre' body' post' : string) :
  occurrences fence_open (pre ++ fence_open ++ content ++ fence_close ++ post)
  = [String.length pre] ->
  block_at (pre ++ fence_open ++ content ++ fence_close ++ post) pre' body' post' ->
  Str.startswith "{" content = true.
Proof.
  intros Honce Hblk. unfold block_at in Hblk.
  pose proof (occurrences_from_In fence_open pre'
                ("{" ++ body' ++ "}" ++ fence_close ++ post') 0) as Hin.
  rewrite <- Hblk in Hin. fold (occurrences fence_open
    (pre ++ fence_open ++ content ++ fence_close ++ post)) in Hin.
  rewrite Honce in Hin. destruct Hin as [Hlen|[]]. simpl in Hlen.
  destruct (app_eq_length _ _ _ _ Hblk Hlen) as [_ Hrest].
  apply StrFacts.app_inv_head in Hrest.
  destruct content as [|c content]; [discriminate Hrest|].
  injection Hrest as -> _. reflexivity.
Qed.


(** ** The cases of a run *)

Lemma extracted_cases {interpreter : Py.Interpreter} (text : string) :
  (Re.search true structured_results_re text = None
   /\ extracted text = Py.Return (error_no_json text))
  \/ (exists m body,
        Re.search true structured_results_re text = Some m
        /\ Re.group1 m = Some ("{" ++ body ++ "}")
        /\ ((exists d, Json.loads ("{" ++ body ++ "}") = Py.Return (Py.VDict d)
                       /\ extracted text = Py.Return (Py.VDict d))
            \/ extracted text = Py.Return error_bad_json
            \/ (exists e, Json.loads ("{" ++ body ++ "}") = Py.Raise e
                          /\ Json.limit_error e
                          /\ extracted text = Py.Raise e))).
Proof.
  unfold extracted.
  destruct (Re.search true structured_results_re text) as [m|] eqn:E;
    [right | left; now split].
  destruct (search_Some_captured _ _ E) as (pre & body & post & _ & ->).
  eexists _, body. split; [reflexivity|]. split; [reflexivity|].
  cbn [Re.group1 loads_group].
  destruct (loads_total ("{" ++ body ++ "}")) as [[v Hv]|[[msg Hm]|(e & He & L)]].
  - left. pose proof (loads_brace_dict _ _ Hv) as D.
    destruct v; try discriminate D. eexists. split; [exact Hv|].
    now rewrite Hv.
  - right; left. now rewrite Hm.
  - right; right. exists e. split; [exact He|]. split; [exact L|].
    now rewrite He, (limit_error_not_caught _ L).
Qed.

Lemma analyzed_cases {interpreter : Py.Interpreter}
  (answer : Py.outcome Stream) :
  exists d,
    analyzed answer = Py.Return (Py.VDict d)
    /\ ((exists completion m body,
           answer = Py.Return completion
           /\ stream_failure completion = None
           /\ Re.search true structured_results_re (report_text completion) = Some m
           /\ Re.group1 m = Some ("{" ++ body ++ "}")
           /\ Json.loads ("{" ++ body ++ "}") = Py.Return (Py.VDict d))
        \/ Py.has_key "error" (Py.VDict d) = true).
Proof.
  unfold analyzed. destruct answer as [completion|e];
    [|eexists; split; [reflexivity | right; reflexivity]].
  destruct (stream_failure completion) as [e|] eqn:F;
    [eexists; split; [reflexivity | right; reflexivity]|].
  destruct (extracted_cases (report_text completion))
    as [[_ ->]|(m & body & Hs & Hg & [(d & Hl & ->)|[->|(e & _ & _ & ->)]])].
  - eexists; split; [reflexivity | right; reflexivity].
  - exists d. split; [reflexivity|]. left. now exists completion, m, body.
  - eexists; split; [reflexivity | right; reflexivity].
  - eexists; split; [reflexivity | right; reflexivity].
Qed.

(** ** The order of the parts *)

Lemma split_on_Some (needle s before rest : string) :
  split_on needle s = Some (before, rest) -> s = before ++ needle ++ rest.
Proof.
  revert before; induction s as [|c s IH]; intros before; simpl;
    destruct (Str.strip_prefix needle _) as [r|] eqn:E.
  - intros [= <- <-]. now apply StrFacts.strip_prefix_Some in E.
  - intros H; discriminate H.
  - intros [= <- <-]. now apply StrFacts.strip_prefix_Some in E.
  - destruct (split_on needle s) as [[b r]|]; [|intros H; discriminate H].
    intros [= <- <-]. simpl. now rewrite (IH b eq_refl).
Qed.

Lemma in_order_sound (parts : list string) (s : string) :
  in_order parts s = true -> occurs_in_order parts s.
Proof.
  revert s; induction parts as [|part parts IH]; intros s; simpl; [easy|].
  destruct (split_on part s) as [[before rest]|] eqn:E; [|intros H; discriminate H].
  intros H. exists before, rest. split; [now apply split_on_Some | now apply IH].
Qed.

(** ** Runs of the program *)

Example run_streamed_report :
  Py.result
    (analyze_etl_script (interpreter := cpython) streaming_service "SELECT 1"
       None None)
    {| Py.stdout := "" |}
  = Py.Return (Py.VDict [("a", Py.VInt 1)]).
Proof. vm_compute. reflexivity. Qed.

Example run_failing_service :
  Py.result
    (analyze_etl_script (interpreter := cpython) failing_service "SELECT 1"
       (Some "job.sql") None)
    {| Py.stdout := "" |}
  = Py.Return
      (Py.VDict [("error",
                  Py.VStr ("connection reset" ++ Str.nl ++ Str.nl
                           ++ "Please check the input and try again."))]).
Proof. vm_compute. reflexivity. Qed.

(** A stream with a chunk that has no choice 0: line 88 raises an
    [IndexError], which line 108 catches. *)
Example run_chunk_without_choices :
  Py.result
    (analyze_etl_script (interpreter := cpython)
       (fun _ => Py.ret (Yield (fragment (Some "ab"))
                           (Yield {| choices := [] |} Exhausted)))
       "SELECT 1" None None)
    {| Py.stdout := "" |}
  = Py.Return
      (Py.VDict [("error",
                  Py.VStr ("list index out of range" ++ Str.nl ++ Str.nl
                           ++ "Please check the input and try again."))]).
Proof. vm_compute. reflexivity. Qed.

(** What a run prints when the service fails at once. *)
Example run_failing_service_prints :
  Py.stdout
    (snd (analyze_etl_script (interpreter := cpython) failing_service
            "SELECT 1" (Some "job.sql") None {| Py.stdout := "" |}))
  = "Entering analyze_etl_script() function..." ++ Str.nl
    ++ "Script Content (first 100 chars): SELECT 1" ++ Str.nl
    ++ "Generated Prompt:" ++ Str.nl
    ++ Str.slice_to 300 (build_prompt "SELECT 1" (Some "job.sql") None) ++ Str.nl
    ++ "ERROR OCCURRED in analyze_etl_script: connection reset" ++ Str.nl.
Proof. vm_compute. reflexivity. Qed.

(** The body of a block may span lines only because of [re.DOTALL]. *)
Example multi_line_body_needs_DOTALL :
  let text := fence_open ++ "{" ++ Str.nl ++ "}" ++ fence_close in
  Re.search false structured_results_re text = None
  /\ Re.search true structured_results_re text
     = Some {| Re.m_start := 0; Re.m_end := String.length text;
               Re.group1 := Some ("{" ++ Str.nl ++ "}") |}.
Proof. split; vm_compute; reflexivity. Qed.

(** [json.loads]: a repeated key keeps its first place and its last value;
    a number with a fraction or an exponent is a [float]. *)
Example loads_repeated_key :
  Json.loads (interpreter := cpython)
    ("{" ++ Str.quoted "k" ++ ": 1, " ++ Str.quoted "j" ++ ": [1.5e3, null], "
     ++ Str.quoted "k" ++ ": true}")
  = Py.Return (Py.VDict [("k", Py.VBool true);
                         ("j", Py.VList [Py.VFloat "1.5e3"; Py.VNone])]).
Proof. vm_compute. reflexivity. Qed.

(** A text that is valid JSON up to its last character. *)
Example loads_extra_data :
  Json.loads (interpreter := cpython) "{} x"
  = Py.Raise (Json.JSONDecodeError_of Json.Extra_data).
Proof. vm_compute. reflexivity. Qed.

(** An integer of 4301 digits: [int] refuses it where its limit is 4300,
    and where it has none the text decodes to a [dict]. *)
Example loads_long_integer :
  Json.loads (interpreter := cpython) long_integer_span
  = Py.Raise (Json.int_ValueError 4300 4301)
  /\ match Json.loads (interpreter := roomy) long_integer_span with
     | Py.Return (Py.VDict [(key, Py.VInt _)]) => key = "a"
     | _ => False
     end.
Proof. split; [vm_compute; reflexivity | lazy; reflexivity]. Qed.

(** The span of the block is valid JSON, and the run returns the mapping of
    line 110: the [ValueError] of [int] is no [JSONDecodeError]. *)
Example run_long_integer :
  Py.result
    (analyze_etl_script (interpreter := cpython)
       (reporting_service (fenced_block long_integer_span)) "SELECT 1" None None)
    {| Py.stdout := "" |}
  = Py.Return
      (Py.VDict
         [("error",
           Py.VStr ("Exceeds the limit (4300 digits) for integer string "
                    ++ "conversion: value has 4301 digits; "
                    ++ "use sys.set_int_max_str_digits() to increase the limit"
                    ++ Str.nl ++ Str.nl
                    ++ "Please check the input and try again."))]).
Proof. vm_compute. reflexivity. Qed.

(** * The claims *)

(** ** C1 *)

(** C1, as stated, fails on [bad_then_good_report]: the report holds a block
    whose span parses, the second one, with the value of the mapping from
    [a] to 1; the search reports the first block, whose span does not
    decode, the second is not tried, and [extract] returns the mapping of
    line 103. *)
Lemma first_block_decides :
  block_at bad_then_good_report (fenced_block "{bad}" ++ Str.nl)
    (Str.quoted "a" ++ ":1") ""
  /\ Json.loads (interpreter := cpython) ("{" ++ Str.quoted "a" ++ ":1}")
     = Py.Return (Py.VDict [("a", Py.VInt 1)])
  /\ Py.result (extract (interpreter := cpython) bad_then_good_report)
       {| Py.stdout := "" |}
     = Py.Return error_bad_json.
Proof.
  split; [reflexivity|].
  split; vm_compute; reflexivity.
Qed.

(** C1, amended.  When the report text holds a block of the pattern's form
    and [json.loads] decodes the braces and body of the block that the search
    reports (the leftmost one, with the shortest body), [extract] returns the
    decoded value as it is, whatever its shape. *)
Theorem extract_returns_parsed_json {interpreter : Py.Interpreter}
  (text pre body post : string) (v : Py.value) (w : Py.World) :
  captured text pre body post ->
  Json.loads ("{" ++ body ++ "}") = Py.Return v ->
  Py.result (extract text) w = Py.Return v.
Proof.
  intros Hcap Hloads.
  rewrite extract_result. unfold extracted.
  rewrite (captured_search _ _ _ _ Hcap). cbn [Re.group1 loads_group].
  now rewrite Hloads.
Qed.

(** The report of the specification's example, and the mapping with the one
    key [a] and the value [1] that [extract] returns on it. *)
Lemma extract_returns_parsed_json_witness :
  Py.result
    (extract (interpreter := cpython)
       ("noise ```structured-results" ++ Str.nl ++ "{" ++ Str.quoted "a"
        ++ ":1}" ++ Str.nl ++ "``` trailing"))
    {| Py.stdout := "" |}
  = Py.Return (Py.VDict [("a", Py.VInt 1)]).
Proof.
  apply (extract_returns_parsed_json _ "noise " (Str.quoted "a" ++ ":1") " trailing").
  - apply captured_by_parts; reflexivity.
  - vm_compute. reflexivity.
Defined.

(** ** C2 *)

(** C2. When the report text holds no block of the pattern's form, [extract]
    returns the mapping with the fixed error message and, under [raw_text],
    the whole report text. *)
Theorem extract_no_block {interpreter : Py.Interpreter} (text : string)
  (w : Py.World) :
  (forall pre body post, ~ block_at text pre body post) ->
  Py.result (extract text) w
  = Py.Return (Py.VDict [("error", Py.VStr "AI did not return structured JSON");
                         ("raw_text", Py.VStr text)]).
Proof.
  intros Hno. apply search_None_no_block in Hno.
  rewrite extract_result. unfold extracted. now rewrite Hno.
Qed.

(** A report without any fence. *)
Lemma extract_no_block_witness :
  Py.result (extract (interpreter := cpython) "The script passes all four checks.")
    {| Py.stdout := "" |}
  = Py.Return
      (Py.VDict [("error", Py.VStr "AI did not return structured JSON");
                 ("raw_text", Py.VStr "The script passes all four checks.")]).
Proof.
  apply extract_no_block. apply search_None_no_block. vm_compute. reflexivity.
Defined.

(** ** C3 *)

(** C3, as stated, fails on the report whose one block holds [deep_span].
    The span is not valid JSON: where the limits are not met, [json.loads]
    rejects it with a [JSONDecodeError].  On CPython with its default limits
    the scanner has no nested call left at one of the 3000 brackets, before
    it reaches the fault: [json.loads] raises a [RecursionError], which
    line 101 does not catch, and [analyze_etl_script] returns the mapping of
    line 110. *)
Lemma deep_nesting_is_not_caught :
  Json.loads (interpreter := roomy) deep_span
  = Py.Raise (Json.JSONDecodeError_of Json.Expecting_value)
  /\ Json.loads (interpreter := cpython) deep_span
     = Py.Raise (Json.RecursionError (Json.while_decoding "array"))
  /\ Py.result (extract (interpreter := cpython) (fenced_block deep_span))
       {| Py.stdout := "" |}
     = Py.Raise (Json.RecursionError (Json.while_decoding "array"))
  /\ Py.result
       (analyze_etl_script (interpreter := cpython)
          (reporting_service (fenced_block deep_span)) "SELECT 1" None None)
       {| Py.stdout := "" |}
     = Py.Return
         (Py.VDict
            [("error",
              Py.VStr ("maximum recursion depth exceeded while decoding "
                       ++ "a JSON array from a unicode string"
                       ++ Str.nl ++ Str.nl
                       ++ "Please check the input and try again."))]).
Proof.
  split; [vm_compute; reflexivity|].
  split; [vm_compute; reflexivity|].
  split; vm_compute; reflexivity.
Qed.

(** C3, amended.  When [json.loads] does not decode the braces and body of
    the block that the search reports, the interpreter has a nested call left
    for each of their opening braces and brackets and three more, and [int]
    converts their longest run of digits, [extract] returns the mapping with
    the one key [error] and the fixed message. *)
Theorem extract_invalid_json {interpreter : Py.Interpreter}
  (text pre body post : string) (w : Py.World) :
  captured text pre body post ->
  (forall v, Json.loads ("{" ++ body ++ "}") <> Py.Return v) ->
  Json.within_limits ("{" ++ body ++ "}") = true ->
  Py.result (extract text) w
  = Py.Return (Py.VDict [("error", Py.VStr "Failed to parse structured JSON.")]).
Proof.
  intros Hcap Hbad Hwithin.
  rewrite extract_result. unfold extracted.
  rewrite (captured_search _ _ _ _ Hcap). cbn [Re.group1 loads_group].
  destruct (Json.loads ("{" ++ body ++ "}")) as [v|e] eqn:E.
  - now destruct (Hbad v).
  - now rewrite (loads_within_limits _ _ Hwithin E).
Qed.

(** The report of the specification's second example of a failure. *)
Lemma extract_invalid_json_witness :
  Py.result
    (extract (interpreter := cpython)
       ("```structured-results" ++ Str.nl ++ "{bad json}" ++ Str.nl ++ "```"))
    {| Py.stdout := "" |}
  = Py.Return (Py.VDict [("error", Py.VStr "Failed to parse structured JSON.")]).
Proof.
  apply (extract_invalid_json _ "" "bad json" "").
  - apply captured_by_parts; reflexivity.
  - intros v. vm_compute. discriminate.
  - vm_compute. reflexivity.
Defined.

(** ** C4 *)

(** C4, as stated, fails on [spill_report]: the content of the first block
    holds no closing fence, yet group 1 of the match is not that content: it
    runs over the closing fence of the first block and the opening fence of
    the second, to the brace that ends the second. *)
Lemma captured_span_spills :
  Str.contains fence_close spill_first = false
  /\ Re.search true structured_results_re spill_report
     = Some {| Re.m_start := 0;
               Re.m_end := String.length spill_report;
               Re.group1 := Some (spill_first ++ fence_close ++ Str.nl
                                  ++ fence_open ++ spill_second) |}
  /\ spill_first ++ fence_close ++ Str.nl ++ fence_open ++ spill_second
     <> spill_first.
Proof.
  split; [vm_compute; reflexivity|].
  split; [vm_compute; reflexivity|].
  vm_compute. discriminate.
Qed.

(** C4, amended.  When both blocks have the pattern's form (a brace right
    after the opening fence, a brace right before the closing one), the
    opening fence and brace do not occur before the first block, and the brace
    and closing fence do not occur inside the body of the first, the match is
    the first block alone: it starts where the block starts, ends with its
    closing fence, and group 1 is its braces and body.  What follows the
    first block has no influence on what [extract] returns. *)
Theorem first_block_only {interpreter : Py.Interpreter}
  (text pre b1 mid b2 post : string) (w : Py.World) :
  two_blocks text pre b1 mid b2 post ->
  Str.contains (fence_open ++ "{") (pre ++ fence_open) = false ->
  Str.contains ("}" ++ fence_close) (b1 ++ "}" ++ Str.nl ++ "``") = false ->
  Re.search true structured_results_re text
  = Some {| Re.m_start := String.length pre;
            Re.m_end := String.length
                          (pre ++ fence_open ++ "{" ++ b1 ++ "}" ++ fence_close);
            Re.group1 := Some ("{" ++ b1 ++ "}") |}
  /\ Py.result (extract text) w
     = Py.result
         (extract (pre ++ fence_open ++ "{" ++ b1 ++ "}" ++ fence_close)) w.
Proof.
  intros Htwo Hopen Hclose.
  set (tail := mid ++ fence_open ++ "{" ++ b2 ++ "}" ++ fence_close ++ post).
  assert (Hblk : block_at text pre b1 tail) by exact Htwo.
  assert (Hcap : captured text pre b1 tail) by now apply captured_by_parts.
  assert (Hcap' : captured (pre ++ fence_open ++ "{" ++ b1 ++ "}" ++ fence_close)
                    pre b1 "").
  { apply captured_by_parts; [|assumption|assumption].
    unfold block_at. now rewrite StrFacts.app_nil_r. }
  split.
  - rewrite (captured_search _ _ _ _ Hcap). f_equal. f_equal.
    rewrite Hblk, !StrFacts.length_app. lia.
  - rewrite !extract_result. unfold extracted.
    now rewrite (captured_search _ _ _ _ Hcap), (captured_search _ _ _ _ Hcap').
Qed.

(** Two blocks of the pattern's form between words: the match is the first
    block, from position 4 to the end of its closing fence. *)
Lemma first_block_only_witness :
  let b1 := Str.quoted "a" ++ ":1" in
  let b2 := Str.quoted "b" ++ ":2" in
  let first := "see " ++ fence_open ++ "{" ++ b1 ++ "}" ++ fence_close in
  let text := first ++ " and " ++ fence_open ++ "{" ++ b2 ++ "}" ++ fence_close ++ " end" in
  Re.search true structured_results_re text
  = Some {| Re.m_start := 4;
            Re.m_end := String.length first;
            Re.group1 := Some ("{" ++ b1 ++ "}") |}
  /\ Py.result (extract (interpreter := cpython) text) {| Py.stdout := "" |}
     = Py.result (extract (interpreter := cpython) first) {| Py.stdout := "" |}.
Proof.
  cbv zeta.
  apply (first_block_only _ "see " (Str.quoted "a" ++ ":1") " and "
           (Str.quoted "b" ++ ":2") " end" {| Py.stdout := "" |});
    reflexivity.
Defined.

(** ** C5 *)


(** ** C6 *)



(** ** C7 *)

(** C7. The statements that build the prompt read nothing but the three
    arguments and change nothing: from any two worlds they return the same
    string, the value of the function [build_prompt], and leave each world as
    it was.  That string is what the generation service is called with. *)
Theorem prompt_deterministic {interpreter : Py.Interpreter}
  (script_content : string)
  (file_name additional_questions : option string) (w1 w2 : Py.World) :
  prompt_statements script_content file_name additional_questions w1
  = (Py.Return (build_prompt script_content file_name additional_questions), w1)
  /\ prompt_statements script_content file_name additional_questions w2
     = (Py.Return (build_prompt script_content file_name additional_questions), w2)
  /\ forall call_genai_api,
       Py.result (analyze_etl_script call_genai_api script_content file_name
                    additional_questions) w1
       = analyzed
           (fst (call_genai_api
                   (build_prompt script_content file_name additional_questions)
                   (world_at_call script_content file_name additional_questions w1))).
Proof.
  assert (P : forall w,
             prompt_statements script_content file_name additional_questions w
             = (Py.Return (build_prompt script_content file_name additional_questions), w)).
  { intros w. unfold prompt_statements, build_prompt, Py.bind, Py.ret.
    now destruct (truthy additional_questions). }
  split; [apply P|]. split; [apply P|].
  intros call_genai_api. apply analyze_result.
Qed.

(** ** C8 *)

(** C8, as stated, fails when [additional_questions] is the empty string: the
    argument is present, yet the prompt is the one built without it and the
    head of the questions block occurs nowhere in it. *)
Lemma empty_questions_not_appended :
  build_prompt "SELECT 1" None (Some "") = build_prompt "SELECT 1" None None
  /\ Str.contains questions_header (build_prompt "SELECT 1" None (Some "")) = false.
Proof. split; [reflexivity | vm_compute; reflexivity]. Qed.

(** C8, amended.  The prompt is, in this order: the preamble, the file name
    line (the given name, or [Unknown] when it is absent or empty), the text
    between them, the script text as it is, the part that defines the four
    audit categories (their lines in the order 1 to 4), the questions block
    (its head and the questions as they are) exactly when the questions are
    present and not empty, and the closing instruction. *)
Theorem prompt_layout (script_content : string)
  (file_name additional_questions : option string) :
  let name := match file_name with
              | Some (String c n) => String c n
              | _ => "Unknown"
              end in
  let questions := match additional_questions with
                   | Some (String c x) => questions_header ++ String c x
                   | _ => ""
                   end in
  build_prompt script_content file_name additional_questions
  = preamble ++ (file_name_label ++ name) ++ before_script ++ script_content
      ++ audit_categories ++ questions ++ closing_instruction
  /\ occurs_in_order category_lines audit_categories.
Proof.
  cbv zeta. split.
  - unfold build_prompt, prompt_fstring.
    destruct file_name as [[|c n]|], additional_questions as [[|c' x]|];
      cbn [truthy fmt]; rewrite !StrFacts.app_assoc; reflexivity.
  - apply in_order_sound. vm_compute. reflexivity.
Qed.

(** ** C9 *)

(** C9, as stated, fails on [unclosed_report]: the content of its tagged
    block is not delimited by braces, yet [extract] returns the mapping of
    the invalid JSON case, not the one of the missing block. *)
Lemma unclosed_block_invalid_json :
  brace_delimited unclosed_content = false
  /\ Py.result (extract (interpreter := cpython) unclosed_report) {| Py.stdout := "" |}
     = Py.Return (Py.VDict [("error", Py.VStr "Failed to parse structured JSON.")])
  /\ Py.result (extract (interpreter := cpython) unclosed_report) {| Py.stdout := "" |}
     <> Py.Return (error_no_json unclosed_report).
Proof.
  split; [reflexivity|].
  split; [vm_compute; reflexivity|].
  vm_compute. discriminate.
Qed.

(** C9, amended.  A match is always a block of the pattern's form, and group
    1 is its braces and body.  When the report holds the opening fence once
    and the content after it does not begin with a brace, there is no match
    and [extract] returns the mapping of the missing block, with the whole
    report under [raw_text].  The same holds when the fences of one tagged
    block are the only backticks of the report and the content of the block
    is not delimited by braces. *)
Theorem non_brace_block_not_recognized {interpreter : Py.Interpreter} :
  (forall text m,
     Re.search true structured_results_re text = Some m ->
     exists pre body post,
       text = pre ++ fence_open ++ "{" ++ body ++ "}" ++ fence_close ++ post
       /\ Re.group1 m = Some ("{" ++ body ++ "}"))
  /\ (forall pre content post w,
        let text := pre ++ fence_open ++ content ++ fence_close ++ post in
        occurrences fence_open text = [String.length pre] ->
        Str.startswith "{" content = false ->
        Re.search true structured_results_re text = None
        /\ Py.result (extract text) w
           = Py.Return
               (Py.VDict
                  [("error", Py.VStr "AI did not return structured JSON");
                   ("raw_text", Py.VStr text)]))
  /\ (forall pre content post w,
        let text := pre ++ fence_open ++ content ++ fence_close ++ post in
        count "`" pre = 0 -> count "`" content = 0 -> count "`" post = 0 ->
        brace_delimited content = false ->
        Re.search true structured_results_re text = None
        /\ Py.result (extract text) w
           = Py.Return
               (Py.VDict
                  [("error", Py.VStr "AI did not return structured JSON");
                   ("raw_text", Py.VStr text)])).
Proof.
  split; [|split].
  - intros text m Hs.
    destruct (search_Some_captured _ _ Hs) as (pre & body & post & (Hblk & _) & ->).
    now exists pre, body, post.
  - intros pre content post w text Honce Hstart.
    assert (Hno : Re.search true structured_results_re text = None).
    { apply search_None_no_block. intros pre' body' post' Hblk.
      apply tagged_once_not_matched in Hblk; [congruence | exact Honce]. }
    split; [exact Hno|].
    rewrite extract_result. unfold extracted. now rewrite Hno.
  - intros pre content post w text Hpre Hcontent Hpost Hnb.
    assert (Hno : Re.search true structured_results_re text = None).
    { apply search_None_no_block. intros pre' body' post' Hblk.
      apply lone_block_not_matched in Hblk; try assumption.
      assert (B : brace_delimited content = true)
        by (apply brace_delimited_true; now exists body').
      congruence. }
    split; [exact Hno|].
    rewrite extract_result. unfold extracted. now rewrite Hno.
Qed.

(** The claim's example, a tagged block whose content is [hello], here
    before an untagged block that holds a JSON object; and a report whose
    only block opens a brace and does not close it. *)
Lemma non_brace_block_not_recognized_witness :
  let hello := "Result: " ++ fence_open ++ "hello" ++ fence_close
               ++ (" as in " ++ "```json" ++ Str.nl ++ "{}" ++ fence_close) in
  let unclosed := "Result: " ++ fence_open ++ "{oops" ++ fence_close ++ " done" in
  Py.result (extract (interpreter := cpython) hello) {| Py.stdout := "" |}
  = Py.Return
      (Py.VDict
         [("error", Py.VStr "AI did not return structured JSON");
          ("raw_text", Py.VStr hello)])
  /\ Py.result (extract (interpreter := cpython) unclosed) {| Py.stdout := "" |}
     = Py.Return
         (Py.VDict
            [("error", Py.VStr "AI did not return structured JSON");
             ("raw_text", Py.VStr unclosed)]).
Proof.
  cbv zeta. split.
  - apply (proj1 (proj2 non_brace_block_not_recognized) "Result: " "hello"
             (" as in " ++ "```json" ++ Str.nl ++ "{}" ++ fence_close)
             {| Py.stdout := "" |});
      reflexivity.
  - apply (proj2 (proj2 non_brace_block_not_recognized) "Result: " "{oops"
             " done" {| Py.stdout := "" |});
      reflexivity.
Defined.

(** ** C10 *)

(** C10. [analyze_etl_script] always returns a [dict], never another kind of
    value.  Either it is the value that [json.loads] gave for group 1 of the
    match, a text that begins and ends with a brace, or it has the key
    [error]. *)
Theorem result_is_mapping {interpreter : Py.Interpreter}
  (call_genai_api : string -> Py.M Stream)
  (script_content : string) (file_name additional_questions : option string)
  (w : Py.World) :
  exists v,
    Py.result (analyze_etl_script call_genai_api script_content file_name
                 additional_questions) w = Py.Return v
    /\ Py.is_dict v = true
    /\ ((exists completion m span,
           answer call_genai_api script_content file_name additional_questions w
           = Py.Return completion
           /\ stream_failure completion = None
           /\ Re.search true structured_results_re (report_text completion) = Some m
           /\ Re.group1 m = Some span
           /\ brace_delimited span = true
           /\ Json.loads span = Py.Return v)
        \/ Py.has_key "error" v = true).
Proof.
  rewrite analyze_result.
  destruct (analyzed_cases (answer call_genai_api script_content file_name
                              additional_questions w))
    as (d & -> & [(completion & m & body & Ha & F & Hs & Hg & Hl)|Herr]).
  - exists (Py.VDict d). split; [reflexivity|]. split; [reflexivity|]. left.
    exists completion, m, ("{" ++ body ++ "}").
    repeat (split; [assumption|]). split; [|assumption].
    apply brace_delimited_true. now exists body.
  - exists (Py.VDict d). split; [reflexivity|]. split; [reflexivity|]. now right.
Qed.

(** * Further properties *)

(** ** The console and the report text *)





(** ** Text after the block *)

(** A captured block stays the captured block when text is appended. *)
Lemma captured_app (text pre body post extra : string) :
  captured text pre body post -> captured (text ++ extra) pre body (post ++ extra).
Proof.
  intros (Hblk & Hleft & Hshort). unfold block_at in Hblk.
  split; [|split].
  - unfold block_at. rewrite Hblk. now rewrite !StrFacts.app_assoc.
  - intros pre' body' post' Hblk'.
    destruct (Nat.le_gt_cases (String.length pre) (String.length pre'))
      as [Hle|Hlt]; [exact Hle|exfalso].
    unfold block_at in Hblk'. rewrite Hblk in Hblk'.
    rewrite !StrFacts.app_assoc in Hblk'.
    destruct (app_eq_app_le _ _ _ _ Hblk') as (d & Hd & Hrest); [lia|].
    assert (Hrest' : (fence_open ++ "{") ++ body' ++ "}" ++ fence_close ++ post'
                     = (d ++ fence_open ++ "{" ++ body)
                         ++ "}" ++ fence_close ++ post ++ extra)
      by (rewrite !StrFacts.app_assoc; exact Hrest).
    symmetry in Hrest'.
    destruct (app_eq_app_le _ _ _ _ Hrest') as (e & He & _).
    { rewrite !StrFacts.length_app. lia. }
    assert (B : block_at text pre' e post).
    { unfold block_at. rewrite Hblk, Hd.
      rewrite StrFacts.app_assoc.
      replace (d ++ fence_open ++ "{" ++ body ++ "}" ++ fence_close ++ post)
        with ((d ++ fence_open ++ "{" ++ body) ++ "}" ++ fence_close ++ post)
        by now rewrite !StrFacts.app_assoc.
      rewrite He. now rewrite !StrFacts.app_assoc. }
    apply Hleft in B. lia.
  - intros body' post' Hblk'.
    destruct (Nat.le_gt_cases (String.length body) (String.length body'))
      as [Hle|Hlt]; [exact Hle|exfalso].
    unfold block_at in Hblk'. rewrite Hblk in Hblk'.
    rewrite !StrFacts.app_assoc in Hblk'.
    do 3 apply StrFacts.app_inv_head in Hblk'.
    destruct (app_eq_app_le _ _ _ _ Hblk') as (d & Hd & Hrest); [lia|].
    assert (Ld : 1 <= String.length d).
    { apply (f_equal String.length) in Hd. rewrite StrFacts.length_app in Hd. lia. }
    assert (Hrest' : ("}" ++ fence_close) ++ post'
                     = (d ++ "}" ++ fence_close ++ post) ++ extra)
      by (rewrite !StrFacts.app_assoc; exact Hrest).
    symmetry in Hrest'.
    destruct (app_eq_app_le _ _ _ _ Hrest') as (e & He & _).
    { rewrite !StrFacts.length_app. simpl. lia. }
    assert (B : block_at text pre body' e).
    { unfold block_at. rewrite Hblk, Hd. rewrite StrFacts.app_assoc.
      rewrite He. now rewrite !StrFacts.app_assoc. }
    apply Hshort in B. lia.
Qed.

(** X3. Once the report text holds a match of the pattern of line 94, text
    that follows cannot change it: the search on the longer text reports the
    same span and the same group 1, and [extract] returns the same value. *)
Theorem match_survives_appended_text {interpreter : Py.Interpreter}
  (text extra : string) (m : Re.Match)
  (w : Py.World) :
  Re.search true structured_results_re text = Some m ->
  Re.search true structured_results_re (text ++ extra) = Some m
  /\ Py.result (extract (text ++ extra)) w = Py.result (extract text) w.
Proof.
  intros H.
  assert (S : Re.search true structured_results_re (text ++ extra) = Some m).
  { destruct (search_Some_captured _ _ H) as (pre & body & post & Hc & ->).
    rewrite (captured_search _ _ _ _ (captured_app _ _ _ _ extra Hc)).
    f_equal. f_equal. rewrite !StrFacts.length_app.
    destruct Hc as (Hblk & _). unfold block_at in Hblk.
    apply (f_equal String.length) in Hblk.
    rewrite !StrFacts.length_app in Hblk. lia. }
  split; [exact S|].
  rewrite !extract_result. unfold extracted. now rewrite S, H.
Qed.

Lemma match_survives_appended_text_witness :
  Re.search true structured_results_re (fenced_block "{}" ++ " and then")
  = Some {| Re.m_start := 0; Re.m_end := 28; Re.group1 := Some "{}" |}
  /\ Re.search true structured_results_re
       ((fenced_block "{}" ++ " and then") ++ " some more")
     = Some {| Re.m_start := 0; Re.m_end := 28; Re.group1 := Some "{}" |}
  /\ Py.result
       (extract (interpreter := cpython)
          ((fenced_block "{}" ++ " and then") ++ " some more"))
       {| Py.stdout := "" |}
     = Py.Return (Py.VDict []).
Proof.
  split; [reflexivity|].
  destruct (match_survives_appended_text (interpreter := cpython)
              (fenced_block "{}" ++ " and then")
              " some more"
              {| Re.m_start := 0; Re.m_end := 28; Re.group1 := Some "{}" |}
              {| Py.stdout := "" |} eq_refl) as [S E].
  split; [exact S | rewrite E; reflexivity].
Defined.

(** ** A block that holds an error mapping *)

Section Forged.
Import Py Json.
Context {interpreter : Py.Interpreter}.

Lemma plain_inv (c : ascii) :
  plain c = true ->
  Ascii.eqb c "034" = false /\ Ascii.eqb c "\" = false
  /\ (N_of_ascii c <? 32)%N = false.
Proof.
  unfold plain. rewrite !andb_true_iff, !negb_true_iff. tauto.
Qed.

Lemma scanstring_loop_plain (m : string) :
  forall (fuel : nat) (chunks rest : string),
    all_plain m = true -> String.length m < fuel ->
    scanstring_loop fuel (m ++ String "034" rest) chunks = Parsed (chunks ++ m) rest.
Proof.
  induction m as [|c m IH]; intros [|fuel] chunks rest P L;
    try (simpl in L; lia).
  - simpl. now rewrite StrFacts.app_nil_r.
  - unfold all_plain in P; simpl in P. apply andb_true_iff in P.
    destruct P as [Pc Pm]. destruct (plain_inv c Pc) as (Q & B & C).
    cbn [append scanstring_loop]. rewrite Q, B, C.
    rewrite IH; [|exact Pm|simpl in L; lia].
    now rewrite StrFacts.app_assoc.
Qed.

(** A JSON string of plain characters decodes to itself. *)
Lemma scanstring_plain (m rest : string) :
  all_plain m = true -> scanstring (m ++ String "034" rest) = Parsed m rest.
Proof.
  intros P. unfold scanstring.
  rewrite scanstring_loop_plain; [reflexivity|exact P|].
  rewrite StrFacts.length_app. lia.
Qed.

Lemma scan_once_object (fuel calls : nat) (s' rest : string) :
  expect "}" (skip_ws s') = None ->
  expect "034" (skip_ws s') = Some rest ->
  scan_once (S fuel) (S calls) (String "{" s') = object_items fuel calls rest [].
Proof.
  intros E1 E2. rewrite scan_once_S; cbv zeta.
  change (Ascii.eqb "{" "034") with false.
  change (Ascii.eqb "{" "{") with true. cbv iota.
  now rewrite E1, E2.
Qed.

Lemma scan_once_string (fuel calls : nat) (s' str rest : string) :
  scanstring s' = Parsed str rest ->
  scan_once (S fuel) calls (String "034" s') = Parsed (VStr str) rest.
Proof.
  intros E. rewrite scan_once_S; cbv zeta.
  change (Ascii.eqb "034" "034") with true. cbv iota.
  now rewrite E.
Qed.

Lemma loads_error_object (message : string) :
  all_plain message = true -> 1 <= recursion_remaining ->
  loads (error_object_text message) = Return (VDict [("error", VStr message)]).
Proof.
  intros P R.
  set (value_text := String "034" (message ++ String "034" "}")).
  set (members := String "034" ("error" ++ String "034"
                                  (String ":" (String " " value_text)))).
  assert (E : error_object_text message = String "{" members).
  { unfold error_object_text, Str.quoted, Str.dq, members, value_text.
    cbn [append]. now rewrite !StrFacts.app_assoc. }
  rewrite E; clear E.
  unfold loads. replace (Str.startswith BOM _) with false by reflexivity.
  unfold decode, enough.
  destruct recursion_remaining as [|calls]; [lia|].
  change (skip_ws (String "{" members)) with (String "{" members).
  change (String.length (String "{" members)) with (S (String.length members)).
  replace (2 * S (String.length members) + 2)
    with (S (S (S (2 * String.length members + 1)))) by lia.
  rewrite scan_once_object
    with (rest := "error" ++ String "034" (String ":" (String " " value_text)));
    [|reflexivity|reflexivity].
  rewrite object_items_S, scanstring_plain by reflexivity.
  change (expect ":" (skip_ws (String ":" (String " " value_text))))
    with (Some (String " " value_text)).
  cbv iota.
  change (skip_ws (String " " value_text)) with value_text.
  unfold value_text at 1.
  rewrite scan_once_string with (str := message) (rest := "}");
    [|now apply scanstring_plain].
  reflexivity.
Qed.

End Forged.

Lemma plain_no_newline (m : string) :
  all_plain m = true -> count "010" m = 0.
Proof.
  unfold all_plain. induction m as [|c m IH]; simpl; [reflexivity|].
  rewrite andb_true_iff. intros [Pc Pm].
  destruct (plain_inv c Pc) as (_ & _ & C).
  destruct (Ascii.eqb_spec c "010") as [->|_]; [discriminate C|].
  now apply IH.
Qed.

(** A body without a line feed holds no closing brace and fence. *)
Lemma no_newline_no_closing (body : string) :
  count "010" body = 0 ->
  Str.contains ("}" ++ fence_close) (body ++ "}" ++ Str.nl ++ "``") = false.
Proof.
  induction body as [|c body IH]; [reflexivity|].
  cbn [count]. destruct (Ascii.eqb c "010") eqn:Ec; [discriminate|].
  cbn [Nat.add]. intros Hb.
  change (Str.contains ("}" ++ fence_close)
            (String c body ++ "}" ++ Str.nl ++ "``"))
    with (Str.startswith ("}" ++ fence_close)
            (String c (body ++ "}" ++ Str.nl ++ "``"))
          || Str.contains ("}" ++ fence_close) (body ++ "}" ++ Str.nl ++ "``")).
  rewrite (IH Hb), orb_false_r.
  unfold Str.startswith. cbn [append fence_close Str.nl Str.strip_prefix].
  destruct (Ascii.eqb "}" c); [|reflexivity].
  destruct body as [|d body]; [reflexivity|].
  cbn [count] in Hb. cbn [append].
  rewrite Ascii.eqb_sym. destruct (Ascii.eqb d "010"); [discriminate Hb|reflexivity].
Qed.

(** X4. The decoded block is returned without a look at its keys, so a
    success can have the shape of a failure: for every message of plain
    characters, the report whose block is the JSON object with the one key
    [error] and that message makes [extract] return the mapping from [error]
    to the message, on an interpreter that has a nested call left for the
    scanner to read the object.  With the message of line 103 the value is
    the mapping that line 103 returns. *)
Theorem error_mapping_can_come_from_the_model {interpreter : Py.Interpreter}
  (message : string) (w : Py.World) :
  all_plain message = true ->
  1 <= Py.recursion_remaining ->
  Py.result (extract (fenced_block (error_object_text message))) w
  = Py.Return (Py.VDict [("error", Py.VStr message)]).
Proof.
  intros P R. rewrite extract_result. unfold extracted.
  set (body := Str.quoted "error" ++ ": " ++ Str.quoted message).
  assert (T : error_object_text message = "{" ++ body ++ "}")
    by (unfold error_object_text, body; now rewrite !StrFacts.app_assoc).
  assert (C : captured (fenced_block (error_object_text message)) "" body "").
  { apply captured_by_parts.
    - unfold block_at, fenced_block. rewrite T.
      now rewrite !StrFacts.app_assoc, StrFacts.app_nil_r.
    - reflexivity.
    - apply no_newline_no_closing. unfold body, Str.quoted.
      rewrite !count_app, (plain_no_newline _ P). reflexivity. }
  rewrite (captured_search _ _ _ _ C). cbn [Re.group1 loads_group].
  rewrite <- T, (loads_error_object _ P R). reflexivity.
Qed.

Lemma error_mapping_can_come_from_the_model_witness :
  Py.result
    (extract (interpreter := cpython)
       (fenced_block (error_object_text "Failed to parse structured JSON.")))
    {| Py.stdout := "" |}
  = Py.Return error_bad_json.
Proof.
  apply (error_mapping_can_come_from_the_model
           "Failed to parse structured JSON." {| Py.stdout := "" |}).
  - reflexivity.
  - vm_compute. lia.
Defined.

(** ** The closing instruction and the script *)

(** X5. The closing instruction (lines 36 to 77) is no f-string: whatever
    the file name, the prompt holds the line of the JSON template with the
    placeholder [{file_name}] as it is written in the source. *)
Theorem file_name_placeholder_is_not_filled (script_content : string)
  (file_name additional_questions : option string) :
  Str.contains file_name_placeholder
    (build_prompt script_content file_name additional_questions) = true.
Proof.
  apply StrFacts.contains_true.
  destruct (split_on file_name_placeholder closing_instruction)
    as [[before rest]|] eqn:E; [|discriminate E].
  apply split_on_Some in E.
  unfold build_prompt.
  exists ((if truthy additional_questions
           then prompt_fstring script_content file_name
                  ++ questions_header ++ fmt additional_questions
           else prompt_fstring script_content file_name) ++ before), rest.
  rewrite E. now rewrite !StrFacts.app_assoc.
Qed.

Lemma app_inv_tail (a b c : string) : a ++ c = b ++ c -> a = b.
Proof.
  intros H.
  assert (L : String.length a = String.length b).
  { apply (f_equal String.length) in H. rewrite !StrFacts.length_app in H. lia. }
  now destruct (app_eq_length _ _ _ _ H L).
Qed.

(** X6. The prompt tells scripts apart: with the same file name and the
    same questions, two scripts that give the same prompt are the same
    script. *)
Theorem prompt_tells_scripts_apart (script1 script2 : string)
  (file_name additional_questions : option string) :
  build_prompt script1 file_name additional_questions
  = build_prompt script2 file_name additional_questions ->
  script1 = script2.
Proof.
  unfold build_prompt, prompt_fstring. intros H.
  destruct (truthy additional_questions);
    rewrite !StrFacts.app_assoc in H;
    do 4 apply StrFacts.app_inv_head in H;
    now apply app_inv_tail in H.
Qed.

Lemma prompt_tells_scripts_apart_witness :
  build_prompt "SELECT 1" (Some "a.sql") None
  = build_prompt ("SELECT" ++ " 1") (Some "a.sql") None
  /\ "SELECT 1" = "SELECT" ++ " 1".
Proof.
  split; [reflexivity|].
  apply (prompt_tells_scripts_apart "SELECT 1" ("SELECT" ++ " 1") (Some "a.sql") None).
  reflexivity.
Defined.

(** ** The keys of the decoded value *)

Section Dict.
Import Py.

Lemma dict_set_keys (d : list (string * value)) (k : string) (v : value) :
  map fst (dict_set d k v)
  = if existsb (String.eqb k) (map fst d) then map fst d else (map fst d ++ [k])%list.
Proof.
  induction d as [|[k' v'] d IH]; simpl; [reflexivity|].
  rewrite (String.eqb_sym k k').
  destruct (String.eqb_spec k' k) as [->|Hne]; simpl; [reflexivity|].
  rewrite IH. now destruct (existsb _ _).
Qed.

Lemma existsb_app_single (k k0 : string) (keys : list string) :
  existsb (String.eqb k0) (keys ++ [k])
  = existsb (String.eqb k0) keys || String.eqb k0 k.
Proof. rewrite existsb_app. simpl. now rewrite orb_false_r. Qed.

Lemma distinct_app_single (keys : list string) (k : string) :
  distinct keys = true -> existsb (String.eqb k) keys = false ->
  distinct (keys ++ [k]) = true.
Proof.
  induction keys as [|k0 keys IH]; simpl; [reflexivity|].
  rewrite andb_true_iff, negb_true_iff, orb_false_iff.
  intros [N D] [Nk E]. rewrite existsb_app_single, N, (IH D E).
  rewrite String.eqb_sym, Nk. reflexivity.
Qed.

Lemma dict_set_distinct (d : list (string * value)) (k : string) (v : value) :
  distinct (map fst d) = true -> distinct (map fst (dict_set d k v)) = true.
Proof.
  intros D. rewrite dict_set_keys.
  destruct (existsb _ _) eqn:E; [exact D | now apply distinct_app_single].
Qed.

Lemma dict_set_values (P : value -> bool) (d : list (string * value))
  (k : string) (v : value) :
  forallb (fun kv => P (snd kv)) d = true -> P v = true ->
  forallb (fun kv => P (snd kv)) (dict_set d k v) = true.
Proof.
  intros D V. induction d as [|[k' v'] d IH]; simpl in *;
    [now rewrite V|].
  apply andb_true_iff in D. destruct D as [D1 D2].
  destruct (String.eqb k' k); simpl; [now rewrite V, D2 | now rewrite D1, IH].
Qed.

Lemma dict_get_set (d : list (string * value)) (k k0 : string) (v : value) :
  dict_get (dict_set d k v) k0
  = if String.eqb k k0 then Some v else dict_get d k0.
Proof.
  induction d as [|[k' v'] d IH]; simpl.
  - reflexivity.
  - destruct (String.eqb_spec k' k) as [->|Hne]; simpl.
    + now destruct (String.eqb k k0).
    + rewrite IH. destruct (String.eqb_spec k' k0) as [->|Hne0]; [|reflexivity].
      destruct (String.eqb_spec k k0) as [->|_]; [congruence|reflexivity].
Qed.

Lemma fold_dict_set (pairs : list (string * value)) :
  forall d,
    distinct (map fst d) = true ->
    forallb (fun kv => keys_unique (snd kv)) d = true ->
    forallb (fun kv => keys_unique (snd kv)) pairs = true ->
    let d' := fold_left (fun d kv => dict_set d (fst kv) (snd kv)) pairs d in
    distinct (map fst d') = true
    /\ forallb (fun kv => keys_unique (snd kv)) d' = true
    /\ forall k, dict_get d' k
                 = match last_value pairs k with
                   | Some v => Some v
                   | None => dict_get d k
                   end.
Proof.
  induction pairs as [|[k v] pairs IH]; intros d D V P; simpl in *.
  - now repeat split.
  - apply andb_true_iff in P. destruct P as [Pv P].
    destruct (IH (dict_set d k v)) as (D' & V' & G');
      [now apply dict_set_distinct | now apply dict_set_values | exact P |].
    split; [exact D'|]. split; [exact V'|].
    intros k0. rewrite G', dict_get_set.
    destruct (last_value pairs k0); [reflexivity|].
    now destruct (String.eqb k k0).
Qed.

(** [dict(pairs)] holds each key once, with the value of its last pair. *)
Lemma dict_spec (pairs : list (string * value)) :
  forallb (fun kv => keys_unique (snd kv)) pairs = true ->
  keys_unique (VDict (dict pairs)) = true
  /\ forall k, dict_get (dict pairs) k = last_value pairs k.
Proof.
  intros P. destruct (fold_dict_set pairs [] eq_refl eq_refl P) as (D & V & G).
  split.
  - simpl. unfold dict. now rewrite D, V.
  - intros k. unfold dict. rewrite G. now destruct (last_value pairs k).
Qed.

End Dict.

Section DecoderKeys.
Import Py Json.
Context {interpreter : Py.Interpreter}.

Lemma forallb_snoc {A : Type} (P : A -> bool) (l : list A) (x : A) :
  forallb P l = true -> P x = true -> forallb P (l ++ [x]) = true.
Proof. intros L X. rewrite forallb_app, L. simpl. now rewrite X. Qed.

Ltac break_scan :=
  match goal with
  | |- (if ?b then _ else _) = _ -> _ => destruct b eqn:?
  | |- match ?x with _ => _ end = _ -> _ => destruct x eqn:?
  end.

Lemma scan_keys_unique (fuel : nat) :
  (forall calls s v rest,
     scan_once fuel calls s = Parsed v rest -> keys_unique v = true)
  /\ (forall calls s pairs v rest,
        forallb (fun kv => keys_unique (snd kv)) pairs = true ->
        object_items fuel calls s pairs = Parsed v rest -> keys_unique v = true)
  /\ (forall calls s values v rest,
        forallb keys_unique values = true ->
        array_items fuel calls s values = Parsed v rest -> keys_unique v = true).
Proof.
  induction fuel as [|fuel (IHs & IHo & IHa)].
  - repeat split; intros; discriminate.
  - split; [|split].
    + intros calls [|c s'] v rest; [intros H; discriminate H|].
      rewrite scan_once_S; cbv zeta; unfold raise_errmsg, parse_constant.
      repeat break_scan; intros H; try discriminate H;
        try (apply Parsed_inv in H; destruct H as [<- _]; reflexivity);
        try (now apply IHo in H); try (now apply IHa in H).
    + intros calls s pairs v rest P. rewrite object_items_S; unfold raise_errmsg.
      repeat break_scan; intros H; try discriminate H;
        match goal with
        | E : scan_once fuel _ _ = Parsed _ _ |- _ => apply IHs in E
        end.
      * apply Parsed_inv in H. destruct H as [<- _].
        apply dict_spec. now apply forallb_snoc.
      * apply IHo in H; [exact H|]. now apply forallb_snoc.
    + intros calls s values v rest P. rewrite array_items_S; unfold raise_errmsg.
      repeat break_scan; intros H; try discriminate H;
        match goal with
        | E : scan_once fuel _ _ = Parsed _ _ |- _ => apply IHs in E
        end.
      * apply Parsed_inv in H. destruct H as [<- _].
        simpl. now apply forallb_snoc.
      * apply IHa in H; [exact H|]. now apply forallb_snoc.
Qed.

(** X7. A value that [json.loads] returns holds no key twice, in the
    mapping itself and in every mapping inside it: where the JSON text
    repeats a key, [dict(pairs)] keeps one entry for it (with the value of
    its last occurrence, lemma [dict_spec]). *)
Theorem loads_keys_unique (s : string) (v : value) :
  loads s = Return v -> keys_unique v = true.
Proof.
  intros H. apply loads_Return in H. destruct H as [rest E].
  now apply (proj1 (scan_keys_unique _)) in E.
Qed.

End DecoderKeys.

Lemma loads_keys_unique_witness :
  Json.loads (interpreter := cpython)
    ("{" ++ Str.quoted "k" ++ ": 1, " ++ Str.quoted "k" ++ ": {"
     ++ Str.quoted "j" ++ ": 2, " ++ Str.quoted "j" ++ ": 3}}")
  = Py.Return (Py.VDict [("k", Py.VDict [("j", Py.VInt 3)])])
  /\ keys_unique (Py.VDict [("k", Py.VDict [("j", Py.VInt 3)])]) = true.
Proof.
  split; [reflexivity|].
  apply (loads_keys_unique (interpreter := cpython)
           ("{" ++ Str.quoted "k" ++ ": 1, " ++ Str.quoted "k" ++ ": {"
            ++ Str.quoted "j" ++ ": 2, " ++ Str.quoted "j" ++ ": 3}}")).
  reflexivity.
Defined.

(** * The sample pipeline: properties *)

(** ** Runs of composed programs *)

Section RunFacts.
Import Etl Run.

Lemma runs_bind {A B : Type} (m : Prog A) (f : A -> Prog B)
  (t : list event) (o : Py.outcome B) :
  runs (bind m f) t o ->
  (exists t1 a t2,
     runs m t1 (Py.Return a) /\ runs (f a) t2 o /\ t = (t1 ++ t2)%list)
  \/ (exists e, runs m t (Py.Raise e) /\ o = Py.Raise e).
Proof.
  revert t; induction m as [a|e|R q k IH|R a k IH]; intros t; cbn [bind runs].
  - intros H. left. now exists [], a, t.
  - intros [-> ->]. right. now exists e.
  - intros (r & t' & -> & H).
    destruct (IH r t' H) as [(t1 & a & t2 & Hm & Hf & ->)|(e & Hm & ->)].
    + left. exists (Asked q r :: t1), a, t2. split; [|now split].
      now exists r, t1.
    + right. exists e. split; [|reflexivity]. now exists r, t'.
  - intros (x & t' & -> & H).
    destruct (IH x t' H) as [(t1 & b & t2 & Hm & Hf & ->)|(e & Hm & ->)].
    + left. exists (Did a x :: t1), b, t2. split; [|now split].
      now exists x, t1.
    + right. exists e. split; [|reflexivity]. now exists x, t'.
Qed.

Lemma runs_catch {A : Type} (m : Prog A) (t : list event)
  (o : Py.outcome (Py.outcome A)) :
  runs (catch m) t o -> exists o', runs m t o' /\ o = Py.Return o'.
Proof.
  revert t; induction m as [a|e|R q k IH|R a k IH]; intros t; cbn [catch runs].
  - intros [-> ->]. now exists (Py.Return a).
  - intros [-> ->]. now exists (Py.Raise e).
  - intros (r & t' & -> & H). destruct (IH r t' H) as (o' & Hm & ->).
    exists o'. split; [|reflexivity]. now exists r, t'.
  - intros (x & t' & -> & H). destruct (IH x t' H) as (o' & Hm & ->).
    exists o'. split; [|reflexivity]. now exists x, t'.
Qed.

Lemma runs_try_except {A : Type} (body : Prog A) (handler : Py.exn -> Prog A)
  (t : list event) (o : Py.outcome A) :
  runs (try_except body handler) t o ->
  (exists a, runs body t (Py.Return a) /\ o = Py.Return a)
  \/ (exists t1 e t2,
        runs body t1 (Py.Raise e) /\ runs (handler e) t2 o /\ t = (t1 ++ t2)%list).
Proof.
  unfold try_except. intros H. apply runs_bind in H.
  destruct H as [(t1 & x & t2 & Hm & Hf & ->)|(e & Hm & _)];
    apply runs_catch in Hm; destruct Hm as (o' & Hm & E); [|discriminate E].
  injection E as ->. destruct o' as [a|e].
  - destruct Hf as [-> ->]. left. exists a. now rewrite app_nil_r.
  - right. now exists t1, e, t2.
Qed.

(** The same, with the outcome of the first part as a case. *)
Lemma runs_bind_cases {A B : Type} (m : Prog A) (f : A -> Prog B)
  (t : list event) (o : Py.outcome B) :
  runs (bind m f) t o ->
  exists t1 om,
    runs m t1 om
    /\ match om with
       | Py.Return a => exists t2, runs (f a) t2 o /\ t = (t1 ++ t2)%list
       | Py.Raise e => t = t1 /\ o = Py.Raise e
       end.
Proof.
  intros H. apply runs_bind in H.
  destruct H as [(t1 & a & t2 & Hm & Hf & ->)|(e & Hm & ->)].
  - exists t1, (Py.Return a). split; [exact Hm | now exists t2].
  - exists t, (Py.Raise e). now split.
Qed.

Lemma runs_try_cases {A : Type} (body : Prog A) (handler : Py.exn -> Prog A)
  (t : list event) (o : Py.outcome A) :
  runs (try_except body handler) t o ->
  exists t1 ob,
    runs body t1 ob
    /\ match ob with
       | Py.Return a => t = t1 /\ o = Py.Return a
       | Py.Raise e => exists t2, runs (handler e) t2 o /\ t = (t1 ++ t2)%list
       end.
Proof.
  intros H. apply runs_try_except in H.
  destruct H as [(a & Hm & ->)|(t1 & e & t2 & Hm & Hh & ->)].
  - exists t, (Py.Return a). now split.
  - exists t1, (Py.Raise e). split; [exact Hm | now exists t2].
Qed.

(** A run in an environment is a run. *)
Lemma run_runs {E A : Type} (env : Oracle E) (p : Prog A) (e : E) :
  runs p (fst (run env p e)) (snd (run env p e)).
Proof.
  revert e; induction p as [a|x|R q k IH|R a k IH]; intros e; cbn [run runs].
  - now split.
  - now split.
  - destruct (answer env q e) as [r e']. specialize (IH r e').
    destruct (run env (k r) e') as [t o]. now exists r, t.
  - destruct (outcome_of env a e) as [x e']. specialize (IH x e').
    destruct (run env (k x) e') as [t o]. now exists x, t.
Qed.

End RunFacts.

(** ** Traces *)

Section TraceFacts.
Import Etl Run Trace.

Lemma preceded_app (mark trigger : event -> bool) (t1 t2 : list event) :
  forall seen,
    preceded mark trigger seen (t1 ++ t2)
    = preceded mark trigger seen t1
      && preceded mark trigger (seen || existsb mark t1) t2.
Proof.
  induction t1 as [|ev t1 IH]; intros seen; cbn [app preceded existsb].
  - now rewrite orb_false_r.
  - rewrite IH, <- andb_assoc, orb_assoc. reflexivity.
Qed.

Lemma preceded_seen (mark trigger : event -> bool) (t : list event) :
  preceded mark trigger true t = true.
Proof. induction t as [|ev t IH]; [reflexivity | exact IH]. Qed.

Lemma preceded_none (mark trigger : event -> bool) (t : list event) (seen : bool) :
  existsb trigger t = false -> preceded mark trigger seen t = true.
Proof.
  revert seen; induction t as [|ev t IH]; intros seen; cbn [existsb preceded];
    [reflexivity|].
  rewrite orb_false_iff. intros [-> H]. rewrite orb_true_r. now apply IH.
Qed.

Lemma preceded_comes_after (mark trigger : event -> bool) (t : list event) :
  preceded mark trigger false t = true -> comes_after mark trigger t.
Proof.
  intros H pre ev post -> T. rewrite preceded_app in H.
  apply andb_true_iff in H. destruct H as [_ H]. cbn [preceded] in H.
  rewrite T in H. cbn in H. rewrite orb_false_r in H.
  apply andb_true_iff in H. now destruct H as [H _].
Qed.

Lemma among_not_called (names : list string) (name : string) (t : list event) :
  existsb (String.eqb name) names = false ->
  forallb (among names) t = true -> existsb (called name) t = false.
Proof.
  intros N. induction t as [|ev t IH]; cbn [forallb existsb]; [reflexivity|].
  rewrite andb_true_iff. intros [A H]. rewrite (IH H), orb_false_r.
  unfold called. destruct (String.eqb_spec (label ev) name) as [E|_]; [|reflexivity].
  unfold among in A. rewrite E, N in A. discriminate A.
Qed.

Lemma among_subset (small big : list string) (t : list event) :
  forallb (fun name => existsb (String.eqb name) big) small = true ->
  forallb (among small) t = true -> forallb (among big) t = true.
Proof.
  intros S. induction t as [|ev t IH]; cbn [forallb]; [reflexivity|].
  rewrite !andb_true_iff. intros [A H]. split; [|now apply IH].
  unfold among in *. apply existsb_exists in A. destruct A as (n & In_n & E).
  apply String.eqb_eq in E. subst n.
  rewrite forallb_forall in S. now apply S.
Qed.

Lemma existsb_false_app {A : Type} (P : A -> bool) (l1 l2 : list A) :
  existsb P l1 = false -> existsb P l2 = false -> existsb P (l1 ++ l2) = false.
Proof. intros H1 H2. now rewrite existsb_app, H1, H2. Qed.

Lemma ends_with_app (ev : event) (t1 t2 : list event) :
  ends_with ev t2 -> ends_with ev (t1 ++ t2).
Proof. intros (t' & ->). exists (t1 ++ t')%list. now rewrite app_assoc. Qed.

Lemma ends_with_cons (ev ev0 : event) (t : list event) :
  ends_with ev t -> ends_with ev (ev0 :: t).
Proof. apply (ends_with_app ev [ev0] t). Qed.

Lemma ends_with_one (ev : event) : ends_with ev [ev].
Proof. now exists []. Qed.

End TraceFacts.

(** ** The functions, run by run *)

(** The part of a program that waits for a case analysis. *)
Ltac blocked p :=
  lazymatch p with
  | Etl.bind ?m _ => blocked m
  | Etl.catch ?m => blocked m
  | Etl.lift ?o => o
  | if ?b then _ else _ => b
  | match ?x with _ => _ end => x
  end.

(** All the runs of a program that is written out: one goal for each. *)
Ltac walk H :=
  cbn [Run.runs Etl.bind Etl.catch Etl.try_except Etl.lift Etl.ask Etl.perform
       Etl.ret Etl.raise Script.with_open Script.json_load] in H;
  lazymatch type of H with
  | _ = [] /\ _ = _ =>
      destruct H as [-> ->];
      repeat match goal with u : unit |- _ => destruct u end
  | ex _ =>
      let x := fresh "x" in
      let t := fresh "t" in
      destruct H as (x & t & -> & H); walk H
  | Run.runs ?p _ _ =>
      let b := blocked p in destruct b eqn:?; walk H
  end.

(** A trace that is written out ends with its last event. *)
Ltac last_event :=
  lazymatch goal with
  | |- Trace.ends_with _ ?t => exists (removelast t); reflexivity
  end.

(** What a trace that is written out holds. *)
Ltac settle :=
  repeat match goal with
    | E : Builtins.get ?v _ = Py.Return _ |- _ =>
        is_var v; destruct v; try discriminate E
    end;
  cbn [existsb forallb Trace.approving_read Trace.unusable_read];
  repeat match goal with
    | E : existsb _ ?x = _ |- context [existsb _ ?x] => rewrite E
    end;
  unfold Trace.approves, Trace.holds_object;
  repeat match goal with
    | E : Json.loads _ = _ |- _ => rewrite E
    | E : Builtins.get _ _ = _ |- _ => rewrite E
    | E : Builtins.eq_True _ = _ |- _ => rewrite E
    end;
  try reflexivity.

(** The event of a trace that is written out which raised. *)
Ltac find_event :=
  repeat (first [apply Exists_cons_hd; cbn; now eauto | apply Exists_cons_tl]).

(** The runs of a program made of parts: one goal for each way the parts
    can end.  [known] is what is known of the parts that are functions. *)
Ltac steps known H :=
  lazymatch type of H with
  | Run.runs (Etl.bind _ _) _ _ =>
      let Hm := fresh "Hm" in
      apply runs_bind_cases in H;
      destruct H as (? & ? & Hm & H);
      part known Hm; more known H
  | Run.runs (Etl.try_except _ _) _ _ =>
      let Hb := fresh "Hb" in
      apply runs_try_cases in H;
      destruct H as (? & ? & Hb & H);
      part known Hb; more known H
  | Run.runs (if negb ?b then _ else _) _ _ =>
      destruct b; cbn [negb] in H; steps known H
  | Run.runs (if ?b then _ else _) _ _ => destruct b; steps known H
  | Run.runs (match ?x with _ => _ end) _ _ => destruct x; steps known H
  | _ => part known H
  end
with part known Hm :=
  first
    [ known Hm
    | lazymatch type of Hm with
      | Run.runs (Etl.bind _ _) _ _ => steps known Hm
      | Run.runs (Etl.try_except _ _) _ _ => steps known Hm
      | Run.runs (if _ then _ else _) _ _ => steps known Hm
      | Run.runs (match _ with _ => _ end) _ _ => steps known Hm
      | _ => walk Hm
      end ]
with more known H :=
  cbv beta iota in H;
  lazymatch type of H with
  | match ?om with _ => _ end => destruct om; more known H
  | ex _ => destruct H as (? & H & ->); steps known H
  | _ /\ _ => destruct H as [-> ->]
  end.

(** What the lemmas of the parts say, one fact for each hypothesis. *)
Ltac tidy :=
  repeat match goal with
    | H : _ /\ _ |- _ => destruct H
    | H : False |- _ => destruct H
    | H : Py.Raise _ = Py.Return _ |- _ => discriminate H
    | H : Py.Return _ = Py.Raise _ |- _ => discriminate H
    | H : Py.Return _ = Py.Return _ |- _ => clear H
    | H : exists _ : option _, _ = _ |- _ => destruct H as [? H]
    | u : unit |- _ => destruct u
    | H : ?o = Py.Return _ |- _ => is_var o; subst o
    end.

(** The calls that the parts of a run did not make. *)
Ltac absent name :=
  repeat match goal with
    | F : forallb (Trace.among ?calls) ?tp = true |- _ =>
        lazymatch goal with
        | _ : existsb (Trace.called name) tp = false |- _ => fail
        | _ => idtac
        end;
        pose proof (among_not_called calls name tp eq_refl F)
    end.

(** Every call of a trace made of parts is among [big]. *)
Ltac all_among :=
  rewrite ?forallb_app; cbn [forallb];
  repeat match goal with
    | A : forallb (Trace.among ?calls) ?x = true
      |- context [forallb (Trace.among ?big) ?x] =>
        rewrite (among_subset calls big x eq_refl A)
    end;
  reflexivity.

(** In a trace made of parts, a call named [name] comes after a [mark]. *)
Ltac all_preceded name :=
  absent name;
  cbn [app Trace.preceded]; rewrite ?preceded_app;
  repeat match goal with
    | A : existsb (Trace.called name) ?x = false
      |- context [Trace.preceded ?m (Trace.called name) ?s ?x] =>
        rewrite (preceded_none m (Trace.called name) x s A)
    end;
  rewrite ?existsb_app;
  repeat match goal with
    | A : existsb _ ?x = true |- context [existsb _ ?x] => rewrite A
    end;
  rewrite ?orb_true_r, ?preceded_seen;
  cbn;
  repeat match goal with
    | A : existsb (Trace.called name) ?x = false
      |- context [Trace.preceded ?m (Trace.called name) ?s ?x] =>
        rewrite (preceded_none m (Trace.called name) x s A)
    end;
  rewrite ?orb_true_r, ?preceded_seen; reflexivity.

Section Functions.
Import Etl Run Trace Script.
Context {interpreter : Py.Interpreter}.

Lemma send_alert_email_runs (subject message : string)
  (t : list event) (o : Py.outcome unit) :
  runs (send_alert_email subject message) t o ->
  o = Py.Return tt
  /\ forallb (among alert_calls) t = true
  /\ preceded (fun ev => called "starttls" ev && returned ev) (called "sendmail")
       false t = true
  /\ preceded (fun ev => called "login" ev && returned ev) (called "sendmail")
       false t = true
  /\ existsb (called "os.getenv") t = true
  /\ (ends_with (Asked (logging_info "Alert email sent successfully." []) tt) t
      \/ exists e,
           ends_with (Asked (logging_error "Error sending alert email: %s"
                               [of_str (Py.str e)]) tt) t
           /\ Exists (raised e) t).
Proof.
  unfold send_alert_email. intros H. walk H.
  all: repeat (split; [reflexivity|]).
  all: try (left; last_event).
  all: right; eexists; (split; [last_event|]).
  all: repeat (first [apply Exists_cons_hd; reflexivity | apply Exists_cons_tl]).
Qed.

Lemma get_last_checkpoint_runs (settings : Settings) (t : list event)
  (o : Py.outcome (option Scalar)) :
  runs (get_last_checkpoint settings) t o ->
  (exists last_id, o = Py.Return last_id)
  /\ forallb (among load_calls) t = true
  /\ existsb (called "execute") t = false.
Proof.
  unfold get_last_checkpoint. intros H. walk H.
  all: split; [now eexists | split; reflexivity].
Qed.

Lemma save_checkpoint_runs (settings : Settings) (last_id : Scalar)
  (t : list event) (o : Py.outcome unit) :
  runs (save_checkpoint settings last_id) t o ->
  o = Py.Return tt /\ forallb (among load_calls) t = true.
Proof.
  unfold save_checkpoint. intros H. walk H.
  all: split; reflexivity.
Qed.

(** Only a [read] gives the text of an approval file. *)
Lemma among_no_reads (names : list string) (t : list event) :
  existsb (String.eqb "read") names = false ->
  forallb (among names) t = true ->
  existsb approving_read t = false /\ existsb unusable_read t = false.
Proof.
  intros N. induction t as [|ev t IH]; cbn [forallb existsb]; [now split|].
  rewrite andb_true_iff. intros [A H]. destruct (IH H) as [-> ->].
  rewrite !orb_false_r.
  assert (L : label ev <> "read").
  { intros E. unfold among in A. rewrite E, N in A. discriminate A. }
  destruct ev as [R q r|R a x]; [now split|].
  destruct a; now split.
Qed.

Lemma requires_admin_approval_runs (t : list event) (o : Py.outcome bool) :
  runs requires_admin_approval t o ->
  forallb (among approval_calls) t = true
  /\ match o with
     | Py.Return true =>
         existsb approving_read t = true
         /\ existsb unusable_read t = false
         /\ forallb (among check_calls) t = true
         /\ In (Asked (os_path_exists "admin_approval.json") true) t
         /\ existsb (called "INFO Admin approval granted.") t = true
     | Py.Return false =>
         existsb approving_read t = false
         /\ existsb unusable_read t = false
         /\ existsb (called "ERROR ETL script modification requires admin approval!") t
            = true
         /\ existsb (called "os.getenv") t = true
     | Py.Raise e =>
         forallb (among check_calls) t = true
         /\ In (Asked (os_path_exists "admin_approval.json") true) t
         /\ comes_from e t
     end.
Proof.
  unfold requires_admin_approval. intros H.
  steps ltac:(fun Hm => apply send_alert_email_runs in Hm) H.
  all: tidy.
  all: try match goal with
         | A : forallb (among alert_calls) ?x = true |- _ =>
             destruct (among_no_reads alert_calls x eq_refl A)
         end.
  all: split; [all_among|].
  all: cbn [app]; rewrite ?app_nil_r.
  all: repeat (split; [settle; cbn; now auto|]).
  all: try (settle; cbn; now auto).
  all: first [left; now find_event | right; now find_event].
Qed.

Lemma extract_data_runs (file_path : string) (t : list event)
  (o : Py.outcome (option DataFrame)) :
  runs (extract_data file_path) t o ->
  forallb (among extract_calls) t = true /\ exists df, o = Py.Return df.
Proof.
  unfold extract_data. intros H. walk H.
  all: split; [reflexivity | now eexists].
Qed.

Lemma validate_data_runs (df : DataFrame) (t : list event)
  (o : Py.outcome DataFrame) :
  runs (validate_data df) t o ->
  forallb (among validate_calls) t = true
  /\ match o with
     | Py.Return _ => existsb (called validation_completed) t = true
     | Py.Raise e =>
         existsb (called validation_completed) t = false
         /\ Exists (raised e) t
     end.
Proof.
  unfold validate_data. intros H. walk H.
  all: split; [reflexivity|].
  all: first [reflexivity | split; [reflexivity | now find_event]].
Qed.

Lemma transform_data_runs (df : DataFrame) (t : list event)
  (o : Py.outcome (option DataFrame)) :
  runs (transform_data df) t o ->
  forallb (among transform_calls) t = true
  /\ match o with
     | Py.Return (Some _) => existsb (called transformation_completed) t = true
     | Py.Return None => existsb (called transformation_completed) t = false
     | Py.Raise _ => False
     end.
Proof.
  unfold transform_data. intros H. walk H.
  all: split; reflexivity.
Qed.

Lemma load_data_runs (settings : Settings) (df : DataFrame) (table_name : string)
  (t : list event) (o : Py.outcome unit) :
  runs (load_data settings df table_name) t o ->
  o = Py.Return tt
  /\ forallb (among load_calls) t = true
  /\ preceded loaded (called "execute") false t = true.
Proof.
  unfold load_data. intros H.
  steps ltac:(fun Hm =>
           first [ apply send_alert_email_runs in Hm
                 | apply get_last_checkpoint_runs in Hm
                 | apply save_checkpoint_runs in Hm ]) H.
  all: tidy.
  all: split; [reflexivity|]; split; [all_among | all_preceded "execute"].
Qed.

Lemma archive_processed_file_runs (file_path : string) (t : list event)
  (o : Py.outcome unit) :
  runs (archive_processed_file file_path) t o ->
  o = Py.Return tt
  /\ forallb (among archive_calls) t = true
  /\ existsb (among archive_ends) t = true.
Proof.
  unfold archive_processed_file. intros H. walk H.
  all: repeat split; reflexivity.
Qed.

Lemma generate_compliance_report_runs (t : list event) (o : Py.outcome unit) :
  runs generate_compliance_report t o ->
  o = Py.Return tt
  /\ forallb (among report_calls) t = true
  /\ forallb (fun ev =>
                match dumped ev with
                | Some obj => says_loaded obj
                | None => true
                end) t = true
  /\ existsb (among report_ends) t = true.
Proof.
  unfold generate_compliance_report. intros H. walk H.
  all: repeat split; reflexivity.
Qed.

Lemma replaced_load_data_runs (settings : Settings) (df : DataFrame)
  (table_name : string) (t : list event) (o : Py.outcome unit) :
  runs (Replaced.load_data settings df table_name) t o ->
  existsb (called "INFO Connecting to database...") t = true.
Proof.
  unfold Replaced.load_data. intros H.
  apply runs_try_except in H.
  destruct H as [(a & H & _)|(t1 & e & t2 & H & _ & ->)];
    cbn [runs bind ask] in H; destruct H as (r & t' & -> & _); reflexivity.
Qed.

End Functions.
(** ** The pipeline, step by step *)

(** The runs of a program made of the steps of the pipeline. *)
Ltac compose H :=
  steps ltac:(fun Hm =>
           first
             [ apply requires_admin_approval_runs in Hm
             | apply extract_data_runs in Hm
             | apply validate_data_runs in Hm
             | apply transform_data_runs in Hm
             | apply load_data_runs in Hm
             | apply archive_processed_file_runs in Hm
             | apply generate_compliance_report_runs in Hm ]) H.

(** Whether a call named [name] is in the trace of [V], step by step. *)
Ltac calls_in name V :=
  absent name;
  rewrite ?existsb_app in V; cbn [existsb] in V;
  repeat match goal with
    | E : existsb (Trace.called name) _ = _ |- _ => rewrite E in V
    end;
  cbn in V.

Section Pipeline.
Import Etl Run Trace Script.
Context {interpreter : Py.Interpreter}.

Lemma among_no_outsider (names : list string) (t : list event) :
  forallb (among names) t = true ->
  existsb (fun ev => negb (among names ev)) t = false.
Proof.
  induction t as [|ev t IH]; cbn [forallb existsb]; [reflexivity|].
  rewrite andb_true_iff. intros [-> H]. now rewrite (IH H).
Qed.

Lemma among_not_among (names others : list string) (t : list event) :
  forallb (fun name => negb (existsb (String.eqb name) others)) names = true ->
  forallb (among names) t = true -> existsb (among others) t = false.
Proof.
  intros D. induction t as [|ev t IH]; cbn [forallb existsb]; [reflexivity|].
  rewrite andb_true_iff. intros [A H]. rewrite (IH H), orb_false_r.
  unfold among in *. apply existsb_exists in A. destruct A as (n & In_n & E).
  apply String.eqb_eq in E. subst n.
  rewrite forallb_forall in D. specialize (D _ In_n).
  now apply negb_true_iff in D.
Qed.

Lemma dumped_label (ev : event) (obj : Py.value) :
  dumped ev = Some obj -> label ev = "json.dump".
Proof.
  destruct ev as [R q r|R a x]; [discriminate|].
  destruct a; try discriminate. reflexivity.
Qed.

Lemma among_not_dumped (names : list string) (P : Py.value -> bool)
  (t : list event) :
  existsb (String.eqb "json.dump") names = false ->
  forallb (among names) t = true ->
  forallb (fun ev => match dumped ev with Some obj => P obj | None => true end) t
  = true.
Proof.
  intros N. induction t as [|ev t IH]; cbn [forallb]; [reflexivity|].
  rewrite andb_true_iff. intros [A H]. rewrite (IH H), andb_true_r.
  destruct (dumped ev) as [obj|] eqn:E; [|reflexivity].
  apply dumped_label in E. unfold among in A. rewrite E, N in A. discriminate A.
Qed.

(** X8. [reconcile_data] never reconciles.  Line 205 reads a name that the
    module does not bind, so [get_source_count] logs the [NameError] and
    returns [None] in every run; whatever the database answers,
    [reconcile_data] then ends with the warning that it skips the
    reconciliation: no file is read, no counts are compared and no alert is
    sent. *)
Theorem reconcile_data_always_skips (settings : Settings) (t : list event)
  (o : Py.outcome unit) :
  runs (reconcile_data settings) t o ->
  o = Py.Return tt
  /\ In (Asked (logging_error "Error getting source count: %s"
                  [of_str "name 'SOURCE_FILE_PATH' is not defined"]) tt) t
  /\ ends_with (Asked (logging_warning
                         "Skipping reconciliation due to missing data." []) tt) t
  /\ existsb (among ["pd.read_csv"; "equals"; "minus"; "smtplib.SMTP"; "sendmail"]) t
     = false.
Proof.
  unfold reconcile_data, get_source_count, get_target_count, SOURCE_FILE_PATH.
  intros H. walk H.
  all: split; [reflexivity|]; split; [now left|]; split; [last_event|reflexivity].
Qed.

(** X9. [send_alert_email] never raises, and it sends mail only on a
    connection that it has secured and logged in to: every [sendmail] of a
    run comes after a [starttls] and a [login] that returned.  A run ends
    with one line of the log: that the alert was sent, or the error with the
    text of the exception that one of the calls raised. *)
Theorem send_alert_email_never_raises (subject message : string)
  (t : list event) (o : Py.outcome unit) :
  runs (send_alert_email subject message) t o ->
  o = Py.Return tt
  /\ comes_after (fun ev => called "starttls" ev && returned ev)
       (called "sendmail") t
  /\ comes_after (fun ev => called "login" ev && returned ev)
       (called "sendmail") t
  /\ (ends_with (Asked (logging_info "Alert email sent successfully." []) tt) t
      \/ exists e,
           ends_with (Asked (logging_error "Error sending alert email: %s"
                               [of_str (Py.str e)]) tt) t
           /\ Exists (raised e) t).
Proof.
  intros H. apply send_alert_email_runs in H.
  destruct H as (O & _ & S & L & _ & E).
  split; [exact O|]. split; [now apply preceded_comes_after|].
  split; [now apply preceded_comes_after | exact E].
Qed.

(** X10. [requires_admin_approval] returns [True] exactly when it has read
    an approval file whose text line 66 accepts: a JSON object whose value
    for [approved] equals [True].  When it returns [True] it has sent no
    alert; when it returns [False] it has logged that approval is required
    and has gone on to the alert. *)
Theorem approval_is_what_the_file_says (t : list event) (b : bool) :
  runs requires_admin_approval t (Py.Return b) ->
  b = existsb approving_read t
  /\ (if b
      then existsb (among alert_calls) t = false
      else existsb (called "ERROR ETL script modification requires admin approval!") t
           = true
           /\ existsb (called "os.getenv") t = true).
Proof.
  intros H. apply requires_admin_approval_runs in H.
  destruct H as (A & H). destruct b.
  - destruct H as (R & _ & C & _ & _). split; [now rewrite R|].
    now apply (among_not_among check_calls).
  - destruct H as (R & _ & D & G). split; [now rewrite R | now split].
Qed.

(** X11. An approval file that holds no JSON object does not make the check
    answer [False]: the check has no handler, so when the text that it read
    does not decode to a JSON object the run raises, with the exception of
    [json.loads] or of [get] (or with the one that closing the file raised),
    after the calls of the check alone: no alert is sent and nothing is
    logged. *)
Theorem broken_approval_file_raises (t : list event) (o : Py.outcome bool) :
  runs requires_admin_approval t o ->
  existsb unusable_read t = true ->
  (exists e, o = Py.Raise e /\ comes_from e t)
  /\ forallb (among check_calls) t = true.
Proof.
  intros H U. apply requires_admin_approval_runs in H.
  destruct H as (_ & H). destruct o as [[|]|e].
  - destruct H as (_ & N & _). congruence.
  - destruct H as (_ & N & _). congruence.
  - destruct H as (C & _ & F). split; [now exists e | exact C].
Qed.

(** X12. Nothing happens before approval: in every run of [etl_pipeline],
    a call that is no part of the approval check (a call of pandas or of
    SQLAlchemy, a change of the file system, a line of the log of a later
    step) comes after the [read] of an approval file whose text line 66
    accepts. *)
Theorem nothing_happens_before_approval (settings : Settings)
  (t : list event) (o : Py.outcome unit) :
  runs (etl_pipeline settings) t o ->
  comes_after approving_read beyond_approval t.
Proof.
  unfold etl_pipeline. intros H. apply preceded_comes_after.
  compose H; tidy.
  all: cbn [app preceded]; try rewrite preceded_app.
  all: match goal with
       | A : forallb (among approval_calls) ?x = true |- _ =>
           rewrite (preceded_none approving_read beyond_approval x _
                      (among_no_outsider _ _ A))
       end.
  all: try match goal with
         | R : existsb approving_read _ = true |- _ =>
             rewrite R; now rewrite preceded_seen
         end.
  all: try match goal with
         | R : existsb approving_read _ = false |- _ => rewrite R
         end.
  all: reflexivity.
Qed.

(** X13. Once the data is validated, a run of [etl_pipeline] returns: no
    exception of the transformation, of the load, of the archive or of the
    report escapes.  And once the transformation has completed, the run
    archives the source file, writes the report and ends with the line
    [ETL pipeline completed successfully.], whatever the load did. *)
Theorem load_failures_do_not_stop_the_pipeline (settings : Settings)
  (t : list event) (o : Py.outcome unit) :
  runs (etl_pipeline settings) t o ->
  existsb (called validation_completed) t = true ->
  o = Py.Return tt
  /\ (existsb (called transformation_completed) t = true ->
      ends_with pipeline_completed t
      /\ existsb (among archive_ends) t = true
      /\ existsb (among report_ends) t = true).
Proof.
  unfold etl_pipeline. intros H V. compose H; tidy.
  all: try (calls_in validation_completed V; discriminate V).
  all: split; [reflexivity|]; intros T.
  all: try (calls_in transformation_completed T; discriminate T).
  split; [|split].
  - repeat match goal with
           | |- ends_with _ (_ ++ _) => apply ends_with_app
           end.
    apply ends_with_one.
  - rewrite !existsb_app.
    match goal with
    | E : existsb (among archive_ends) _ = true |- _ => rewrite E
    end.
    now rewrite !orb_true_r.
  - rewrite !existsb_app.
    match goal with
    | E : existsb (among report_ends) _ = true |- _ => rewrite E
    end.
    now rewrite !orb_true_r.
Qed.

(** The calls of a run of [etl_pipeline]. *)
Lemma etl_pipeline_calls (settings : Settings) (t : list event)
  (o : Py.outcome unit) :
  runs (etl_pipeline settings) t o -> forallb (among pipeline_calls) t = true.
Proof.
  unfold etl_pipeline. intros H. compose H; tidy.
  all: rewrite ?forallb_app; cbn [forallb].
  all: repeat match goal with
         | A : forallb (among ?calls) ?x = true
           |- context [forallb (among pipeline_calls) ?x] =>
             rewrite (among_subset calls pipeline_calls x eq_refl A)
         end.
  all: reflexivity.
Qed.

(** X14. The [load_data] of line 107 is never run: every run of it starts
    with the line [Connecting to database...], and no run of [etl_pipeline]
    logs that line or makes any of the calls that only this [load_data]
    makes.  In particular no run of [etl_pipeline] writes
    [etl_config_version.txt], the file that [generate_compliance_report]
    reads. *)
Theorem the_first_load_data_is_never_run (settings : Settings) :
  (forall df table_name t o,
     runs (Replaced.load_data settings df table_name) t o ->
     existsb (among replaced_calls) t = true)
  /\ (forall t o,
        runs (etl_pipeline settings) t o ->
        existsb (among replaced_calls) t = false).
Proof.
  split.
  - intros df table_name t o H. apply replaced_load_data_runs in H.
    apply existsb_exists in H. destruct H as (ev & I & C).
    apply existsb_exists. exists ev. split; [exact I|].
    unfold called in C. apply String.eqb_eq in C.
    unfold among. now rewrite C.
  - intros t o H. apply etl_pipeline_calls in H.
    now apply (among_not_among pipeline_calls).
Qed.

(** X15. The compliance report says that data was loaded whatever the load
    did: in every run of [etl_pipeline], what [json.dump] is given is a
    mapping whose value for [data_loaded] is [True]. *)
Theorem the_report_always_says_loaded (settings : Settings) (t : list event)
  (o : Py.outcome unit) :
  runs (etl_pipeline settings) t o ->
  forallb (fun ev =>
             match dumped ev with
             | Some obj => says_loaded obj
             | None => true
             end) t = true.
Proof.
  unfold etl_pipeline. intros H. compose H; tidy.
  all: rewrite ?forallb_app; cbn [forallb dumped].
  all: repeat match goal with
         | A : forallb (fun ev => match dumped ev with _ => _ end) ?x = true
           |- _ => rewrite A; clear A
         end.
  all: repeat match goal with
         | A : forallb (among ?calls) ?x = true
           |- context [forallb _ ?x] =>
             rewrite (among_not_dumped calls says_loaded x eq_refl A)
         end.
  all: reflexivity.
Qed.

(** X16. [load_data] never raises, and it saves a checkpoint only for data
    that it has loaded: every [INSERT] into the checkpoint table comes after
    a [to_sql] that returned. *)
Theorem a_checkpoint_follows_a_load (settings : Settings) (df : DataFrame)
  (table_name : string) (t : list event) (o : Py.outcome unit) :
  runs (load_data settings df table_name) t o ->
  o = Py.Return tt /\ comes_after loaded (called "execute") t.
Proof.
  intros H. apply load_data_runs in H. destruct H as (O & _ & P).
  split; [exact O | now apply preceded_comes_after].
Qed.

(** X17. The steps keep their order: in every run of [etl_pipeline], a
    [to_sql] comes after the lines that [validate_data] and
    [transform_data] log when they have completed. *)
Theorem the_load_follows_the_transformation (settings : Settings)
  (t : list event) (o : Py.outcome unit) :
  runs (etl_pipeline settings) t o ->
  comes_after (called validation_completed) (called "to_sql") t
  /\ comes_after (called transformation_completed) (called "to_sql") t.
Proof.
  unfold etl_pipeline. intros H.
  split; apply preceded_comes_after.
  all: compose H; tidy.
  all: absent "to_sql".
  all: cbn [app preceded]; rewrite ?preceded_app.
  all: repeat match goal with
         | A : existsb (called "to_sql") ?x = false
           |- context [preceded ?m (called "to_sql") ?s ?x] =>
             rewrite (preceded_none m (called "to_sql") x s A)
         end.
  all: rewrite ?existsb_app.
  all: repeat match goal with
         | A : existsb (called _) ?x = true |- context [existsb _ ?x] =>
             rewrite A
         end.
  all: rewrite ?orb_true_r, ?preceded_seen.
  all: cbn; rewrite ?orb_true_r; reflexivity.
Qed.

(** X18. An exception escapes [etl_pipeline] only from the approval check
    or from [validate_data]: the run has then made calls of the check, of
    the extraction and of the validation only, and the exception is the one
    that one of these calls raised, or that [json.loads] or [get] raised on
    the text of the approval file. *)
Theorem only_the_check_and_the_validation_raise (settings : Settings)
  (t : list event) (e : Py.exn) :
  runs (etl_pipeline settings) t (Py.Raise e) ->
  comes_from e t
  /\ forallb (among (approval_calls ++ extract_calls ++ validate_calls)) t = true.
Proof.
  unfold etl_pipeline. intros H.
  remember (Py.Raise e) as o eqn:O. compose H; tidy; try discriminate O.
  all: injection O as <-.
  all: split.
  all: try (rewrite ?forallb_app; cbn [forallb];
            repeat match goal with
              | A : forallb (among ?calls) ?x = true
                |- context [forallb (among ?big) ?x] =>
                  rewrite (among_subset calls big x eq_refl A)
              end;
            reflexivity).
  all: first
         [ match goal with
           | C : comes_from _ _ |- _ =>
               destruct C as [C|C]; [left|right];
               repeat (apply Exists_app; right); exact C
           end
         | left; repeat (apply Exists_app; right); assumption ].
Qed.

End Pipeline.
(** ** Runs in the environments of the examples *)

Section Witnesses.
Import Etl Run Trace Script Examples.

(** The runs of this section are on the interpreter of the examples. *)
#[local] Existing Instance Examples.interpreter.

Lemma reconcile_data_always_skips_witness :
  snd (run all_is_well (reconcile_data settings) tt) = Py.Return tt
  /\ existsb (called "create_engine")
       (fst (run all_is_well (reconcile_data settings) tt)) = true
  /\ ends_with (Asked (logging_warning
                         "Skipping reconciliation due to missing data." []) tt)
       (fst (run all_is_well (reconcile_data settings) tt)).
Proof.
  destruct (reconcile_data_always_skips settings _ _
              (run_runs all_is_well (reconcile_data settings) tt))
    as (O & _ & E & _).
  split; [exact O|]. split; [reflexivity | exact E].
Defined.

Lemma send_alert_email_never_raises_witness :
  snd (run mail_down (send_alert_email "ETL Load Error" "Data load failed") tt)
  = Py.Return tt
  /\ existsb (called "sendmail")
       (fst (run mail_down (send_alert_email "ETL Load Error" "Data load failed") tt))
     = false.
Proof.
  destruct (send_alert_email_never_raises "ETL Load Error" "Data load failed" _ _
              (run_runs mail_down
                 (send_alert_email "ETL Load Error" "Data load failed") tt))
    as (O & _).
  split; [exact O | reflexivity].
Defined.

Lemma approval_is_what_the_file_says_witness :
  snd (run approved_by_one requires_admin_approval tt) = Py.Return true
  /\ existsb (among alert_calls)
       (fst (run approved_by_one requires_admin_approval tt)) = false.
Proof.
  split; [reflexivity|].
  exact (proj2 (approval_is_what_the_file_says (interpreter := Examples.interpreter) _ true
                  (run_runs approved_by_one requires_admin_approval tt))).
Defined.

Lemma broken_approval_file_raises_witness :
  (exists e,
     snd (run approval_is_a_list requires_admin_approval tt) = Py.Raise e
     /\ Py.str e = "'list' object has no attribute 'get'")
  /\ forallb (among check_calls)
       (fst (run approval_is_a_list requires_admin_approval tt)) = true.
Proof.
  split; [eexists; split; reflexivity|].
  exact (proj2 (broken_approval_file_raises (interpreter := Examples.interpreter) _ _
                  (run_runs approval_is_a_list requires_admin_approval tt)
                  eq_refl)).
Defined.

Lemma nothing_happens_before_approval_witness :
  existsb beyond_approval (fst (run all_is_well (etl_pipeline settings) tt)) = true
  /\ comes_after approving_read beyond_approval
       (fst (run all_is_well (etl_pipeline settings) tt)).
Proof.
  split; [reflexivity|].
  exact (nothing_happens_before_approval (interpreter := Examples.interpreter) settings _ _
           (run_runs all_is_well (etl_pipeline settings) tt)).
Defined.

Lemma load_failures_do_not_stop_the_pipeline_witness :
  existsb (called "ERROR Error loading data: %s")
    (fst (run database_down (etl_pipeline settings) tt)) = true
  /\ existsb (called "to_sql")
       (fst (run database_down (etl_pipeline settings) tt)) = false
  /\ snd (run database_down (etl_pipeline settings) tt) = Py.Return tt
  /\ ends_with pipeline_completed
       (fst (run database_down (etl_pipeline settings) tt)).
Proof.
  split; [reflexivity|]. split; [reflexivity|].
  destruct (load_failures_do_not_stop_the_pipeline (interpreter := Examples.interpreter) settings _ _
              (run_runs database_down (etl_pipeline settings) tt) eq_refl)
    as (O & C).
  split; [exact O|]. exact (proj1 (C eq_refl)).
Defined.

Lemma the_report_always_says_loaded_witness :
  existsb (called "ERROR Error loading data: %s")
    (fst (run database_down (etl_pipeline settings) tt)) = true
  /\ existsb (called "json.dump")
       (fst (run database_down (etl_pipeline settings) tt)) = true
  /\ forallb (fun ev =>
                match dumped ev with
                | Some obj => says_loaded obj
                | None => true
                end)
       (fst (run database_down (etl_pipeline settings) tt)) = true.
Proof.
  split; [reflexivity|]. split; [reflexivity|].
  exact (the_report_always_says_loaded (interpreter := Examples.interpreter) settings _ _
           (run_runs database_down (etl_pipeline settings) tt)).
Defined.

Lemma a_checkpoint_follows_a_load_witness :
  existsb (called "execute")
    (fst (run all_is_well (load_data settings (DataFrame_at 1) "customers") tt))
  = true
  /\ comes_after loaded (called "execute")
       (fst (run all_is_well (load_data settings (DataFrame_at 1) "customers") tt)).
Proof.
  split; [reflexivity|].
  exact (proj2 (a_checkpoint_follows_a_load settings (DataFrame_at 1) "customers"
                  _ _
                  (run_runs all_is_well
                     (load_data settings (DataFrame_at 1) "customers") tt))).
Defined.

Lemma the_load_follows_the_transformation_witness :
  existsb (called "to_sql") (fst (run all_is_well (etl_pipeline settings) tt))
  = true
  /\ comes_after (called transformation_completed) (called "to_sql")
       (fst (run all_is_well (etl_pipeline settings) tt)).
Proof.
  split; [reflexivity|].
  exact (proj2 (the_load_follows_the_transformation (interpreter := Examples.interpreter) settings _ _
                  (run_runs all_is_well (etl_pipeline settings) tt))).
Defined.

Lemma only_the_check_and_the_validation_raise_witness :
  snd (run dropna_fails (etl_pipeline settings) tt) = Py.Raise refused
  /\ comes_from refused (fst (run dropna_fails (etl_pipeline settings) tt)).
Proof.
  split; [reflexivity|].
  exact (proj1 (only_the_check_and_the_validation_raise (interpreter := Examples.interpreter) settings _ refused
                  (run_runs dropna_fails (etl_pipeline settings) tt))).
Defined.

End Witnesses.
